(** * SD card driver over SPI (hello-pic/SDCard.c): model and properties

    The driver talks to an SDHC/SDXC card through the SPI transport declared
    in SPI.h.  This development embeds SDCard.c as Rocq functions:

    - [SDCard_crc] and the command frame are pure functions on bytes;
    - the operations that drive the bus ([__SDCard_command_r1],
      [SDCard_command], [SDCard_read512], [SDCard_init]) are written in a
      state monad over a [World]: the transport's own state, the driver's
      static session context [ctx_], and the log of the SPI calls made.

    Machine integers are [Z] with the wrap-around written where the C code
    narrows a value: [uint8_t] through [to_u8], [uint16_t] through [to_u16].
    The diagnostic [dprintf] output is not part of the model: it reads the
    driver's variables and changes none of them. *)

From Equations Require Import Equations.
From Stdlib Require Import ZArith List Lia Bool Arith.
Import ListNotations.
Local Open Scope Z_scope.

(** ** Machine integers *)

Definition to_u8 (x : Z) : Z := x mod 256.
Definition to_u16 (x : Z) : Z := x mod 65536.

Definition is_u8 (x : Z) : Prop := 0 <= x < 256.
Definition is_u16 (x : Z) : Prop := 0 <= x < 65536.
Definition is_u32 (x : Z) : Prop := 0 <= x < 4294967296.

(** ** Result codes and status bits (SDCard.h) *)

Definition SDCARD_SUCCESS : Z := 0.
Definition SDCARD_TIMEOUT : Z := 1.
Definition SDCARD_NOTSUPPORTED : Z := 2.
Definition SDCARD_BADRESPONSE : Z := 3.
Definition SDCARD_CRC_ERROR : Z := 4.

Definition SDCARD_R1_IDLE_STATE : Z := 0x01.

(** The four results the operations are written to give. *)
Definition declared (res : Z) : Prop :=
  res = SDCARD_SUCCESS \/ res = SDCARD_TIMEOUT \/
  res = SDCARD_NOTSUPPORTED \/ res = SDCARD_BADRESPONSE.

(** ** Byte buffers

    A [void *] or [uint8_t *] destination has no length of its own, so a
    buffer is a total map from offsets to bytes; the cells are 8 bits wide,
    which [poke] writes out. *)

Definition buffer := nat -> Z.

Definition poke (buf : buffer) (i : nat) (v : Z) : buffer :=
  fun j => if Nat.eqb j i then to_u8 v else buf j.

(** [poke_bytes buf off data]: the bytes of [data] land at [off], [off+1], ... *)
Fixpoint poke_bytes (buf : buffer) (off : nat) (data : list Z) : buffer :=
  match data with
  | [] => buf
  | b :: rest => poke_bytes (poke buf off b) (S off) rest
  end.

(** Two buffers with the same bytes at the offsets below [n]. *)
Definition agree_below (n : nat) (b b' : buffer) : Prop :=
  forall i : nat, (i < n)%nat -> b i = b' i.

(** ** Checksum: [SDCard_crc] *)

Module Crc.

(** One turn of the inner [for] loop:
    [if (crc & 0x80) crc ^= 0x89;  crc <<= 1;] on a [uint8_t]. *)
Definition bit_step (crc : Z) : Z :=
  let crc1 := if Z.land crc 0x80 =? 0 then crc else Z.lxor crc 0x89 in
  to_u8 (Z.shiftl crc1 1).

(** [for (int i = 0; i < 8; i++)], by the number of turns left. *)
Fixpoint bit_loop (turns : nat) (crc : Z) : Z :=
  match turns with
  | O => crc
  | S k => bit_loop k (bit_step crc)
  end.

(** [while (p < endp) { crc ^= *p++; ... }] over the bytes between [p] and
    [endp]. *)
Fixpoint byte_loop (bytes : list Z) (crc : Z) : Z :=
  match bytes with
  | [] => crc
  | b :: rest => byte_loop rest (bit_loop 8 (Z.lxor crc b))
  end.

End Crc.

(** [uint8_t SDCard_crc(void *buf, int count)].  [buf] lists the bytes found
    at the pointer; the loop visits the first [count] of them (none when
    [count <= 0]). *)
Definition SDCard_crc (buf : list Z) (count : Z) : Z :=
  Crc.byte_loop (firstn (Z.to_nat count) buf) 0.

(** The checksum loop as the specification words it: "for 8 iterations shift
    left, exclusive-or with the polynomial if the high bit was set", that is,
    the shift comes first and the polynomial is applied to the shifted
    accumulator.  Kept apart from [SDCard_crc] to compare the two. *)
Module CrcAsWorded.

Definition bit_step (crc : Z) : Z :=
  let shifted := to_u8 (Z.shiftl crc 1) in
  if Z.land crc 0x80 =? 0 then shifted else Z.lxor shifted 0x89.

Fixpoint bit_loop (turns : nat) (crc : Z) : Z :=
  match turns with
  | O => crc
  | S k => bit_loop k (bit_step crc)
  end.

Fixpoint byte_loop (bytes : list Z) (crc : Z) : Z :=
  match bytes with
  | [] => crc
  | b :: rest => byte_loop rest (bit_loop 8 (Z.lxor crc b))
  end.

Definition crc (buf : list Z) (count : Z) : Z :=
  byte_loop (firstn (Z.to_nat count) buf) 0.

End CrcAsWorded.

(** ** Command frame

    The first six statements of [__SDCard_command_r1] fill the local
    [uint8_t buf[6]]; [command] is a [uint8_t], [argument] a [uint32_t]. *)
Definition command_frame (command argument : Z) : list Z :=
  let b0 := Z.lor command 0x40 in
  let b1 := Z.land (Z.shiftr argument 24) 0xff in
  let b2 := Z.land (Z.shiftr argument 16) 0xff in
  let b3 := Z.land (Z.shiftr argument 8) 0xff in
  let b4 := Z.land (Z.shiftr argument 0) 0xff in
  let b5 := Z.lor (SDCard_crc [b0; b1; b2; b3; b4] 5) 0x01 in
  [b0; b1; b2; b3; b4; b5].

(** ** The SPI transport (SPI.h)

    SPI.h is the interface the driver is written against; its functions and
    the two configuration constants are taken as given.  [T] is whatever
    state the bus and the card behind it have.  [spi_receive count] returns
    the bytes it stored at the pointer it was handed, in order. *)
Class Transport (T : Type) : Type := {
  SPI_MSBFIRST : Z;
  SPI_MODE0 : Z;
  spi_begin : T -> T;
  spi_configure : Z -> Z -> Z -> T -> T;
  spi_begin_transaction : T -> T;
  spi_end_transaction : T -> T;
  spi_dummy_clocks : Z -> T -> T;
  spi_send : list Z -> T -> T;
  spi_receive_byte : T -> Z * T;
  spi_receive : Z -> T -> list Z * T
}.

(** One entry per call the driver makes into the transport. *)
Inductive Event : Type :=
| EvBegin
| EvConfigure (clock_delay bit_order mode : Z)
| EvBeginTransaction
| EvEndTransaction
| EvDummyClocks (clocks : Z)
| EvSend (bytes : list Z)
| EvReceiveByte (byte : Z)
| EvReceive (count : Z) (bytes : list Z).

(** [static struct SDCard { uint8_t clock_delay; uint16_t timeout; } ctx_] *)
Record SDCard : Type := mkSDCard { clock_delay : Z; timeout : Z }.

(** The state the driver runs in.  [log] has the most recent call first. *)
Record World (T : Type) : Type := mkWorld {
  bus : T;
  ctx_ : SDCard;
  log : list Event
}.
Arguments mkWorld {T} _ _ _.
Arguments bus {T} _.
Arguments ctx_ {T} _.
Arguments log {T} _.

(** [static ... ctx_ = { 0 }]: the world before anything ran. *)
Definition power_on {T : Type} (t : T) : World T :=
  mkWorld t (mkSDCard 0 0) [].

(** ** State monad *)

Definition M (T A : Type) : Type := World T -> A * World T.

Definition ret {T A : Type} (a : A) : M T A := fun w => (a, w).

Definition bind {T A B : Type} (m : M T A) (k : A -> M T B) : M T B :=
  fun w => let (a, w1) := m w in k a w1.

Declare Scope sd_scope.
Delimit Scope sd_scope with sd.
Notation "x <- m ;; k" := (bind m (fun x => k))
  (at level 61, m at next level, right associativity) : sd_scope.
Notation "' p <- m ;; k" := (bind m (fun x => match x with p => k end))
  (at level 61, p pattern, m at next level, right associativity) : sd_scope.
Notation "m ;; k" := (bind m (fun _ => k))
  (at level 61, right associativity) : sd_scope.
Local Open Scope sd_scope.

Section Driver.

Context {T : Type} {spi : Transport T}.

Definition get_ctx : M T SDCard := fun w => (ctx_ w, w).

Definition set_ctx (c : SDCard) : M T unit :=
  fun w => (tt, mkWorld (bus w) c (log w)).

(** A call into the transport that returns nothing. *)
Definition call (e : Event) (f : T -> T) : M T unit :=
  fun w => (tt, mkWorld (f (bus w)) (ctx_ w) (e :: log w)).

Definition SPI_begin : M T unit := call EvBegin spi_begin.

Definition SPI_configure (delay bit_order mode : Z) : M T unit :=
  call (EvConfigure delay bit_order mode) (spi_configure delay bit_order mode).

Definition SPI_begin_transaction : M T unit :=
  call EvBeginTransaction spi_begin_transaction.

Definition SPI_end_transaction : M T unit :=
  call EvEndTransaction spi_end_transaction.

Definition SPI_dummy_clocks (clocks : Z) : M T unit :=
  call (EvDummyClocks clocks) (spi_dummy_clocks clocks).

Definition SPI_send (bytes : list Z) : M T unit :=
  call (EvSend bytes) (spi_send bytes).

(** The driver keeps the returned value in a [uint8_t]. *)
Definition SPI_receive_byte : M T Z :=
  fun w =>
    let (r, t1) := spi_receive_byte (bus w) in
    let response := to_u8 r in
    (response, mkWorld t1 (ctx_ w) (EvReceiveByte response :: log w)).

Definition SPI_receive (count : Z) : M T (list Z) :=
  fun w =>
    let (data, t1) := spi_receive count (bus w) in
    (data, mkWorld t1 (ctx_ w) (EvReceive count data :: log w)).

(** *** [__SDCard_command_r1] *)

(** [do { response = SPI_receive_byte(); }
     while ((response & 0x80) && 0 < --timeout);]
    with [timeout] a [uint16_t]: the decrement wraps, and it is only made
    when the byte read has its high bit set. *)
Equations? r1_poll (timeout : Z) (w : World T) : Z * World T
  by wf (Z.to_nat (to_u16 (timeout - 1))) lt :=
r1_poll timeout w with SPI_receive_byte w := {
  | (response, w1) with Z.eq_dec (Z.land response 0x80) 0 := {
    | left _ => (response, w1)
    | right _ with Z_lt_dec 0 (to_u16 (timeout - 1)) := {
      | left _ => r1_poll (to_u16 (timeout - 1)) w1
      | right _ => (response, w1) } } }.
Proof.
  unfold to_u16 in *.
  apply Z2Nat.inj_lt; try apply Z.mod_pos_bound; try lia.
  rewrite (Z.mod_small (_ - 1)); [lia|].
  pose proof (Z.mod_pos_bound (timeout0 - 1) 65536). lia.
Defined.

Definition __SDCard_command_r1 (command argument : Z) : M T (Z * Z) :=
  let buf := command_frame command argument in
  SPI_begin_transaction;;
  SPI_dummy_clocks 1;;
  SPI_send buf;;
  c <- get_ctx;;
  response <- r1_poll (timeout c);;
  if negb (Z.land response 0x80 =? 0)
  then ret (SDCARD_TIMEOUT, response)
  else ret (SDCARD_SUCCESS, response).

(** *** [SDCard_command] *)

(** [response_buffer] is the memory at the caller's pointer on entry; the
    buffer returned is the same memory on exit.  [*r1 = response] has
    stored the status byte at offset 0 on every path. *)
Definition SDCard_command (command argument : Z) (response_buffer : buffer)
    (length : Z) : M T (Z * buffer) :=
  '(result, r1) <- __SDCard_command_r1 command argument;;
  let responsep := poke response_buffer 0 r1 in
  if negb (result =? SDCARD_SUCCESS)
  then
    SPI_end_transaction;;
    ret (result, responsep)
  else
    data <- SPI_receive (length - 1);;
    SPI_end_transaction;;
    ret (SDCARD_SUCCESS, poke_bytes responsep 1 data).

(** *** [SDCard_read512] *)

(** [for (int i = 0; i < 3000; i++) {
       response = SPI_receive_byte();  if (response != 0xff) break; }]
    by the number of turns left; [response] keeps its value when no turn
    is left. *)
Fixpoint token_poll (turns : nat) (response : Z) : M T Z :=
  match turns with
  | O => ret response
  | S k =>
      r <- SPI_receive_byte;;
      if negb (r =? 0xff) then ret r else token_poll k r
  end.

(** The body of [SDCard_read512] down to the label [done]. *)
Definition read512_to_done (addr : Z) (buf : buffer) : M T (Z * buffer) :=
  '(result, response) <- __SDCard_command_r1 17 addr;;
  if negb (result =? SDCARD_SUCCESS) then ret (result, buf)
  else if negb (response =? 0) then ret (SDCARD_BADRESPONSE, buf)
  else
    response <- token_poll 3000 response;;
    if response =? 0xff then ret (SDCARD_TIMEOUT, buf)
    else if response =? 0xfe then
      data <- SPI_receive 512;;
      ret (SDCARD_SUCCESS, poke_bytes buf 0 data)
    else ret (SDCARD_BADRESPONSE, buf).

(** [done: SPI_end_transaction(); return result;] *)
Definition SDCard_read512 (addr : Z) (buf : buffer) : M T (Z * buffer) :=
  '(result, buf1) <- read512_to_done addr buf;;
  SPI_end_transaction;;
  ret (result, buf1).

(** *** [SDCard_init] *)

(** The ACMD41 loop:
    [for (int i = 0; i < 3000; i++) {
       SDCard_command(55, 0, buf, 1);
       SDCard_command(41, 1UL << 30, buf, 5);
       if (buf[0] == 0x00) break; }]
    by the number of turns left.  The results of the two commands are
    dropped; only the buffer is looked at. *)
Fixpoint acmd41_loop (turns : nat) (buf : buffer) : M T buffer :=
  match turns with
  | O => ret buf
  | S k =>
      '(_, buf1) <- SDCard_command 55 0 buf 1;;
      '(_, buf2) <- SDCard_command 41 (Z.shiftl 1 30) buf1 5;;
      if buf2 0%nat =? 0x00 then ret buf2 else acmd41_loop k buf2
  end.

(** The steps of [SDCard_init] from the ACMD41 loop's exit on. *)
Definition init_after_acmd41 (buf : buffer) : M T Z :=
  if negb (buf 0%nat =? 0x00) then ret SDCARD_TIMEOUT
  else
    '(_, buf) <- SDCard_command 58 0 buf 5;;
    if negb (Z.land (buf 0%nat) 0xfe =? 0) then ret SDCARD_BADRESPONSE
    else if Z.land (buf 1%nat) 0x40 =? 0 then ret SDCARD_NOTSUPPORTED
    else if Z.land (buf 1%nat) 0x80 =? 0 then ret SDCARD_BADRESPONSE
    else
      c <- get_ctx;;
      SPI_configure (clock_delay c) SPI_MSBFIRST SPI_MODE0;;
      ret SDCARD_SUCCESS.

(** [stack] is whatever the local [uint8_t buf[5]] holds on entry: the
    array is not initialised.  The three parameters are [uint16_t]; storing
    [clock_delay] in the 8-bit field narrows it. *)
Definition SDCard_init (initial_clock_delay clock_delay timeout : Z)
    (stack : buffer) : M T Z :=
  set_ctx (mkSDCard (to_u8 clock_delay) timeout);;
  SPI_begin;;
  let buf := stack in
  SPI_configure initial_clock_delay SPI_MSBFIRST SPI_MODE0;;
  SPI_begin_transaction;;
  SPI_dummy_clocks 10;;
  SPI_end_transaction;;
  '(_, buf) <- SDCard_command 0 0 buf 1;;
  if negb (buf 0%nat =? SDCARD_R1_IDLE_STATE) then ret SDCARD_TIMEOUT
  else
    '(_, buf) <- SDCard_command 8 0x000001aa buf 5;;
    if negb (buf 0%nat =? SDCARD_R1_IDLE_STATE)
       || negb (Z.land (buf 3%nat) 0x01 =? 0x01)
       || negb (buf 4%nat =? 0xaa)
    then ret SDCARD_NOTSUPPORTED
    else
      buf <- acmd41_loop 3000 buf;;
      init_after_acmd41 buf.

End Driver.

(** ** Two transports to run the driver on *)

(** A card that plays back a script: every byte read is the next one of the
    script, and 0xFF, the idle level of the line, once the script is over.
    What the driver sends does not change the script. *)
Module Scripted.

Definition pop (t : list Z) : Z * list Z :=
  match t with
  | [] => (0xff, [])
  | b :: rest => (b, rest)
  end.

Fixpoint pop_n (n : nat) (t : list Z) : list Z * list Z :=
  match n with
  | O => ([], t)
  | S k => let (b, t1) := pop t in
           let (bs, t2) := pop_n k t1 in (b :: bs, t2)
  end.

#[global] Instance transport : Transport (list Z) := {
  SPI_MSBFIRST := 1;
  SPI_MODE0 := 0;
  spi_begin := fun t => t;
  spi_configure := fun _ _ _ t => t;
  spi_begin_transaction := fun t => t;
  spi_end_transaction := fun t => t;
  spi_dummy_clocks := fun _ t => t;
  spi_send := fun _ t => t;
  spi_receive_byte := pop;
  spi_receive := fun count t => pop_n (Z.to_nat count) t
}.

End Scripted.

(** A line stuck at the idle level: every byte read is 0xFF. *)
Module Stuck.

#[global] Instance transport : Transport unit := {
  SPI_MSBFIRST := 1;
  SPI_MODE0 := 0;
  spi_begin := fun t => t;
  spi_configure := fun _ _ _ t => t;
  spi_begin_transaction := fun t => t;
  spi_end_transaction := fun t => t;
  spi_dummy_clocks := fun _ t => t;
  spi_send := fun _ t => t;
  spi_receive_byte := fun t => (0xff, t);
  spi_receive := fun count t => (repeat 0xff (Z.to_nat count), t)
}.

End Stuck.

Definition zeros : buffer := fun _ => 0.

(** A script on which the handshake goes through: the answers to command 0,
    command 8, one ACMD41 attempt still idle, one ready, and command 58 with
    the capacity and power-up bits set. *)
Definition good_card : list Z :=
  [0x01]
  ++ [0x01; 0x00; 0x00; 0x01; 0xaa]
  ++ [0x01] ++ [0x01; 0x00; 0xff; 0x80; 0x00]
  ++ [0x01] ++ [0x00; 0x40; 0xff; 0x80; 0x00]
  ++ [0x00; 0xc0; 0xff; 0x80; 0x00].

(** The 256 accumulator values, to settle a fact about one turn of the bit
    loop by running it on each. *)
Definition all_bytes : list Z := map Z.of_nat (seq 0 256).

(** ** Reading the log *)

Definition is_rx (e : Event) : bool :=
  match e with EvReceiveByte _ => true | _ => false end.

Definition is_send (e : Event) : bool :=
  match e with EvSend _ => true | _ => false end.

Definition is_begin_txn (e : Event) : bool :=
  match e with EvBeginTransaction => true | _ => false end.

Definition is_end_txn (e : Event) : bool :=
  match e with EvEndTransaction => true | _ => false end.

Definition is_receive (e : Event) : bool :=
  match e with EvReceive _ _ => true | _ => false end.

(** The calls that set the transport up rather than use it: [SPI_begin] and
    [SPI_configure]. *)
Definition is_setup (e : Event) : bool :=
  match e with EvBegin | EvConfigure _ _ _ => true | _ => false end.

(** A frame going out whose first byte is [command | 0x40]. *)
Definition sends_command (command : Z) (e : Event) : bool :=
  match e with
  | EvSend (b0 :: _) => b0 =? Z.lor command 0x40
  | _ => false
  end.

Definition count (p : Event -> bool) (d : list Event) : nat :=
  length (filter p d).

(** Whether the bus is held, as the begin/end calls leave it.  Acquiring a
    held bus or releasing a free one is [Misused], and stays so. *)
Inductive BusState : Type := Released | Acquired | Misused.

Definition txn_step (e : Event) (s : BusState) : BusState :=
  match e, s with
  | EvBeginTransaction, Released => Acquired
  | EvBeginTransaction, _ => Misused
  | EvEndTransaction, Acquired => Released
  | EvEndTransaction, _ => Misused
  | _, _ => s
  end.

(** The log is newest first, so the fold runs the calls in the order made. *)
Definition txn_after (d : list Event) (s : BusState) : BusState :=
  fold_right txn_step s d.

(** The calls [d] take and give back the bus the same number of times, never
    twice in a row. *)
Definition paired (d : list Event) : Prop :=
  txn_after d Released = Released /\
  count is_begin_txn d = count is_end_txn d.

(** No call of [d] takes or gives back the bus. *)
Definition quiet (d : list Event) : bool :=
  forallb (fun e => negb (is_begin_txn e || is_end_txn e)) d.

(** The two frames of one ACMD41 attempt, as they sit in the log: command 41
    with bit 30 of its argument (HCS) set, and before it command 55. *)
Definition acmd41_frames : list Event :=
  [EvSend (command_frame 41 (Z.shiftl 1 30)); EvSend (command_frame 55 0)].

Definition high_bit (b : Z) : bool := negb (Z.land b 0x80 =? 0).

(** The receive attempts the poll of [__SDCard_command_r1] can make when it
    starts from [timeout]: one, and one more for each decrement that leaves
    the 16-bit counter above zero. *)
Definition poll_limit (timeout : Z) : nat :=
  S (Z.to_nat (to_u16 (timeout - 1))).

Section Stream.

Context {T : Type} {spi : Transport T}.

(** The transport after [k] single-byte reads, the [k]-th byte it would hand
    out then, and the log entries of the first [k] reads (newest first). *)
Fixpoint rx_skip (k : nat) (t : T) : T :=
  match k with
  | O => t
  | S j => rx_skip j (snd (spi_receive_byte t))
  end.

Definition rx_nth (k : nat) (t : T) : Z :=
  to_u8 (fst (spi_receive_byte (rx_skip k t))).

Fixpoint rx_events (k : nat) (t : T) : list Event :=
  match k with
  | O => []
  | S j => rx_events j (snd (spi_receive_byte t))
             ++ [EvReceiveByte (to_u8 (fst (spi_receive_byte t)))]
  end.

(** What [__SDCard_command_r1] does before it polls: the calls logged, and
    the transport they leave. *)
Definition frame_events (command argument : Z) : list Event :=
  [EvSend (command_frame command argument); EvDummyClocks 1;
   EvBeginTransaction].

Definition after_frame (command argument : Z) (t : T) : T :=
  spi_send (command_frame command argument)
    (spi_dummy_clocks 1 (spi_begin_transaction t)).

(** One turn of the ACMD41 loop without its exit test, and [k] such turns in
    a row: the yardstick the loop is measured against. *)
Definition acmd41_attempt (buf : buffer) : M T buffer :=
  '(_, buf1) <- SDCard_command 55 0 buf 1;;
  '(_, buf2) <- SDCard_command 41 (Z.shiftl 1 30) buf1 5;;
  ret buf2.

Fixpoint attempts (k : nat) (buf : buffer) : M T buffer :=
  match k with
  | O => ret buf
  | S j => buf1 <- acmd41_attempt buf;; attempts j buf1
  end.

(** The status byte the [k]-th attempt (counted from 1) leaves in [buf[0]]. *)
Definition status_after (k : nat) (buf : buffer) (w : World T) : Z :=
  fst (attempts k buf w) 0%nat.

(** [SDCard_init] up to its third step, to say where the ACMD41 loop
    starts from: the statements before command 0, the run of command 0 on
    the local buffer, the run of command 8 after it, and the tests of lines
    59 and 68 both passing. *)
Definition init_power_up (initial_divisor divisor poll_timeout : Z)
    : M T unit :=
  set_ctx (mkSDCard (to_u8 divisor) poll_timeout);;
  SPI_begin;;
  SPI_configure initial_divisor SPI_MSBFIRST SPI_MODE0;;
  SPI_begin_transaction;;
  SPI_dummy_clocks 10;;
  SPI_end_transaction.

Definition init_reset (initial_divisor divisor poll_timeout : Z)
    (stack : buffer) (w : World T) : Z * buffer * World T :=
  SDCard_command 0 0 stack 1
    (snd (init_power_up initial_divisor divisor poll_timeout w)).

Definition init_interface (initial_divisor divisor poll_timeout : Z)
    (stack : buffer) (w : World T) : Z * buffer * World T :=
  let reset := init_reset initial_divisor divisor poll_timeout stack w in
  SDCard_command 8 0x000001aa (snd (fst reset)) 5 (snd reset).

Definition reaches_negotiation (initial_divisor divisor poll_timeout : Z)
    (stack : buffer) (w : World T) : Prop :=
  let reset := init_reset initial_divisor divisor poll_timeout stack w in
  let interface :=
    init_interface initial_divisor divisor poll_timeout stack w in
  snd (fst reset) 0%nat = SDCARD_R1_IDLE_STATE /\
  snd (fst interface) 0%nat = SDCARD_R1_IDLE_STATE /\
  Z.land (snd (fst interface) 3%nat) 0x01 = 0x01 /\
  snd (fst interface) 4%nat = 0xaa.

End Stream.

(** * Properties *)

(** ** Machine integers and logs *)

Lemma to_u8_range (x : Z) : is_u8 (to_u8 x).
Proof. unfold is_u8, to_u8. apply Z.mod_pos_bound. lia. Qed.

Lemma to_u8_small (x : Z) : is_u8 x -> to_u8 x = x.
Proof. unfold is_u8, to_u8. intros H. apply Z.mod_small. exact H. Qed.

Lemma to_u16_range (x : Z) : is_u16 (to_u16 x).
Proof. unfold is_u16, to_u16. apply Z.mod_pos_bound. lia. Qed.

Lemma poll_limit_positive (timeout : Z) :
  is_u16 timeout -> 1 <= timeout -> Z.of_nat (poll_limit timeout) = timeout.
Proof.
  unfold is_u16, poll_limit, to_u16. intros H1 H2.
  rewrite Z.mod_small by lia. lia.
Qed.

Lemma poll_limit_zero : Z.of_nat (poll_limit 0) = 65536.
Proof.
  unfold poll_limit. rewrite Nat2Z.inj_succ, Z2Nat.id.
  - reflexivity.
  - apply to_u16_range.
Qed.

Lemma poll_limit_bounds (timeout : Z) :
  1 <= Z.of_nat (poll_limit timeout) <= 65536.
Proof.
  unfold poll_limit. pose proof (to_u16_range (timeout - 1)) as H.
  unfold is_u16 in H. lia.
Qed.

Lemma count_app (p : Event -> bool) (d2 d1 : list Event) :
  count p (d2 ++ d1) = (count p d2 + count p d1)%nat.
Proof. unfold count. rewrite filter_app, length_app. reflexivity. Qed.

Lemma txn_after_app (d2 d1 : list Event) (s : BusState) :
  txn_after (d2 ++ d1) s = txn_after d2 (txn_after d1 s).
Proof. unfold txn_after. apply fold_right_app. Qed.

Lemma paired_nil : paired [].
Proof. split; reflexivity. Qed.

Lemma paired_app (d2 d1 : list Event) :
  paired d2 -> paired d1 -> paired (d2 ++ d1).
Proof.
  intros [A2 C2] [A1 C1]. split.
  - rewrite txn_after_app, A1. exact A2.
  - rewrite !count_app. lia.
Qed.

(** ** Single-byte reads *)

Section StreamFacts.

Context {T : Type} {spi : Transport T}.

Lemma rx_events_snoc (k : nat) (t : T) :
  rx_events (S k) t = EvReceiveByte (rx_nth k t) :: rx_events k t.
Proof.
  revert t. induction k as [|k IH]; intros t.
  - reflexivity.
  - change (rx_events (S (S k)) t)
      with (rx_events (S k) (snd (spi_receive_byte t))
              ++ [EvReceiveByte (to_u8 (fst (spi_receive_byte t)))]).
    rewrite IH. reflexivity.
Qed.

Lemma rx_events_length (k : nat) (t : T) : length (rx_events k t) = k.
Proof.
  induction k as [|k IH].
  - reflexivity.
  - rewrite rx_events_snoc. simpl. rewrite IH. reflexivity.
Qed.

Lemma rx_events_count_rx (k : nat) (t : T) : count is_rx (rx_events k t) = k.
Proof.
  induction k as [|k IH].
  - reflexivity.
  - rewrite rx_events_snoc. unfold count in *. simpl. rewrite IH. reflexivity.
Qed.

Lemma rx_events_count_other (p : Event -> bool) (k : nat) (t : T) :
  (forall b, p (EvReceiveByte b) = false) -> count p (rx_events k t) = 0%nat.
Proof.
  intros Hp. induction k as [|k IH].
  - reflexivity.
  - rewrite rx_events_snoc. unfold count in *. simpl. rewrite Hp. exact IH.
Qed.

Lemma rx_events_txn (k : nat) (t : T) (s : BusState) :
  txn_after (rx_events k t) s = s.
Proof.
  induction k as [|k IH].
  - reflexivity.
  - rewrite rx_events_snoc. simpl. rewrite IH. reflexivity.
Qed.

Lemma rx_skip_succ (k : nat) (t : T) :
  rx_skip (S k) t = snd (spi_receive_byte (rx_skip k t)).
Proof.
  revert t. induction k as [|k IH]; intros t.
  - reflexivity.
  - change (rx_skip (S (S k)) t) with (rx_skip (S k) (snd (spi_receive_byte t))).
    rewrite IH. reflexivity.
Qed.

(** *** The status poll *)

Lemma r1_poll_body (timeout : Z) (w : World T) :
  r1_poll timeout w =
  let (response, w1) := SPI_receive_byte w in
  if Z.land response 0x80 =? 0 then (response, w1)
  else if 0 <? to_u16 (timeout - 1) then r1_poll (to_u16 (timeout - 1)) w1
  else (response, w1).
Proof.
  rewrite r1_poll_equation_1.
  destruct (SPI_receive_byte w) as [response w1]. simpl.
  destruct (Z.eq_dec (Z.land response 128) 0) as [e|n]; simpl.
  - rewrite e. reflexivity.
  - destruct (Z.eqb_spec (Z.land response 128) 0) as [e|_]; [contradiction|].
    destruct (Z_lt_dec 0 (to_u16 (timeout - 1))) as [l|g]; simpl.
    + apply Z.ltb_lt in l. rewrite l. reflexivity.
    + apply Z.ltb_nlt in g. rewrite g. reflexivity.
Qed.

(** The poll reads bytes [0..k] of the stream and stops on byte [k]: the
    first one with a clear high bit, or the last one the counter allows. *)
Lemma r1_poll_shape (n : nat) :
  forall (timeout : Z) (w : World T),
    Z.to_nat (to_u16 (timeout - 1)) = n ->
    exists k : nat,
      (k <= n)%nat /\
      r1_poll timeout w =
        (rx_nth k (bus w),
         mkWorld (rx_skip (S k) (bus w)) (ctx_ w)
                 (rx_events (S k) (bus w) ++ log w)) /\
      (forall j, (j < k)%nat -> high_bit (rx_nth j (bus w)) = true) /\
      ((k < n)%nat -> high_bit (rx_nth k (bus w)) = false).
Proof.
  induction n as [|n IH]; intros timeout w Hn.
  - exists 0%nat. rewrite r1_poll_body. unfold SPI_receive_byte.
    destruct (spi_receive_byte (bus w)) as [r t1] eqn:E.
    assert (Hz : (0 <? to_u16 (timeout - 1)) = false).
    { apply Z.ltb_nlt. pose proof (to_u16_range (timeout - 1)) as R.
      unfold is_u16 in R. lia. }
    rewrite Hz. unfold rx_nth. simpl. rewrite E. simpl.
    repeat split; try lia.
    destruct (Z.land (to_u8 r) 128 =? 0); reflexivity.
  - rewrite r1_poll_body. unfold SPI_receive_byte.
    destruct (spi_receive_byte (bus w)) as [r t1] eqn:E.
    destruct (Z.land (to_u8 r) 128 =? 0) eqn:Hhigh.
    + exists 0%nat. unfold rx_nth, high_bit. simpl. rewrite E. simpl.
      rewrite Hhigh. repeat split; try lia.
    + assert (Hp : (0 <? to_u16 (timeout - 1)) = true).
      { apply Z.ltb_lt. lia. }
      rewrite Hp.
      destruct (IH (to_u16 (timeout - 1))
                  (mkWorld t1 (ctx_ w) (EvReceiveByte (to_u8 r) :: log w)))
        as (k & Hk & Heq & Hbefore & Hat).
      { pose proof (to_u16_range (timeout - 1)) as R. unfold is_u16 in R.
        unfold to_u16 at 1. rewrite Z.mod_small by (unfold to_u16 in *; lia).
        lia. }
      cbn [bus ctx_ log] in Heq, Hbefore, Hat.
      assert (Et : snd (spi_receive_byte (bus w)) = t1) by (rewrite E; reflexivity).
      assert (Hnth : forall j, rx_nth (S j) (bus w) = rx_nth j t1).
      { intros j. unfold rx_nth. simpl. rewrite Et. reflexivity. }
      exists (S k). split; [lia|]. split.
      * rewrite Heq, Hnth.
        change (rx_skip (S (S k)) (bus w))
          with (rx_skip (S k) (snd (spi_receive_byte (bus w)))).
        change (rx_events (S (S k)) (bus w))
          with (rx_events (S k) (snd (spi_receive_byte (bus w)))
                  ++ [EvReceiveByte (to_u8 (fst (spi_receive_byte (bus w))))]).
        rewrite E. cbn [fst snd]. rewrite <- app_assoc. reflexivity.
      * split.
        -- intros [|j] Hj.
           ++ unfold rx_nth, high_bit. simpl. rewrite E. simpl.
              rewrite Hhigh. reflexivity.
           ++ rewrite Hnth. apply Hbefore. lia.
        -- intros Hlt. rewrite Hnth. apply Hat. lia.
Qed.

(** *** The data-token poll *)

Lemma rx_nth_succ (j : nat) (t : T) :
  rx_nth (S j) t = rx_nth j (snd (spi_receive_byte t)).
Proof. reflexivity. Qed.

Lemma token_poll_step (k : nat) (response : Z) (w : World T) :
  token_poll (S k) response w =
  let r := rx_nth 0 (bus w) in
  let w1 := mkWorld (rx_skip 1 (bus w)) (ctx_ w) (rx_events 1 (bus w) ++ log w) in
  if negb (r =? 0xff) then (r, w1) else token_poll k r w1.
Proof.
  cbn [token_poll]. unfold bind, SPI_receive_byte, rx_nth, ret.
  cbn [rx_skip rx_events app].
  destruct (spi_receive_byte (bus w)) as [r t1]. cbn [fst snd].
  destruct (negb (to_u8 r =? 255)); reflexivity.
Qed.

(** Only filler on the line for the whole budget. *)
Lemma token_poll_idle (n : nat) :
  forall (response : Z) (w : World T),
    (forall j, (j < n)%nat -> rx_nth j (bus w) = 0xff) ->
    token_poll n response w =
      (match n with O => response | S _ => 0xff end,
       mkWorld (rx_skip n (bus w)) (ctx_ w) (rx_events n (bus w) ++ log w)).
Proof.
  induction n as [|n IH]; intros response w Hidle.
  - destruct w; reflexivity.
  - rewrite token_poll_step. cbv zeta.
    rewrite (Hidle 0%nat) by lia. cbn [Z.eqb Pos.eqb negb].
    rewrite IH.
    + cbn [bus ctx_ log rx_skip rx_events app].
      rewrite <- app_assoc. cbn [app]. destruct n; reflexivity.
    + intros j Hj. cbn [bus rx_skip]. rewrite <- rx_nth_succ.
      apply Hidle. lia.
Qed.

(** Filler, then byte [k] of the stream is something else. *)
Lemma token_poll_token (n : nat) :
  forall (k : nat) (response : Z) (w : World T),
    (k < n)%nat ->
    (forall j, (j < k)%nat -> rx_nth j (bus w) = 0xff) ->
    rx_nth k (bus w) <> 0xff ->
    token_poll n response w =
      (rx_nth k (bus w),
       mkWorld (rx_skip (S k) (bus w)) (ctx_ w)
               (rx_events (S k) (bus w) ++ log w)).
Proof.
  induction n as [|n IH]; intros k response w Hk Hidle Htoken; [lia|].
  rewrite token_poll_step. cbv zeta.
  destruct k as [|k].
  - apply Z.eqb_neq in Htoken. rewrite Htoken. reflexivity.
  - rewrite (Hidle 0%nat) by lia. cbn [Z.eqb Pos.eqb negb].
    rewrite (IH k).
    + cbn [bus ctx_ log rx_skip rx_events app].
      rewrite <- !app_assoc. reflexivity.
    + lia.
    + intros j Hj. cbn [bus rx_skip]. rewrite <- rx_nth_succ.
      apply Hidle. lia.
    + cbn [bus rx_skip]. rewrite <- rx_nth_succ. exact Htoken.
Qed.

(** Whatever the line carries, the poll makes [k <= n] reads and no other
    call. *)
Lemma token_poll_shape (n : nat) :
  forall (response : Z) (w : World T),
    exists (k : nat) (r : Z),
      (k <= n)%nat /\
      token_poll n response w =
        (r, mkWorld (rx_skip k (bus w)) (ctx_ w) (rx_events k (bus w) ++ log w)).
Proof.
  induction n as [|n IH]; intros response w.
  - exists 0%nat, response. split; [lia|]. destruct w; reflexivity.
  - rewrite token_poll_step. cbv zeta.
    destruct (negb (rx_nth 0 (bus w) =? 255)).
    + exists 1%nat, (rx_nth 0 (bus w)). split; [lia|]. reflexivity.
    + destruct (IH (rx_nth 0 (bus w))
                  (mkWorld (rx_skip 1 (bus w)) (ctx_ w)
                           (rx_events 1 (bus w) ++ log w)))
        as (k & r & Hk & Heq).
      exists (S k), r. split; [lia|]. rewrite Heq.
      cbn [bus ctx_ log rx_skip rx_events app].
      rewrite <- !app_assoc. reflexivity.
Qed.

End StreamFacts.

(** ** Buffers *)

Lemma poke_same (buf : buffer) (i : nat) (v : Z) : poke buf i v i = to_u8 v.
Proof. unfold poke. rewrite Nat.eqb_refl. reflexivity. Qed.

Lemma poke_other (buf : buffer) (i j : nat) (v : Z) :
  j <> i -> poke buf i v j = buf j.
Proof. unfold poke. intros H. apply Nat.eqb_neq in H. rewrite H. reflexivity. Qed.

Lemma poke_bytes_below (data : list Z) :
  forall (buf : buffer) (off j : nat),
    (j < off)%nat -> poke_bytes buf off data j = buf j.
Proof.
  induction data as [|b rest IH]; intros buf off j Hj.
  - reflexivity.
  - cbn [poke_bytes]. rewrite IH by lia. apply poke_other. lia.
Qed.

Lemma poke_bytes_at (data : list Z) :
  forall (buf : buffer) (off i : nat),
    (i < length data)%nat ->
    poke_bytes buf off data (off + i)%nat = to_u8 (nth i data 0).
Proof.
  induction data as [|b rest IH]; intros buf off i Hi.
  - simpl in Hi. lia.
  - cbn [poke_bytes]. destruct i as [|i].
    + rewrite Nat.add_0_r, poke_bytes_below by lia. apply poke_same.
    + replace (off + S i)%nat with (S off + i)%nat by lia.
      rewrite IH by (simpl in Hi; lia). reflexivity.
Qed.

Lemma poke_bytes_above (data : list Z) :
  forall (buf : buffer) (off j : nat),
    (off + length data <= j)%nat -> poke_bytes buf off data j = buf j.
Proof.
  induction data as [|b rest IH]; intros buf off j Hj.
  - reflexivity.
  - cbn [poke_bytes]. simpl in Hj. rewrite IH by lia. apply poke_other. lia.
Qed.

Lemma to_u8_idem (x : Z) : to_u8 (to_u8 x) = to_u8 x.
Proof. apply to_u8_small, to_u8_range. Qed.

(** ** The command/response exchange *)

Section ExchangeFacts.

Context {T : Type} {spi : Transport T}.

Lemma rx_nth_u8 (k : nat) (t : T) : to_u8 (rx_nth k t) = rx_nth k t.
Proof. unfold rx_nth. apply to_u8_idem. Qed.

(** [__SDCard_command_r1] takes the bus, clocks once, sends the frame, and
    reads bytes [0..k] of what the card answers; it makes no other call and
    does not give the bus back. *)
Lemma command_r1_shape (command argument : Z) (w : World T) :
  let t0 := after_frame command argument (bus w) in
  exists k : nat,
    (S k <= poll_limit (timeout (ctx_ w)))%nat /\
    (forall j, (j < k)%nat -> high_bit (rx_nth j t0) = true) /\
    ((S k < poll_limit (timeout (ctx_ w)))%nat ->
     high_bit (rx_nth k t0) = false) /\
    __SDCard_command_r1 command argument w =
      ((if high_bit (rx_nth k t0) then SDCARD_TIMEOUT else SDCARD_SUCCESS,
        rx_nth k t0),
       mkWorld (rx_skip (S k) t0) (ctx_ w)
               (rx_events (S k) t0 ++ frame_events command argument ++ log w)).
Proof.
  intros t0.
  destruct (r1_poll_shape _ (timeout (ctx_ w))
              (mkWorld t0 (ctx_ w) (frame_events command argument ++ log w))
              eq_refl) as (k & Hk & Heq & Hb & Ha).
  cbn [bus ctx_ log] in Heq, Hb, Ha.
  exists k. unfold poll_limit. split; [lia|]. split; [exact Hb|].
  split; [intros; apply Ha; lia|].
  unfold __SDCard_command_r1, bind, SPI_begin_transaction, SPI_dummy_clocks,
    SPI_send, call, get_ctx. cbn [bus ctx_ log].
  change (spi_send (command_frame command argument)
            (spi_dummy_clocks 1 (spi_begin_transaction (bus w)))) with t0.
  change (EvSend (command_frame command argument)
            :: EvDummyClocks 1 :: EvBeginTransaction :: log w)
    with (frame_events command argument ++ log w).
  rewrite Heq. unfold high_bit, ret.
  destruct (negb (Z.land (rx_nth k t0) 128 =? 0)); reflexivity.
Qed.

Lemma SDCard_command_shape (command argument : Z) (buf : buffer) (length : Z)
    (w : World T) :
  let t0 := after_frame command argument (bus w) in
  exists k : nat,
    (S k <= poll_limit (timeout (ctx_ w)))%nat /\
    (forall j, (j < k)%nat -> high_bit (rx_nth j t0) = true) /\
    ((S k < poll_limit (timeout (ctx_ w)))%nat ->
     high_bit (rx_nth k t0) = false) /\
    SDCard_command command argument buf length w =
      if high_bit (rx_nth k t0)
      then
        ((SDCARD_TIMEOUT, poke buf 0 (rx_nth k t0)),
         mkWorld (spi_end_transaction (rx_skip (S k) t0)) (ctx_ w)
           (EvEndTransaction
              :: rx_events (S k) t0 ++ frame_events command argument ++ log w))
      else
        let (data, t2) := spi_receive (length - 1) (rx_skip (S k) t0) in
        ((SDCARD_SUCCESS, poke_bytes (poke buf 0 (rx_nth k t0)) 1 data),
         mkWorld (spi_end_transaction t2) (ctx_ w)
           (EvEndTransaction :: EvReceive (length - 1) data
              :: rx_events (S k) t0 ++ frame_events command argument ++ log w)).
Proof.
  intros t0.
  destruct (command_r1_shape command argument w) as (k & Hk & Hb & Ha & Heq).
  fold t0 in Hb, Ha, Heq.
  exists k. split; [exact Hk|]. split; [exact Hb|]. split; [exact Ha|].
  unfold SDCard_command, bind. rewrite Heq.
  destruct (high_bit (rx_nth k t0)).
  - reflexivity.
  - cbn [Z.eqb SDCARD_SUCCESS negb]. unfold SPI_receive. cbn [bus ctx_ log].
    destruct (spi_receive (length - 1) (rx_skip (S k) t0)) as [data t2].
    reflexivity.
Qed.

(** What the rest of the development needs of one [SDCard_command]: the
    calls it adds are one closed transaction carrying one frame, the session
    context is untouched, and the result tells whether the byte left at
    offset 0 has its high bit set. *)
Lemma SDCard_command_summary (command argument : Z) (buf : buffer)
    (length : Z) (w : World T) :
  exists (res : Z) (buf' : buffer) (w' : World T) (d : list Event),
    SDCard_command command argument buf length w = ((res, buf'), w') /\
    log w' = d ++ log w /\
    ctx_ w' = ctx_ w /\
    txn_after d Released = Released /\
    count is_begin_txn d = 1%nat /\
    count is_end_txn d = 1%nat /\
    filter is_send d = [EvSend (command_frame command argument)] /\
    res = (if high_bit (buf' 0%nat) then SDCARD_TIMEOUT else SDCARD_SUCCESS).
Proof.
  destruct (SDCard_command_shape command argument buf length w)
    as (k & _ & _ & _ & Heq).
  set (t0 := after_frame command argument (bus w)) in *.
  assert (Hsend : forall n, filter is_send (rx_events n t0) = []).
  { intros n. apply length_zero_iff_nil.
    apply (rx_events_count_other is_send). reflexivity. }
  destruct (high_bit (rx_nth k t0)) eqn:Hhigh.
  - eexists _, _, _,
      (EvEndTransaction :: rx_events (S k) t0 ++ frame_events command argument).
    split; [exact Heq|]. cbn [log ctx_].
    split; [rewrite app_assoc; reflexivity|].
    split; [reflexivity|].
    split; [cbn [txn_after fold_right]; fold (txn_after (rx_events (S k) t0 ++ frame_events command argument) Released);
            rewrite txn_after_app, rx_events_txn; reflexivity|].
    split; [change (EvEndTransaction :: ?l) with ([EvEndTransaction] ++ l);
            rewrite !count_app, (rx_events_count_other is_begin_txn) by reflexivity;
            reflexivity|].
    split; [change (EvEndTransaction :: ?l) with ([EvEndTransaction] ++ l);
            rewrite !count_app, (rx_events_count_other is_end_txn) by reflexivity;
            reflexivity|].
    split.
    + cbn [filter is_send]. rewrite filter_app, Hsend. reflexivity.
    + rewrite poke_same, rx_nth_u8, Hhigh. reflexivity.
  - destruct (spi_receive (length - 1) (rx_skip (S k) t0)) as [data t2].
    eexists _, _, _,
      (EvEndTransaction :: EvReceive (length - 1) data
         :: rx_events (S k) t0 ++ frame_events command argument).
    split; [exact Heq|]. cbn [log ctx_].
    split; [rewrite app_assoc; reflexivity|].
    split; [reflexivity|].
    split; [cbn [txn_after fold_right]; fold (txn_after (rx_events (S k) t0 ++ frame_events command argument) Released);
            rewrite txn_after_app, rx_events_txn; reflexivity|].
    split; [change (EvEndTransaction :: EvReceive ?c ?x :: ?l)
              with ([EvEndTransaction; EvReceive c x] ++ l);
            rewrite !count_app, (rx_events_count_other is_begin_txn) by reflexivity;
            reflexivity|].
    split; [change (EvEndTransaction :: EvReceive ?c ?x :: ?l)
              with ([EvEndTransaction; EvReceive c x] ++ l);
            rewrite !count_app, (rx_events_count_other is_end_txn) by reflexivity;
            reflexivity|].
    split.
    + cbn [filter is_send]. rewrite filter_app, Hsend. reflexivity.
    + rewrite poke_bytes_below by lia.
      rewrite poke_same, rx_nth_u8, Hhigh. reflexivity.
Qed.

End ExchangeFacts.

(** ** The checksum *)

Lemma byte_loop_app (front back : list Z) (crc : Z) :
  Crc.byte_loop (front ++ back) crc = Crc.byte_loop back (Crc.byte_loop front crc).
Proof.
  revert crc. induction front as [|b front IH]; intros crc.
  - reflexivity.
  - cbn [app Crc.byte_loop]. apply IH.
Qed.

Lemma bit_step_even (crc : Z) :
  is_u8 (Crc.bit_step crc) /\ Z.even (Crc.bit_step crc) = true.
Proof.
  unfold Crc.bit_step. cbv zeta. split.
  - apply to_u8_range.
  - unfold to_u8. rewrite Z.shiftl_mul_pow2 by lia.
    change (2 ^ 1) with 2.
    set (c := if Z.land crc 128 =? 0 then crc else Z.lxor crc 137).
    rewrite Z.even_spec. exists ((c * 2 mod 256) / 2).
    Z.div_mod_to_equations. lia.
Qed.

Lemma byte_loop_even (bytes : list Z) :
  forall crc : Z,
    is_u8 crc -> Z.even crc = true ->
    is_u8 (Crc.byte_loop bytes crc) /\ Z.even (Crc.byte_loop bytes crc) = true.
Proof.
  induction bytes as [|b rest IH]; intros crc Hr He.
  - split; assumption.
  - cbn [Crc.byte_loop Crc.bit_loop].
    destruct (bit_step_even
                (Crc.bit_step (Crc.bit_step (Crc.bit_step (Crc.bit_step
                  (Crc.bit_step (Crc.bit_step (Crc.bit_step (Z.lxor crc b))))))))).
    apply IH; assumption.
Qed.

Lemma all_bytes_complete (x : Z) : is_u8 x -> In x all_bytes.
Proof.
  unfold is_u8, all_bytes. intros H. apply in_map_iff.
  exists (Z.to_nat x). split; [lia|]. apply in_seq. lia.
Qed.

Lemma bit_step_shift_first (crc : Z) :
  is_u8 crc ->
  Crc.bit_step crc =
  Z.lxor (to_u8 (Z.shiftl crc 1)) (if Z.testbit crc 7 then 0x12 else 0).
Proof.
  intros H. apply all_bytes_complete in H. revert crc H.
  apply Forall_forall. apply Forall_forall. intros x Hx.
  assert (A : forallb (fun c =>
                Crc.bit_step c =?
                Z.lxor (to_u8 (Z.shiftl c 1)) (if Z.testbit c 7 then 0x12 else 0))
              all_bytes = true) by (vm_compute; reflexivity).
  rewrite forallb_forall in A. apply Z.eqb_eq. apply A. exact Hx.
Qed.

(** C6, the claim as worded, fails: taken by its words (shift left, then
    exclusive-or the polynomial 0x89 into the shifted accumulator when the
    high bit was set) the loop gives 0xAE for the reset frame
    40 00 00 00 00, and 0xAF with the stop bit, where [SDCard_crc] gives
    0x94, and 0x95 with the stop bit. *)
Lemma SDCard_crc_differs_from_wording :
  SDCard_crc [0x40; 0; 0; 0; 0] 5 = 0x94 /\
  CrcAsWorded.crc [0x40; 0; 0; 0; 0] 5 = 0xae /\
  SDCard_crc [0x40; 0; 0; 0; 0] 5 <> CrcAsWorded.crc [0x40; 0; 0; 0; 0] 5 /\
  Z.lor (CrcAsWorded.crc [0x40; 0; 0; 0; 0] 5) 0x01 <> 0x95.
Proof. vm_compute. repeat split; discriminate. Qed.

(** C6, amended: [SDCard_crc] is a function of the bytes alone, computing
    the bit-serial 7-bit CRC with polynomial 0x89: each byte is
    exclusive-ored into the 8-bit accumulator, and then, eight times, the
    polynomial is exclusive-ored in if the high bit is set and the
    accumulator is shifted left afterwards.  The polynomial goes in before
    the shift; seen after the shift, what is exclusive-ored is 0x12, the
    polynomial shifted along, so bit 0 of the result stays clear.  For the
    reset frame 40 00 00 00 00 the checksum byte with its stop bit is
    0x95. *)
Theorem SDCard_crc_bit_serial (buf : list Z) (b crc : Z) (Hcrc : is_u8 crc) :
  Crc.bit_step crc =
    Z.lxor (to_u8 (Z.shiftl crc 1)) (if Z.testbit crc 7 then 0x12 else 0) /\
  SDCard_crc buf 0 = 0 /\
  SDCard_crc (buf ++ [b]) (Z.of_nat (length buf) + 1) =
    Crc.bit_loop 8 (Z.lxor (SDCard_crc buf (Z.of_nat (length buf))) b) /\
  is_u8 (SDCard_crc buf (Z.of_nat (length buf))) /\
  Z.even (SDCard_crc buf (Z.of_nat (length buf))) = true /\
  Z.lor (SDCard_crc [0x40; 0; 0; 0; 0] 5) 0x01 = 0x95.
Proof.
  split; [apply bit_step_shift_first; exact Hcrc|].
  split; [reflexivity|].
  split.
  - unfold SDCard_crc.
    replace (Z.to_nat (Z.of_nat (length buf) + 1)) with (length (buf ++ [b]))
      by (rewrite length_app; simpl; lia).
    rewrite Nat2Z.id, !firstn_all, byte_loop_app. reflexivity.
  - assert (H : is_u8 (SDCard_crc buf (Z.of_nat (length buf))) /\
                Z.even (SDCard_crc buf (Z.of_nat (length buf))) = true).
    { unfold SDCard_crc. apply byte_loop_even; [unfold is_u8; lia|reflexivity]. }
    destruct H as [H1 H2]. repeat split; try assumption; apply H1.
Qed.

Lemma SDCard_crc_bit_serial_witness :
  is_u8 0x80 /\
  Crc.bit_step 0x80 = Z.lxor (to_u8 (Z.shiftl 0x80 1)) 0x12 /\
  SDCard_crc ([0x40; 0; 0; 0] ++ [0]) 5 =
    Crc.bit_loop 8 (Z.lxor (SDCard_crc [0x40; 0; 0; 0] 4) 0).
Proof.
  assert (H : is_u8 0x80) by (unfold is_u8; lia).
  split; [exact H|].
  split; apply (SDCard_crc_bit_serial [0x40; 0; 0; 0] 0 0x80 H).
Defined.

(** ** The command frame *)

Lemma land_ff (x : Z) : Z.land x 0xff = x mod 256.
Proof. change 255 with (Z.ones 8). rewrite Z.land_ones by lia. reflexivity. Qed.

Section FrameFacts.

Context {T : Type} {spi : Transport T}.

(** C7: the frame [__SDCard_command_r1] sends is six bytes: the command
    with bit 6 set, the four bytes of the argument from the most significant
    down, and the checksum of those five bytes with bit 0 set. *)
Theorem command_frame_layout (command argument : Z) (w : World T)
    (Hcommand : is_u8 command) (Hargument : is_u32 argument) :
  exists b1 b2 b3 b4 crc : Z,
    command_frame command argument =
      [Z.lor command 0x40; b1; b2; b3; b4; Z.lor crc 0x01] /\
    is_u8 b1 /\ is_u8 b2 /\ is_u8 b3 /\ is_u8 b4 /\
    argument = b1 * 2 ^ 24 + b2 * 2 ^ 16 + b3 * 2 ^ 8 + b4 /\
    crc = SDCard_crc [Z.lor command 0x40; b1; b2; b3; b4] 5 /\
    Z.testbit (Z.lor crc 0x01) 0 = true /\
    (forall i, 0 < i -> Z.testbit (Z.lor crc 0x01) i = Z.testbit crc i) /\
    filter is_send (log (snd (__SDCard_command_r1 command argument w))) =
      EvSend (command_frame command argument) :: filter is_send (log w).
Proof.
  exists (Z.land (Z.shiftr argument 24) 0xff),
         (Z.land (Z.shiftr argument 16) 0xff),
         (Z.land (Z.shiftr argument 8) 0xff),
         (Z.land (Z.shiftr argument 0) 0xff),
         (SDCard_crc [Z.lor command 0x40;
                      Z.land (Z.shiftr argument 24) 0xff;
                      Z.land (Z.shiftr argument 16) 0xff;
                      Z.land (Z.shiftr argument 8) 0xff;
                      Z.land (Z.shiftr argument 0) 0xff] 5).
  split; [reflexivity|].
  rewrite !land_ff, !Z.shiftr_div_pow2 by lia.
  unfold is_u8, is_u32 in *.
  change (2 ^ 24) with 16777216. change (2 ^ 16) with 65536.
  change (2 ^ 8) with 256. change (2 ^ 0) with 1.
  do 5 (split; [Z.div_mod_to_equations; lia|]).
  split; [reflexivity|].
  split; [rewrite Z.lor_spec; apply orb_true_r|].
  split.
  - intros i Hi. rewrite Z.lor_spec.
    replace (Z.testbit 1 i) with false; [apply orb_false_r|].
    symmetry. change 1 with (2 ^ 0). apply Z.pow2_bits_false. lia.
  - destruct (command_r1_shape command argument w) as (k & _ & _ & _ & Heq).
    rewrite Heq. cbn [snd log]. rewrite filter_app.
    replace (filter is_send (rx_events (S k) (after_frame command argument (bus w))))
      with (@nil Event).
    + reflexivity.
    + symmetry. apply length_zero_iff_nil.
      apply (rx_events_count_other is_send). reflexivity.
Qed.

End FrameFacts.

Lemma command_frame_layout_witness :
  is_u8 8 /\ is_u32 0x1aa /\
  exists b1 b2 b3 b4 crc : Z,
    command_frame 8 0x1aa = [0x48; b1; b2; b3; b4; Z.lor crc 0x01] /\
    is_u8 b1 /\ is_u8 b2 /\ is_u8 b3 /\ is_u8 b4 /\
    0x1aa = b1 * 2 ^ 24 + b2 * 2 ^ 16 + b3 * 2 ^ 8 + b4 /\
    crc = SDCard_crc [0x48; b1; b2; b3; b4] 5 /\
    Z.testbit (Z.lor crc 0x01) 0 = true /\
    (forall i, 0 < i -> Z.testbit (Z.lor crc 0x01) i = Z.testbit crc i) /\
    filter is_send
      (log (snd (__SDCard_command_r1 (spi := Stuck.transport) 8 0x1aa (power_on tt)))) =
      [EvSend (command_frame 8 0x1aa)].
Proof.
  assert (Hc : is_u8 8) by (unfold is_u8; lia).
  assert (Ha : is_u32 0x1aa) by (unfold is_u32; lia).
  split; [exact Hc|]. split; [exact Ha|].
  exact (command_frame_layout (spi := Stuck.transport) 8 0x1aa (power_on tt) Hc Ha).
Defined.

(** ** The status poll and its budget *)

Section PollFacts.

Context {T : Type} {spi : Transport T}.

Lemma count_rx_exchange (k : nat) (t0 : T) (command argument : Z)
    (older : list Event) :
  count is_rx (rx_events k t0 ++ frame_events command argument ++ older) =
  (k + count is_rx older)%nat.
Proof. rewrite !count_app, rx_events_count_rx. reflexivity. Qed.

(** The exchange stops on byte [k] of the answer when every byte before it
    had its high bit set and byte [k] either has it clear or is the last one
    the counter allows. *)
Lemma command_r1_stops_at (command argument : Z) (w : World T) (k : nat) :
  let t0 := after_frame command argument (bus w) in
  (S k <= poll_limit (timeout (ctx_ w)))%nat ->
  (forall j, (j < k)%nat -> high_bit (rx_nth j t0) = true) ->
  high_bit (rx_nth k t0) = false \/ S k = poll_limit (timeout (ctx_ w)) ->
  __SDCard_command_r1 command argument w =
    ((if high_bit (rx_nth k t0) then SDCARD_TIMEOUT else SDCARD_SUCCESS,
      rx_nth k t0),
     mkWorld (rx_skip (S k) t0) (ctx_ w)
             (rx_events (S k) t0 ++ frame_events command argument ++ log w)).
Proof.
  intros t0 Hk Hbefore Hstop.
  destruct (command_r1_shape command argument w) as (k0 & Hk0 & Hb0 & Ha0 & Heq).
  fold t0 in Hb0, Ha0, Heq.
  assert (E : k0 = k).
  { destruct (Nat.lt_trichotomy k0 k) as [Hlt|[Heq'|Hgt]].
    - specialize (Hbefore k0 Hlt). rewrite Ha0 in Hbefore by lia. discriminate.
    - exact Heq'.
    - specialize (Hb0 k Hgt). destruct Hstop as [Hclear|Hlast].
      + rewrite Hclear in Hb0. discriminate.
      + lia. }
  subst k0. exact Heq.
Qed.

End PollFacts.

(** On the stuck line every byte has its high bit set. *)
Lemma stuck_line_high (k : nat) (t : unit) :
  high_bit (rx_nth (spi := Stuck.transport) k t) = true.
Proof. reflexivity. Qed.

(** C3, the claim as worded, fails when the configured budget is 0: on a
    line that only ever returns 0xFF the exchange times out after 65536
    receive attempts, not after 0. *)
Lemma zero_budget_polls_65536 :
  let w := mkWorld (T := unit) tt (mkSDCard 0 0) [] in
  timeout (ctx_ w) = 0 /\
  fst (__SDCard_command_r1 (spi := Stuck.transport) 0 0 w) = (SDCARD_TIMEOUT, 0xff) /\
  Z.of_nat (count is_rx (log (snd (__SDCard_command_r1 (spi := Stuck.transport) 0 0 w))))
    = 65536 /\
  Z.of_nat (count is_rx (log (snd (__SDCard_command_r1 (spi := Stuck.transport) 0 0 w))))
    <> timeout (ctx_ w).
Proof.
  intros w.
  assert (Heq := command_r1_stops_at (spi := Stuck.transport) 0 0 w
                   (Z.to_nat (to_u16 (0 - 1)))).
  cbv zeta in Heq. specialize (Heq (Nat.le_refl _)).
  specialize (Heq (fun j _ => stuck_line_high j _)).
  specialize (Heq (or_intror eq_refl)).
  rewrite stuck_line_high in Heq.
  rewrite Heq. cbn [fst snd log].
  rewrite count_rx_exchange. cbn [log w count filter length].
  rewrite Nat.add_0_r.
  change (S (Z.to_nat (to_u16 (0 - 1)))) with (poll_limit 0).
  rewrite poll_limit_zero.
  repeat split. discriminate.
Qed.

Section BudgetTheorems.

Context {T : Type} {spi : Transport T}.

Lemma SDCard_command_after_r1 (command argument : Z) (buf : buffer)
    (length : Z) (w w1 : World T) (res r1 : Z) :
  __SDCard_command_r1 command argument w = ((res, r1), w1) ->
  SDCard_command command argument buf length w =
    if negb (res =? SDCARD_SUCCESS)
    then ((res, poke buf 0 r1), snd (SPI_end_transaction w1))
    else
      let (data, w2) := SPI_receive (length - 1) w1 in
      ((SDCARD_SUCCESS, poke_bytes (poke buf 0 r1) 1 data),
       snd (SPI_end_transaction w2)).
Proof.
  intros Heq. unfold SDCard_command, bind. rewrite Heq.
  destruct (negb (res =? SDCARD_SUCCESS)).
  - reflexivity.
  - destruct (SPI_receive (length - 1) w1) as [data w2]. reflexivity.
Qed.

(** C3, amended: with a configured budget of at least 1, an answer whose
    first [budget] bytes all have the high bit set makes the R1 exchange,
    and [SDCard_command] with it, return timeout after exactly [budget]
    receive attempts, the last byte read being the status stored; and when
    byte [k] of the answer, within the budget, is the first with its high
    bit clear, the exchange stops there, after [k + 1] attempts, with
    success and that byte as status. *)
Theorem command_r1_poll_budget (command argument : Z) (buf : buffer)
    (length : Z) (w : World T)
    (Hbound : is_u16 (timeout (ctx_ w))) (Hpos : 1 <= timeout (ctx_ w)) :
  let t0 := after_frame command argument (bus w) in
  let budget := Z.to_nat (timeout (ctx_ w)) in
  let r1_run := __SDCard_command_r1 command argument w in
  let command_run := SDCard_command command argument buf length w in
  ((forall j, (j < budget)%nat -> high_bit (rx_nth j t0) = true) ->
   let last := rx_nth (budget - 1) t0 in
   fst r1_run = (SDCARD_TIMEOUT, last) /\
   count is_rx (log (snd r1_run)) = (budget + count is_rx (log w))%nat /\
   fst command_run = (SDCARD_TIMEOUT, poke buf 0 last) /\
   count is_rx (log (snd command_run)) = (budget + count is_rx (log w))%nat)
  /\
  (forall k : nat,
     (k < budget)%nat ->
     (forall j, (j < k)%nat -> high_bit (rx_nth j t0) = true) ->
     high_bit (rx_nth k t0) = false ->
     fst r1_run = (SDCARD_SUCCESS, rx_nth k t0) /\
     count is_rx (log (snd r1_run)) = (S k + count is_rx (log w))%nat /\
     fst (fst command_run) = SDCARD_SUCCESS /\
     snd (fst command_run) 0%nat = rx_nth k t0 /\
     count is_rx (log (snd command_run)) = (S k + count is_rx (log w))%nat).
Proof.
  intros t0 budget r1_run command_run.
  assert (Hlimit : poll_limit (timeout (ctx_ w)) = budget).
  { pose proof (poll_limit_positive _ Hbound Hpos). unfold budget. lia. }
  split.
  - intros Hhigh last.
    assert (Hb : S (budget - 1) = budget) by (unfold budget; lia).
    assert (Heq := command_r1_stops_at command argument w (budget - 1)).
    cbv zeta in Heq. fold t0 in Heq. rewrite Hb, Hlimit in Heq.
    specialize (Heq (Nat.le_refl _)).
    specialize (Heq (fun j Hj => Hhigh j ltac:(lia))).
    specialize (Heq (or_intror eq_refl)).
    rewrite Hhigh in Heq by lia. fold last in Heq.
    unfold command_run. rewrite (SDCard_command_after_r1 _ _ _ _ _ _ _ _ Heq).
    unfold r1_run. rewrite Heq.
    cbn [fst snd log negb Z.eqb SDCARD_TIMEOUT SDCARD_SUCCESS
         SPI_end_transaction call].
    change (EvEndTransaction :: ?l) with ([EvEndTransaction] ++ l).
    rewrite (count_app _ [EvEndTransaction]), !count_rx_exchange.
    repeat split.
  - intros k Hk Hbefore Hclear.
    assert (Heq := command_r1_stops_at command argument w k).
    cbv zeta in Heq. fold t0 in Heq. rewrite Hlimit in Heq.
    specialize (Heq ltac:(lia) Hbefore (or_introl Hclear)).
    rewrite Hclear in Heq.
    unfold command_run. rewrite (SDCard_command_after_r1 _ _ _ _ _ _ _ _ Heq).
    unfold r1_run. rewrite Heq.
    cbn [fst snd log negb Z.eqb SDCARD_SUCCESS].
    unfold SPI_receive. cbn [bus ctx_ log].
    destruct (spi_receive (length - 1) (rx_skip (S k) t0)) as [data t2].
    cbn [fst snd log SPI_end_transaction call].
    change (EvEndTransaction :: EvReceive ?c ?x :: ?l)
      with ([EvEndTransaction; EvReceive c x] ++ l).
    rewrite (count_app _ [EvEndTransaction; EvReceive _ _]), !count_rx_exchange.
    rewrite poke_bytes_below by lia. rewrite poke_same, rx_nth_u8.
    repeat split.
Qed.

(** C10: the poll counter of [__SDCard_command_r1] is 16 bits wide and is
    decremented before it is compared with zero.  Whatever the line does,
    between 1 and 65536 receive attempts are made, and at most the
    configured bound when that is 1 or more.  On a line whose bytes all have
    the high bit set, a configured bound of 0 wraps to 65535 and 65536
    attempts are made before the timeout; any other bound is the number of
    attempts made.  So the attempts equal the bound exactly when the bound
    is at least 1. *)
Theorem r1_poll_counter_wraps (command argument : Z) (w : World T)
    (Hbound : is_u16 (timeout (ctx_ w))) :
  let r1_run := __SDCard_command_r1 command argument w in
  let polls := Z.of_nat (count is_rx (log (snd r1_run)))
               - Z.of_nat (count is_rx (log w)) in
  1 <= polls <= 65536 /\
  (1 <= timeout (ctx_ w) -> polls <= timeout (ctx_ w)) /\
  ((forall t : T, high_bit (to_u8 (fst (spi_receive_byte t))) = true) ->
   fst (fst r1_run) = SDCARD_TIMEOUT /\
   polls = (if timeout (ctx_ w) =? 0 then 65536 else timeout (ctx_ w)) /\
   (timeout (ctx_ w) = 0 -> polls = 65536) /\
   (polls = timeout (ctx_ w) <-> 1 <= timeout (ctx_ w))).
Proof.
  intros r1_run polls.
  set (t0 := after_frame command argument (bus w)).
  assert (Hany : 1 <= polls <= Z.of_nat (poll_limit (timeout (ctx_ w)))).
  { destruct (command_r1_shape command argument w) as (k & Hk & _ & _ & Heq).
    unfold polls, r1_run. rewrite Heq. cbn [snd log].
    rewrite count_rx_exchange. lia. }
  split; [pose proof (poll_limit_bounds (timeout (ctx_ w))); lia|].
  split; [intros Hpos; rewrite (poll_limit_positive _ Hbound Hpos) in Hany; lia|].
  intros Hhigh.
  assert (Hall : forall j, high_bit (rx_nth j t0) = true).
  { intros j. unfold rx_nth. apply Hhigh. }
  assert (Heq := command_r1_stops_at command argument w
                   (Z.to_nat (to_u16 (timeout (ctx_ w) - 1)))).
  cbv zeta in Heq. fold t0 in Heq.
  specialize (Heq (Nat.le_refl _) (fun j _ => Hall j) (or_intror eq_refl)).
  rewrite Hall in Heq.
  change (S (Z.to_nat (to_u16 (timeout (ctx_ w) - 1))))
    with (poll_limit (timeout (ctx_ w))) in Heq.
  assert (Hpolls : polls = Z.of_nat (poll_limit (timeout (ctx_ w)))).
  { unfold polls, r1_run. rewrite Heq. cbn [snd log].
    rewrite count_rx_exchange. lia. }
  assert (Hvalue : polls = if timeout (ctx_ w) =? 0 then 65536
                            else timeout (ctx_ w)).
  { rewrite Hpolls. destruct (Z.eqb_spec (timeout (ctx_ w)) 0) as [E|E].
    - rewrite E. apply poll_limit_zero.
    - apply poll_limit_positive; [exact Hbound|]. unfold is_u16 in Hbound. lia. }
  split; [unfold r1_run; rewrite Heq; reflexivity|].
  split; [exact Hvalue|].
  split.
  - intros E. rewrite Hvalue, E. reflexivity.
  - rewrite Hvalue. unfold is_u16 in Hbound.
    destruct (Z.eqb_spec (timeout (ctx_ w)) 0) as [E|E]; lia.
Qed.

End BudgetTheorems.

Lemma command_r1_poll_budget_witness :
  let w := mkWorld [0xff; 0xff; 0x01; 0xaa] (mkSDCard 0 3) [] in
  is_u16 (timeout (ctx_ w)) /\ 1 <= timeout (ctx_ w) /\
  (fst (__SDCard_command_r1 (spi := Scripted.transport) 8 0x1aa w)
     = (SDCARD_SUCCESS, 0x01) /\
   count is_rx (log (snd (__SDCard_command_r1 (spi := Scripted.transport) 8 0x1aa w)))
     = 3%nat).
Proof.
  intros w.
  assert (Hb : is_u16 (timeout (ctx_ w))) by (unfold is_u16; simpl; lia).
  assert (Hp : 1 <= timeout (ctx_ w)) by (simpl; lia).
  split; [exact Hb|]. split; [exact Hp|].
  destruct (command_r1_poll_budget (spi := Scripted.transport) 8 0x1aa zeros 5 w Hb Hp)
    as [_ Hanswer].
  destruct (Hanswer 2%nat) as (A & B & _).
  - simpl. lia.
  - intros [|[|j]] Hj; [reflexivity|reflexivity|lia].
  - reflexivity.
  - split; [exact A|exact B].
Defined.

Lemma r1_poll_counter_wraps_witness :
  let w := mkWorld (T := unit) tt (mkSDCard 0 0) [] in
  let r1_run := __SDCard_command_r1 (spi := Stuck.transport) 0 0 w in
  is_u16 (timeout (ctx_ w)) /\
  (forall t : unit, high_bit (to_u8 (fst (spi_receive_byte t))) = true) /\
  fst (fst r1_run) = SDCARD_TIMEOUT /\
  Z.of_nat (count is_rx (log (snd r1_run))) - Z.of_nat (count is_rx (log w))
    = 65536.
Proof.
  intros w r1_run.
  assert (Hh : forall t : unit, high_bit (to_u8 (fst (spi_receive_byte t))) = true)
    by (intros t; reflexivity).
  assert (Hb : is_u16 (timeout (ctx_ w))) by (unfold is_u16; simpl; lia).
  split; [exact Hb|]. split; [exact Hh|].
  destruct (r1_poll_counter_wraps (spi := Stuck.transport) 0 0 w Hb)
    as (_ & _ & Hstuck).
  destruct (Hstuck Hh) as (A & _ & B & _).
  split; [exact A|]. apply B. reflexivity.
Defined.

(** ** Block read *)

Section ReadFacts.

Context {T : Type} {spi : Transport T}.

(** C2: [SDCard_read512] runs the R1 exchange for command 17 and hands on
    its error if it has one; a non-zero status is bad-response; otherwise up
    to 3000 bytes are read while they are the filler 0xFF: 3000 fillers are
    a timeout, a first other byte 0xFE is followed by one 512-byte receive
    into the destination and success, and any other first byte is
    bad-response.  The transaction is ended once on each of these paths. *)
Theorem SDCard_read512_outcomes (addr : Z) (buf : buffer) (w : World T) :
  let r1_run := __SDCard_command_r1 17 addr w in
  let result := fst (fst r1_run) in
  let response := snd (fst r1_run) in
  let w1 := snd r1_run in
  let polled (k : nat) :=
    mkWorld (rx_skip k (bus w1)) (ctx_ w1) (rx_events k (bus w1) ++ log w1) in
  let run := SDCard_read512 addr buf w in
  (result <> SDCARD_SUCCESS ->
   run = ((result, buf), snd (SPI_end_transaction w1)))
  /\
  (result = SDCARD_SUCCESS -> response <> 0 ->
   run = ((SDCARD_BADRESPONSE, buf), snd (SPI_end_transaction w1)))
  /\
  (result = SDCARD_SUCCESS -> response = 0 ->
   ((forall j, (j < 3000)%nat -> rx_nth j (bus w1) = 0xff) ->
    run = ((SDCARD_TIMEOUT, buf), snd (SPI_end_transaction (polled 3000%nat))))
   /\
   (forall k : nat,
      (k < 3000)%nat ->
      (forall j, (j < k)%nat -> rx_nth j (bus w1) = 0xff) ->
      (rx_nth k (bus w1) = 0xfe ->
       let data := fst (SPI_receive 512 (polled (S k))) in
       let w2 := snd (SPI_receive 512 (polled (S k))) in
       run = ((SDCARD_SUCCESS, poke_bytes buf 0 data),
              snd (SPI_end_transaction w2)) /\
       log w2 = EvReceive 512 data :: log (polled (S k)) /\
       (length data = 512%nat ->
        (forall i, (i < 512)%nat ->
           poke_bytes buf 0 data i = to_u8 (nth i data 0)) /\
        (forall i, (512 <= i)%nat -> poke_bytes buf 0 data i = buf i)))
      /\
      (rx_nth k (bus w1) <> 0xff -> rx_nth k (bus w1) <> 0xfe ->
       run = ((SDCARD_BADRESPONSE, buf),
              snd (SPI_end_transaction (polled (S k))))))).
Proof.
  intros r1_run result response w1 polled run.
  unfold run, SDCard_read512, read512_to_done, bind.
  fold r1_run. destruct r1_run as [[res r1] w1'] eqn:Hr1.
  cbn [fst snd] in result, response, w1. subst result response w1.
  split; [|split].
  - intros Hres. apply Z.eqb_neq in Hres. rewrite Hres. reflexivity.
  - intros Hres Hresp. rewrite Hres. apply Z.eqb_neq in Hresp.
    cbn [Z.eqb SDCARD_SUCCESS negb]. rewrite Hresp. reflexivity.
  - intros Hres Hresp. rewrite Hres, Hresp. cbn [Z.eqb SDCARD_SUCCESS negb].
    split.
    + intros Hidle. rewrite (token_poll_idle 3000 0 w1' Hidle). reflexivity.
    + intros k Hk Hidle. split.
      * intros Htoken. cbv zeta.
        rewrite (token_poll_token 3000 k 0 w1' Hk Hidle) by (rewrite Htoken; discriminate).
        rewrite Htoken. cbn [Z.eqb Pos.eqb].
        fold (polled (S k)). unfold SPI_receive.
        destruct (spi_receive 512 (bus (polled (S k)))) as [bytes t2].
        cbn [fst snd log]. split; [reflexivity|]. split; [reflexivity|].
        intros Hlen. split.
        -- intros i Hi. apply (poke_bytes_at bytes buf 0 i). lia.
        -- intros i Hi. apply poke_bytes_above. lia.
      * intros Hff Hfe.
        rewrite (token_poll_token 3000 k 0 w1' Hk Hidle Hff).
        apply Z.eqb_neq in Hff, Hfe. rewrite Hff, Hfe. reflexivity.
Qed.

End ReadFacts.

Lemma SDCard_read512_outcomes_witness :
  let card := [0x00; 0xff; 0xff; 0xfe] ++ repeat 0x5a 512 ++ [0x12; 0x34] in
  let w := mkWorld card (mkSDCard 0 10) [] in
  let run := SDCard_read512 (spi := Scripted.transport) 0x200 zeros w in
  fst (fst run) = SDCARD_SUCCESS /\
  (forall i, (i < 512)%nat -> snd (fst run) i = 0x5a) /\
  bus (snd run) = [0x12; 0x34] /\
  count is_rx (log (snd run)) = 4%nat /\
  count is_end_txn (log (snd run)) = 1%nat.
Proof.
  intros card w run.
  destruct (SDCard_read512_outcomes (spi := Scripted.transport) 0x200 zeros w)
    as (_ & _ & Hok).
  destruct (Hok eq_refl eq_refl) as [_ Hfound].
  destruct (Hfound 2%nat) as [Htoken _].
  - lia.
  - intros [|[|j]] Hj; [reflexivity|reflexivity|lia].
  - destruct (Htoken eq_refl) as (Hrun & _ & Hcells).
    fold run in Hrun. rewrite Hrun. cbn [fst snd].
    split; [reflexivity|]. split.
    + intros i Hi. destruct (Hcells eq_refl) as [Hin _].
      rewrite (Hin i Hi).
      assert (A : forallb (fun i =>
                    to_u8 (nth i (fst (SPI_receive (spi := Scripted.transport) 512
                      (mkWorld (rx_skip 3 (bus (snd (__SDCard_command_r1 17 0x200 w))))
                         (ctx_ (snd (__SDCard_command_r1 17 0x200 w)))
                         (rx_events 3 (bus (snd (__SDCard_command_r1 17 0x200 w)))
                            ++ log (snd (__SDCard_command_r1 17 0x200 w)))))) 0)
                    =? 0x5a) (seq 0 512) = true) by (vm_compute; reflexivity).
      rewrite forallb_forall in A. apply Z.eqb_eq, A, in_seq. lia.
    + vm_compute. repeat split.
Defined.

(** ** Bus transactions *)

Lemma quiet_app (d2 d1 : list Event) :
  quiet d2 = true -> quiet d1 = true -> quiet (d2 ++ d1) = true.
Proof.
  unfold quiet. intros H2 H1. rewrite forallb_app, H2, H1. reflexivity.
Qed.

Lemma quiet_txn_after (d : list Event) (s : BusState) :
  quiet d = true -> txn_after d s = s.
Proof.
  induction d as [|e d IH]; intros H.
  - reflexivity.
  - cbn [quiet forallb] in H. apply andb_prop in H. destruct H as [He Hd].
    cbn [txn_after fold_right]. fold (txn_after d s). rewrite (IH Hd).
    destruct e; try reflexivity; discriminate.
Qed.

Lemma quiet_count (d : list Event) :
  quiet d = true ->
  count is_begin_txn d = 0%nat /\ count is_end_txn d = 0%nat.
Proof.
  induction d as [|e d IH]; intros H.
  - split; reflexivity.
  - cbn [quiet forallb] in H. apply andb_prop in H. destruct H as [He Hd].
    destruct (IH Hd) as [A B]. unfold count in *.
    destruct e; cbn [filter is_begin_txn is_end_txn]; try (split; assumption);
      discriminate.
Qed.

Section TransactionFacts.

Context {T : Type} {spi : Transport T}.

Lemma quiet_rx_events (k : nat) (t : T) : quiet (rx_events k t) = true.
Proof.
  induction k as [|k IH].
  - reflexivity.
  - rewrite rx_events_snoc. cbn [quiet forallb]. exact IH.
Qed.

(** One exchange, whatever is read after the status, and the release. *)
Lemma closes_transaction (extra : list Event) (k : nat) (t0 : T)
    (command argument : Z) :
  quiet extra = true ->
  let d := EvEndTransaction
             :: extra ++ rx_events k t0 ++ frame_events command argument in
  txn_after d Released = Released /\
  count is_begin_txn d = 1%nat /\
  count is_end_txn d = 1%nat.
Proof.
  intros Hq d. unfold d.
  change (EvEndTransaction :: ?l) with ([EvEndTransaction] ++ l).
  destruct (quiet_count extra Hq) as [Cb Ce].
  destruct (quiet_count _ (quiet_rx_events k t0)) as [Rb Re].
  split; [|split].
  - rewrite !txn_after_app, (quiet_txn_after extra) by exact Hq.
    rewrite (quiet_txn_after (rx_events k t0)) by apply quiet_rx_events.
    reflexivity.
  - rewrite !count_app, Cb, Rb. reflexivity.
  - rewrite !count_app, Ce, Re. reflexivity.
Qed.

(** Every path of [SDCard_read512]: the R1 exchange, then at most 3000
    single-byte reads and at most one block receive, then the release. *)
Lemma SDCard_read512_summary (addr : Z) (buf : buffer) (w : World T) :
  let t0 := after_frame 17 addr (bus w) in
  exists (res : Z) (buf' : buffer) (w' : World T) (extra : list Event)
         (k : nat),
    SDCard_read512 addr buf w = ((res, buf'), w') /\
    log w' = (EvEndTransaction
                :: extra ++ rx_events (S k) t0 ++ frame_events 17 addr)
             ++ log w /\
    ctx_ w' = ctx_ w /\
    quiet extra = true /\
    (count is_rx extra <= 3000)%nat /\
    (S k <= poll_limit (timeout (ctx_ w)))%nat /\
    (res = SDCARD_SUCCESS \/ res = SDCARD_TIMEOUT \/ res = SDCARD_BADRESPONSE).
Proof.
  intros t0.
  destruct (command_r1_shape 17 addr w) as (k & Hk & _ & _ & Heq).
  fold t0 in Heq.
  unfold SDCard_read512, read512_to_done, bind. rewrite Heq.
  destruct (high_bit (rx_nth k t0)).
  - exists SDCARD_TIMEOUT, buf. eexists. exists [], k.
    cbn [Z.eqb SDCARD_TIMEOUT SDCARD_SUCCESS negb ret SPI_end_transaction call].
    split; [reflexivity|]. cbn [log ctx_ app]. rewrite <- app_assoc.
    repeat split; auto. cbn. lia.
  - cbn [Z.eqb SDCARD_SUCCESS negb].
    destruct (negb (rx_nth k t0 =? 0)).
    + exists SDCARD_BADRESPONSE, buf. eexists. exists [], k.
      cbn [ret SPI_end_transaction call].
      split; [reflexivity|]. cbn [log ctx_ app]. rewrite <- app_assoc.
      repeat split; auto. cbn. lia.
    + destruct (token_poll_shape 3000 (rx_nth k t0)
                  (mkWorld (rx_skip (S k) t0) (ctx_ w)
                     (rx_events (S k) t0 ++ frame_events 17 addr ++ log w)))
        as (k2 & r & Hk2 & Hpoll).
      rewrite Hpoll. cbn [bus ctx_ log].
      set (t1 := rx_skip (S k) t0).
      destruct (r =? 255).
      * exists SDCARD_TIMEOUT, buf. eexists. exists (rx_events k2 t1), k.
        cbn [ret SPI_end_transaction call].
        split; [reflexivity|]. cbn [log ctx_ app]. rewrite <- !app_assoc.
        rewrite rx_events_count_rx.
        repeat split; auto using quiet_rx_events.
      * destruct (r =? 254).
        -- unfold SPI_receive. cbn [bus ctx_ log].
           destruct (spi_receive 512 (rx_skip k2 t1)) as [data t2].
           exists SDCARD_SUCCESS. eexists. eexists.
           exists (EvReceive 512 data :: rx_events k2 t1), k.
           cbn [ret SPI_end_transaction call].
           split; [reflexivity|]. cbn [log ctx_ app]. rewrite <- !app_assoc.
           change (EvReceive 512 data :: ?l) with ([EvReceive 512 data] ++ l).
           rewrite count_app, rx_events_count_rx.
           repeat split; auto;
             try (apply quiet_app; [reflexivity|apply quiet_rx_events]);
             try (cbn; lia).
        -- exists SDCARD_BADRESPONSE, buf. eexists. exists (rx_events k2 t1), k.
           cbn [ret SPI_end_transaction call].
           split; [reflexivity|]. cbn [log ctx_ app]. rewrite <- !app_assoc.
           rewrite rx_events_count_rx.
           repeat split; auto using quiet_rx_events.
Qed.

End TransactionFacts.

(** ** The ACMD41 loop *)

Section NegotiationFacts.

Context {T : Type} {spi : Transport T}.

Lemma acmd41_attempt_summary (buf : buffer) (w : World T) :
  exists (buf' : buffer) (w' : World T) (d : list Event),
    acmd41_attempt buf w = (buf', w') /\
    log w' = d ++ log w /\
    ctx_ w' = ctx_ w /\
    paired d /\
    filter is_send d = acmd41_frames /\
    count is_begin_txn d = 2%nat.
Proof.
  destruct (SDCard_command_summary 55 0 buf 1 w)
    as (res1 & buf1 & w1 & d1 & E1 & L1 & C1 & T1 & B1 & N1 & S1 & _).
  destruct (SDCard_command_summary 41 (Z.shiftl 1 30) buf1 5 w1)
    as (res2 & buf2 & w2 & d2 & E2 & L2 & C2 & T2 & B2 & N2 & S2 & _).
  exists buf2, w2, (d2 ++ d1).
  unfold acmd41_attempt, bind. rewrite E1, E2.
  split; [reflexivity|].
  split; [rewrite L2, L1, app_assoc; reflexivity|].
  split; [congruence|].
  split; [apply paired_app; split; congruence|].
  split; [rewrite filter_app, S2, S1; reflexivity|].
  rewrite count_app, B2, B1. reflexivity.
Qed.

Lemma attempts_step (j : nat) (buf : buffer) (w : World T) :
  attempts (S j) buf w =
  let (buf1, w1) := acmd41_attempt buf w in attempts j buf1 w1.
Proof. reflexivity. Qed.

Lemma acmd41_loop_step (n : nat) (buf : buffer) (w : World T) :
  acmd41_loop (S n) buf w =
  let (buf2, w2) := acmd41_attempt buf w in
  if buf2 0%nat =? 0 then (buf2, w2) else acmd41_loop n buf2 w2.
Proof.
  cbn [acmd41_loop]. unfold acmd41_attempt, bind, ret.
  destruct (SDCard_command 55 0 buf 1 w) as [[r1 b1] w1].
  destruct (SDCard_command 41 (Z.shiftl 1 30) b1 5 w1) as [[r2 b2] w2].
  destruct (b2 0%nat =? 0); reflexivity.
Qed.

Lemma status_after_step (j : nat) (buf : buffer) (w : World T) :
  status_after (S j) buf w =
  status_after j (fst (acmd41_attempt buf w)) (snd (acmd41_attempt buf w)).
Proof.
  unfold status_after. rewrite attempts_step.
  destruct (acmd41_attempt buf w) as [buf1 w1]. reflexivity.
Qed.

(** The loop is some number [k <= n] of attempts. *)
Lemma acmd41_loop_shape (n : nat) :
  forall (buf : buffer) (w : World T),
    exists k : nat, (k <= n)%nat /\ acmd41_loop n buf w = attempts k buf w.
Proof.
  induction n as [|n IH]; intros buf w.
  - exists 0%nat. split; [lia|reflexivity].
  - rewrite acmd41_loop_step.
    destruct (acmd41_attempt buf w) as [buf2 w2] eqn:E.
    destruct (buf2 0%nat =? 0).
    + exists 1%nat. split; [lia|]. rewrite attempts_step, E. reflexivity.
    + destruct (IH buf2 w2) as (k & Hk & Heq).
      exists (S k). split; [lia|]. rewrite attempts_step, E. exact Heq.
Qed.

(** It ends with the first attempt that leaves a zero status... *)
Lemma acmd41_loop_first_zero (n : nat) :
  forall (k : nat) (buf : buffer) (w : World T),
    (1 <= k <= n)%nat ->
    (forall j, (1 <= j < k)%nat -> status_after j buf w <> 0) ->
    status_after k buf w = 0 ->
    acmd41_loop n buf w = attempts k buf w.
Proof.
  induction n as [|n IH]; intros k buf w Hk Hbefore Hzero; [lia|].
  rewrite acmd41_loop_step.
  destruct k as [|k]; [lia|].
  rewrite status_after_step in Hzero. rewrite attempts_step.
  destruct (acmd41_attempt buf w) as [buf2 w2] eqn:E.
  cbn [fst snd] in Hzero.
  destruct k as [|k].
  - unfold status_after in Hzero. cbn [attempts ret fst] in Hzero.
    rewrite Hzero. reflexivity.
  - assert (H1 : buf2 0%nat <> 0).
    { specialize (Hbefore 1%nat ltac:(lia)).
      rewrite status_after_step, E in Hbefore. exact Hbefore. }
    apply Z.eqb_neq in H1. rewrite H1.
    apply IH; [lia| |exact Hzero].
    intros j Hj. specialize (Hbefore (S j) ltac:(lia)).
    rewrite status_after_step, E in Hbefore. exact Hbefore.
Qed.

(** ... and otherwise runs all [n] attempts. *)
Lemma acmd41_loop_exhausted (n : nat) :
  forall (buf : buffer) (w : World T),
    (forall j, (1 <= j <= n)%nat -> status_after j buf w <> 0) ->
    acmd41_loop n buf w = attempts n buf w.
Proof.
  induction n as [|n IH]; intros buf w Hall; [reflexivity|].
  rewrite acmd41_loop_step, attempts_step.
  destruct (acmd41_attempt buf w) as [buf2 w2] eqn:E.
  assert (H1 : buf2 0%nat <> 0).
  { specialize (Hall 1%nat ltac:(lia)).
    rewrite status_after_step, E in Hall. exact Hall. }
  apply Z.eqb_neq in H1. rewrite H1.
  apply IH. intros j Hj. specialize (Hall (S j) ltac:(lia)).
  rewrite status_after_step, E in Hall. exact Hall.
Qed.

Lemma concat_repeat_snoc (pat : list Event) (k : nat) :
  concat (repeat pat k) ++ pat = concat (repeat pat (S k)).
Proof.
  induction k as [|k IH].
  - cbn. rewrite app_nil_r. reflexivity.
  - cbn [repeat concat] in *. rewrite <- app_assoc, IH. reflexivity.
Qed.

(** [k] attempts are [k] pairs of closed transactions, carrying the frames
    of command 55 and command 41 in turn. *)
Lemma attempts_summary (k : nat) :
  forall (buf : buffer) (w : World T),
    exists d : list Event,
      log (snd (attempts k buf w)) = d ++ log w /\
      ctx_ (snd (attempts k buf w)) = ctx_ w /\
      paired d /\
      filter is_send d = concat (repeat acmd41_frames k) /\
      count is_begin_txn d = (2 * k)%nat.
Proof.
  induction k as [|k IH]; intros buf w.
  - exists []. repeat split.
  - rewrite attempts_step.
    destruct (acmd41_attempt_summary buf w)
      as (buf1 & w1 & d1 & E1 & L1 & C1 & P1 & S1 & B1).
    rewrite E1.
    destruct (IH buf1 w1) as (d & L & C & P & S & B).
    exists (d ++ d1).
    split; [rewrite L, L1, app_assoc; reflexivity|].
    split; [congruence|].
    split; [apply paired_app; assumption|].
    split; [rewrite filter_app, S, S1; apply concat_repeat_snoc|].
    rewrite count_app, B, B1. lia.
Qed.

End NegotiationFacts.

(** ** The handshake as a whole *)

Section InitFacts.

Context {T : Type} {spi : Transport T}.

Lemma paired_cons_quiet (e : Event) (d : list Event) :
  quiet [e] = true -> paired d -> paired (e :: d).
Proof.
  intros He Hd. change (e :: d) with ([e] ++ d). apply paired_app; [|exact Hd].
  destruct (quiet_count [e] He) as [A B].
  split; [apply quiet_txn_after; exact He|congruence].
Qed.

Lemma init_after_acmd41_summary (buf : buffer) (w : World T) :
  exists (res : Z) (w' : World T) (d : list Event),
    init_after_acmd41 buf w = (res, w') /\
    log w' = d ++ log w /\
    ctx_ w' = ctx_ w /\
    paired d /\
    declared res /\
    (res = SDCARD_SUCCESS ->
     exists rest,
       d = EvConfigure (clock_delay (ctx_ w)) SPI_MSBFIRST SPI_MODE0 :: rest) /\
    (buf 0%nat <> 0 -> res = SDCARD_TIMEOUT /\ w' = w) /\
    (buf 0%nat = 0 -> filter is_send d = [EvSend (command_frame 58 0)]).
Proof.
  unfold init_after_acmd41, declared.
  destruct (Z.eqb_spec (buf 0%nat) 0) as [Hz|Hnz]; cbn [negb].
  - destruct (SDCard_command_summary 58 0 buf 5 w)
      as (res1 & buf1 & w1 & d1 & E1 & L1 & C1 & T1 & B1 & N1 & S1 & _).
    assert (P1 : paired d1) by (split; congruence).
    unfold bind. rewrite E1.
    destruct (negb (Z.land (buf1 0%nat) 254 =? 0)).
    { exists SDCARD_BADRESPONSE, w1, d1. unfold ret.
      repeat split; auto; try discriminate; try apply P1; contradiction. }
    destruct (Z.land (buf1 1%nat) 64 =? 0).
    { exists SDCARD_NOTSUPPORTED, w1, d1. unfold ret.
      repeat split; auto; try discriminate; try apply P1; contradiction. }
    destruct (Z.land (buf1 1%nat) 128 =? 0).
    { exists SDCARD_BADRESPONSE, w1, d1. unfold ret.
      repeat split; auto; try discriminate; try apply P1; contradiction. }
    unfold get_ctx, SPI_configure, call, ret. cbn [bus ctx_ log].
    eexists SDCARD_SUCCESS, _,
      (EvConfigure (clock_delay (ctx_ w1)) SPI_MSBFIRST SPI_MODE0 :: d1).
    split; [reflexivity|]. cbn [log ctx_].
    split; [rewrite L1; reflexivity|].
    split; [exact C1|].
    split; [apply paired_cons_quiet; [reflexivity|exact P1]|].
    split; [auto|].
    split; [intros _; exists d1; rewrite C1; reflexivity|].
    split; [contradiction|].
    intros _. cbn [filter is_send]. exact S1.
  - exists SDCARD_TIMEOUT, w, []. unfold ret.
    repeat split; auto; try discriminate; try contradiction.
Qed.

Lemma SDCard_init_summary (initial_clock_delay clock_delay timeout : Z)
    (stack : buffer) (w : World T) :
  exists (res : Z) (w' : World T) (d : list Event),
    SDCard_init initial_clock_delay clock_delay timeout stack w = (res, w') /\
    log w' = d ++ log w /\
    ctx_ w' = mkSDCard (to_u8 clock_delay) timeout /\
    paired d /\
    declared res /\
    (res = SDCARD_SUCCESS ->
     exists rest,
       d = EvConfigure (to_u8 clock_delay) SPI_MSBFIRST SPI_MODE0 :: rest).
Proof.
  unfold SDCard_init, bind, set_ctx, SPI_begin, SPI_configure,
    SPI_begin_transaction, SPI_dummy_clocks, SPI_end_transaction, call.
  cbn [bus ctx_ log].
  set (d0 := [EvEndTransaction; EvDummyClocks 10; EvBeginTransaction;
              EvConfigure initial_clock_delay SPI_MSBFIRST SPI_MODE0; EvBegin]).
  set (c0 := mkSDCard (to_u8 clock_delay) timeout).
  match goal with
  | |- context [SDCard_command 0 0 stack 1 ?w0] => set (w0' := w0)
  end.
  assert (L0 : log w0' = d0 ++ log w) by reflexivity.
  assert (C0 : ctx_ w0' = c0) by reflexivity.
  assert (P0 : paired d0) by (split; reflexivity).
  clearbody w0'.
  destruct (SDCard_command_summary 0 0 stack 1 w0')
    as (res1 & buf1 & w1 & d1 & E1 & L1 & C1 & T1 & B1 & N1 & S1 & _).
  assert (P1 : paired d1) by (split; congruence).
  rewrite E1.
  destruct (negb (buf1 0%nat =? SDCARD_R1_IDLE_STATE)).
  { exists SDCARD_TIMEOUT, w1, (d1 ++ d0). unfold ret, declared.
    split; [reflexivity|].
    split; [rewrite L1, L0, app_assoc; reflexivity|].
    split; [congruence|].
    split; [apply paired_app; assumption|].
    split; [auto|discriminate]. }
  destruct (SDCard_command_summary 8 0x1aa buf1 5 w1)
    as (res2 & buf2 & w2 & d2 & E2 & L2 & C2 & T2 & B2 & N2 & S2 & _).
  assert (P2 : paired d2) by (split; congruence).
  rewrite E2.
  destruct (negb (buf2 0%nat =? SDCARD_R1_IDLE_STATE)
            || negb (Z.land (buf2 3%nat) 1 =? 1)
            || negb (buf2 4%nat =? 170)).
  { exists SDCARD_NOTSUPPORTED, w2, (d2 ++ d1 ++ d0). unfold ret, declared.
    split; [reflexivity|].
    split; [rewrite L2, L1, L0, !app_assoc; reflexivity|].
    split; [congruence|].
    split; [repeat apply paired_app; assumption|].
    split; [auto|discriminate]. }
  destruct (acmd41_loop_shape 3000 buf2 w2) as (k & _ & E3).
  destruct (attempts_summary k buf2 w2) as (d3 & L3 & C3 & P3 & _).
  rewrite E3. destruct (attempts k buf2 w2) as [buf3 w3].
  cbn [snd] in L3, C3.
  destruct (init_after_acmd41_summary buf3 w3)
    as (res4 & w4 & d4 & E4 & L4 & C4 & P4 & D4 & S4 & _).
  rewrite E4. exists res4, w4, (d4 ++ d3 ++ d2 ++ d1 ++ d0).
  split; [reflexivity|].
  split; [rewrite L4, L3, L2, L1, L0, !app_assoc; reflexivity|].
  split; [congruence|].
  split; [repeat apply paired_app; assumption|].
  split; [exact D4|].
  intros Hok. destruct (S4 Hok) as [rest Hrest].
  exists (rest ++ d3 ++ d2 ++ d1 ++ d0). rewrite Hrest.
  replace (ctx_ w3) with c0 by congruence. reflexivity.
Qed.

End InitFacts.

(** ** Results, transactions and the clock divisor *)

Section OperationTheorems.

Context {T : Type} {spi : Transport T}.

(** C4: whatever the inputs and whatever the transport does, [SDCard_init],
    [SDCard_command] and [SDCard_read512] return success, timeout,
    not-supported or bad-response; [SDCARD_CRC_ERROR] is returned by none
    of them. *)
Theorem results_are_declared (initial_clock_delay clock_delay timeout : Z)
    (stack : buffer) (command argument length addr : Z) (buf : buffer)
    (w : World T) :
  let r_init :=
    fst (SDCard_init initial_clock_delay clock_delay timeout stack w) in
  let r_command := fst (fst (SDCard_command command argument buf length w)) in
  let r_read := fst (fst (SDCard_read512 addr buf w)) in
  (declared r_init /\ r_init <> SDCARD_CRC_ERROR) /\
  (declared r_command /\ r_command <> SDCARD_CRC_ERROR) /\
  (declared r_read /\ r_read <> SDCARD_CRC_ERROR).
Proof.
  intros r_init r_command r_read.
  assert (Hno : forall r, declared r -> declared r /\ r <> SDCARD_CRC_ERROR).
  { intros r Hr. split; [exact Hr|].
    destruct Hr as [E|[E|[E|E]]]; rewrite E; discriminate. }
  split; [|split]; apply Hno.
  - destruct (SDCard_init_summary initial_clock_delay clock_delay timeout stack w)
      as (res & w' & d & E & _ & _ & _ & D & _).
    unfold r_init. rewrite E. exact D.
  - destruct (SDCard_command_summary command argument buf length w)
      as (res & buf' & w' & d & E & _ & _ & _ & _ & _ & _ & R).
    unfold r_command. rewrite E. cbn [fst]. rewrite R. unfold declared.
    destruct (high_bit (buf' 0%nat)); auto.
  - destruct (SDCard_read512_summary addr buf w)
      as (res & buf' & w' & extra & k & E & _ & _ & _ & _ & _ & R).
    unfold r_read. rewrite E. cbn [fst]. unfold declared. tauto.
Qed.

(** C5: the calls one [SDCard_command] or one [SDCard_read512] adds to the
    log hold exactly one begin and one end of transaction, the end last, on
    every path; the calls of [SDCard_init] take and release the bus in
    strict alternation and equally often.  Started with the bus free, each
    operation returns with the bus free. *)
Theorem transactions_balanced (initial_clock_delay clock_delay timeout : Z)
    (stack : buffer) (command argument length addr : Z) (buf : buffer)
    (w : World T) :
  (exists d,
     log (snd (SDCard_command command argument buf length w)) = d ++ log w /\
     txn_after d Released = Released /\
     count is_begin_txn d = 1%nat /\ count is_end_txn d = 1%nat /\
     hd_error d = Some EvEndTransaction) /\
  (exists d,
     log (snd (SDCard_read512 addr buf w)) = d ++ log w /\
     txn_after d Released = Released /\
     count is_begin_txn d = 1%nat /\ count is_end_txn d = 1%nat /\
     hd_error d = Some EvEndTransaction) /\
  (exists d,
     log (snd (SDCard_init initial_clock_delay clock_delay timeout stack w))
       = d ++ log w /\
     txn_after d Released = Released /\
     count is_begin_txn d = count is_end_txn d).
Proof.
  split; [|split].
  - destruct (SDCard_command_shape command argument buf length w)
      as (k & _ & _ & _ & Heq).
    set (t0 := after_frame command argument (bus w)) in *.
    destruct (high_bit (rx_nth k t0)).
    + rewrite Heq. cbn [snd log].
      exists (EvEndTransaction
                :: [] ++ rx_events (S k) t0 ++ frame_events command argument).
      split; [cbn [app]; rewrite app_assoc; reflexivity|].
      destruct (closes_transaction [] (S k) t0 command argument eq_refl)
        as (A & B & C).
      repeat split; assumption.
    + destruct (spi_receive (length - 1) (rx_skip (S k) t0)) as [data t2].
      rewrite Heq. cbn [snd log].
      exists (EvEndTransaction
                :: [EvReceive (length - 1) data] ++ rx_events (S k) t0
                     ++ frame_events command argument).
      split; [cbn [app]; rewrite app_assoc; reflexivity|].
      destruct (closes_transaction [EvReceive (length - 1) data] (S k) t0
                  command argument eq_refl) as (A & B & C).
      repeat split; assumption.
  - destruct (SDCard_read512_summary addr buf w)
      as (res & buf' & w' & extra & k & E & L & _ & Q & _).
    rewrite E. cbn [snd]. eexists. split; [exact L|].
    destruct (closes_transaction extra (S k) (after_frame 17 addr (bus w))
                17 addr Q) as (A & B & C).
    repeat split; assumption.
  - destruct (SDCard_init_summary initial_clock_delay clock_delay timeout stack w)
      as (res & w' & d & E & L & _ & [A B] & _).
    rewrite E. cbn [snd]. exists d. repeat split; assumption.
Qed.

(** C9: [SDCard_init] keeps the 16-bit operating divisor in the 8-bit
    [clock_delay] field, so after a successful handshake the last call made
    is the reconfiguration of the transport with the divisor modulo 256; a
    divisor of 256 or more does not survive. *)
Theorem init_clock_delay_truncated (initial_divisor divisor timeout : Z)
    (stack : buffer) (w : World T)
    (Hdelay : is_u16 divisor)
    (Hok : fst (SDCard_init initial_divisor divisor timeout stack w)
           = SDCARD_SUCCESS) :
  let w' := snd (SDCard_init initial_divisor divisor timeout stack w) in
  clock_delay (ctx_ w') = divisor mod 256 /\
  hd_error (log w') =
    Some (EvConfigure (divisor mod 256) SPI_MSBFIRST SPI_MODE0) /\
  (256 <= divisor -> divisor mod 256 <> divisor) /\
  (divisor < 256 -> divisor mod 256 = divisor).
Proof.
  intros w'.
  destruct (SDCard_init_summary initial_divisor divisor timeout stack w)
    as (res & w1 & d & E & L & C & _ & _ & S).
  unfold w'. rewrite E in *. cbn [fst snd] in *.
  destruct (S Hok) as [rest Hrest].
  split; [rewrite C; reflexivity|].
  split; [rewrite L, Hrest; reflexivity|].
  unfold is_u16 in Hdelay.
  split; intros H.
  - pose proof (Z.mod_pos_bound divisor 256). lia.
  - apply Z.mod_small. lia.
Qed.

End OperationTheorems.

Lemma init_clock_delay_truncated_witness :
  let w := power_on good_card in
  let run := SDCard_init (spi := Scripted.transport) 300 258 100 zeros w in
  is_u16 258 /\
  fst run = SDCARD_SUCCESS /\
  clock_delay (ctx_ (snd run)) = 2 /\
  hd_error (log (snd run)) = Some (EvConfigure 2 SPI_MSBFIRST SPI_MODE0).
Proof.
  intros w run.
  assert (Hd : is_u16 258) by (unfold is_u16; lia).
  assert (Hok : fst run = SDCARD_SUCCESS) by (vm_compute; reflexivity).
  split; [exact Hd|]. split; [exact Hok|].
  destruct (init_clock_delay_truncated (spi := Scripted.transport)
              300 258 100 zeros w Hd Hok) as (A & B & _).
  split; [exact A|exact B].
Defined.

(** ** Which bound each polling loop has *)

Section BoundTheorems.

Context {T : Type} {spi : Transport T}.

Lemma token_poll_ignores_ctx (n : nat) :
  forall (response : Z) (t : T) (c c' : SDCard) (l : list Event),
    fst (token_poll n response (mkWorld t c l)) =
      fst (token_poll n response (mkWorld t c' l)) /\
    bus (snd (token_poll n response (mkWorld t c l))) =
      bus (snd (token_poll n response (mkWorld t c' l))) /\
    log (snd (token_poll n response (mkWorld t c l))) =
      log (snd (token_poll n response (mkWorld t c' l))).
Proof.
  induction n as [|n IH]; intros response t c c' l.
  - repeat split.
  - rewrite !token_poll_step. cbv zeta. cbn [bus ctx_ log].
    destruct (negb (rx_nth 0 t =? 255)).
    + repeat split.
    + apply IH.
Qed.

End BoundTheorems.

(** C1, the claim as worded, fails: with the timeout configured to 1, a card
    that accepts command 17 and then stays silent is polled 3000 times for
    the data token; the one configured value does not bound that loop. *)
Lemma token_poll_not_bounded_by_timeout :
  let w := mkWorld [0x00] (mkSDCard 0 1) [] in
  let r1_run := __SDCard_command_r1 (spi := Scripted.transport) 17 0 w in
  let run := SDCard_read512 (spi := Scripted.transport) 0 zeros w in
  timeout (ctx_ w) = 1 /\
  fst r1_run = (SDCARD_SUCCESS, 0x00) /\
  count is_rx (log (snd r1_run)) = 1%nat /\
  fst (fst run) = SDCARD_TIMEOUT /\
  count is_rx (log (snd run)) = (1 + 3000)%nat.
Proof. vm_compute. repeat split. Qed.

(** * Further properties of the checksum *)

Lemma pairs_of_bytes (P : Z -> Z -> bool) :
  forallb (fun x => forallb (P x) all_bytes) all_bytes = true ->
  forall x y : Z, is_u8 x -> is_u8 y -> P x y = true.
Proof.
  intros H x y Hx Hy. rewrite forallb_forall in H.
  specialize (H x (all_bytes_complete x Hx)).
  rewrite forallb_forall in H. apply H, all_bytes_complete, Hy.
Qed.

Lemma each_byte (P : Z -> bool) :
  forallb P all_bytes = true -> forall x : Z, is_u8 x -> P x = true.
Proof.
  intros H x Hx. rewrite forallb_forall in H.
  apply H, all_bytes_complete, Hx.
Qed.

Lemma lxor_u8 (x y : Z) : is_u8 x -> is_u8 y -> is_u8 (Z.lxor x y).
Proof.
  intros Hx Hy.
  assert (A := pairs_of_bytes
                 (fun x y => (0 <=? Z.lxor x y) && (Z.lxor x y <? 256))
                 ltac:(vm_compute; reflexivity) x y Hx Hy).
  cbv beta in A. apply andb_prop in A. destruct A as [A B].
  unfold is_u8. split; [apply Z.leb_le, A|apply Z.ltb_lt, B].
Qed.

(** One turn of the bit loop commutes with exclusive-or: the checksum is
    linear over GF(2). *)
Lemma bit_step_linear (x y : Z) :
  is_u8 x -> is_u8 y ->
  Crc.bit_step (Z.lxor x y) = Z.lxor (Crc.bit_step x) (Crc.bit_step y).
Proof.
  intros Hx Hy. apply Z.eqb_eq.
  apply (pairs_of_bytes
           (fun x y => Crc.bit_step (Z.lxor x y)
                       =? Z.lxor (Crc.bit_step x) (Crc.bit_step y)));
    [vm_compute; reflexivity|exact Hx|exact Hy].
Qed.

Lemma bit_loop_u8 (n : nat) :
  forall x : Z, is_u8 x -> is_u8 (Crc.bit_loop n x).
Proof.
  induction n as [|n IH]; intros x Hx.
  - exact Hx.
  - cbn [Crc.bit_loop]. apply IH, bit_step_even.
Qed.

Lemma bit_loop_linear (n : nat) :
  forall x y : Z,
    is_u8 x -> is_u8 y ->
    Crc.bit_loop n (Z.lxor x y)
    = Z.lxor (Crc.bit_loop n x) (Crc.bit_loop n y).
Proof.
  induction n as [|n IH]; intros x y Hx Hy.
  - reflexivity.
  - cbn [Crc.bit_loop]. rewrite bit_step_linear by assumption.
    apply IH; apply bit_step_even.
Qed.

Lemma bit_loop_plus (n m : nat) (x : Z) :
  Crc.bit_loop (n + m) x = Crc.bit_loop m (Crc.bit_loop n x).
Proof.
  revert x. induction n as [|n IH]; intros x.
  - reflexivity.
  - cbn [Nat.add Crc.bit_loop]. apply IH.
Qed.

Lemma bit_loop_zero (n : nat) : Crc.bit_loop n 0 = 0.
Proof. induction n as [|n IH]; [reflexivity|exact IH]. Qed.

Lemma byte_loop_u8 (bytes : list Z) :
  forall crc : Z,
    is_u8 crc -> Forall is_u8 bytes -> is_u8 (Crc.byte_loop bytes crc).
Proof.
  induction bytes as [|b rest IH]; intros crc Hc Hb.
  - exact Hc.
  - inversion Hb as [|? ? Hb1 Hb2]; subst. cbn [Crc.byte_loop].
    apply IH; [|exact Hb2]. apply bit_loop_u8, lxor_u8; assumption.
Qed.

Lemma lxor_cancel_byte (x y b : Z) :
  Z.lxor (Z.lxor x b) (Z.lxor y b) = Z.lxor x y.
Proof.
  apply Z.bits_inj'. intros n _. rewrite !Z.lxor_spec.
  destruct (Z.testbit x n), (Z.testbit y n), (Z.testbit b n); reflexivity.
Qed.

(** Two runs over the same bytes keep the exclusive-or of their
    accumulators moving through the bit loop alone. *)
Lemma byte_loop_difference (bytes : list Z) :
  forall x y : Z,
    is_u8 x -> is_u8 y -> Forall is_u8 bytes ->
    Z.lxor (Crc.byte_loop bytes x) (Crc.byte_loop bytes y)
    = Crc.bit_loop (8 * length bytes) (Z.lxor x y).
Proof.
  induction bytes as [|b rest IH]; intros x y Hx Hy Hb.
  - reflexivity.
  - inversion Hb as [|? ? Hb1 Hb2]; subst. cbn [Crc.byte_loop].
    rewrite IH by (try apply bit_loop_u8; try apply lxor_u8; assumption).
    rewrite <- bit_loop_linear by (apply lxor_u8; assumption).
    rewrite lxor_cancel_byte.
    replace (8 * length (b :: rest))%nat with (8 + 8 * length rest)%nat
      by (cbn [length]; lia).
    rewrite bit_loop_plus. reflexivity.
Qed.

(** A difference other than 0 and the polynomial never dies out. *)
Lemma bit_loop_nonzero (n : nat) :
  forall d : Z,
    is_u8 d -> d <> 0 -> d <> 0x89 ->
    Crc.bit_loop n d <> 0 /\ Crc.bit_loop n d <> 0x89.
Proof.
  induction n as [|n IH]; intros d Hd H0 H89.
  - split; assumption.
  - cbn [Crc.bit_loop].
    assert (A := each_byte
                   (fun d => (d =? 0) || (d =? 0x89)
                             || negb ((Crc.bit_step d =? 0)
                                      || (Crc.bit_step d =? 0x89)))
                   ltac:(vm_compute; reflexivity) d Hd).
    cbv beta in A. apply Z.eqb_neq in H0, H89. rewrite H0, H89 in A.
    cbn [orb] in A. apply negb_true_iff, orb_false_elim in A.
    destruct A as [A B]. apply Z.eqb_neq in A, B.
    apply IH; [apply bit_step_even|exact A|exact B].
Qed.

Lemma bit_loop_polynomial (n : nat) : Crc.bit_loop (S n) 0x89 = 0.
Proof. cbn [Crc.bit_loop]. change (Crc.bit_step 137) with 0. apply bit_loop_zero. Qed.

Lemma lxor_error (s b e : Z) :
  Z.lxor (Z.lxor s (Z.lxor b e)) (Z.lxor s b) = e.
Proof.
  apply Z.bits_inj'. intros n _. rewrite !Z.lxor_spec.
  destruct (Z.testbit s n), (Z.testbit b n), (Z.testbit e n); reflexivity.
Qed.

(** The exclusive-or of the checksums of two messages that differ by [e] in
    one byte. *)
Lemma crc_of_corrupted (front back : list Z) (b e : Z) :
  Forall is_u8 front -> is_u8 b -> Forall is_u8 back -> is_u8 e ->
  let n := Z.of_nat (length (front ++ b :: back)) in
  Z.lxor (SDCard_crc (front ++ Z.lxor b e :: back) n)
         (SDCard_crc (front ++ b :: back) n)
  = Crc.bit_loop (8 + 8 * length back) e.
Proof.
  intros Hf Hb Hk He n. unfold SDCard_crc, n.
  replace (length (front ++ b :: back))
    with (length (front ++ Z.lxor b e :: back))
    by (rewrite !length_app; reflexivity).
  rewrite Nat2Z.id, firstn_all.
  replace (length (front ++ Z.lxor b e :: back))
    with (length (front ++ b :: back))
    by (rewrite !length_app; reflexivity).
  rewrite firstn_all, !byte_loop_app. cbn [Crc.byte_loop].
  set (s := Crc.byte_loop front 0).
  assert (Hs : is_u8 s).
  { apply byte_loop_u8; [unfold is_u8; lia|exact Hf]. }
  assert (Hbe : is_u8 (Z.lxor b e)) by (apply lxor_u8; assumption).
  rewrite byte_loop_difference
    by (try apply bit_loop_u8; try apply lxor_u8; assumption).
  rewrite <- bit_loop_linear by (apply lxor_u8; assumption).
  rewrite lxor_error, bit_loop_plus. reflexivity.
Qed.

Lemma lxor_zero_iff (x y : Z) : Z.lxor x y = 0 <-> x = y.
Proof. apply Z.lxor_eq_0_iff. Qed.

(** X2: changing one byte of a message by a non-zero pattern [e] leaves the
    checksum as it was exactly when [e] is 0x89, the polynomial itself;
    every other corruption confined to one byte changes the checksum,
    wherever the byte is and however long the message. *)
Theorem SDCard_crc_one_byte_corrupted (front back : list Z) (b e : Z)
    (Hfront : Forall is_u8 front) (Hb : is_u8 b) (Hback : Forall is_u8 back)
    (He : is_u8 e) (Hnz : e <> 0) :
  let n := Z.of_nat (length (front ++ b :: back)) in
  SDCard_crc (front ++ Z.lxor b e :: back) n
    = SDCard_crc (front ++ b :: back) n
  <-> e = 0x89.
Proof.
  intros n. rewrite <- lxor_zero_iff. unfold n.
  rewrite (crc_of_corrupted front back b e Hfront Hb Hback He).
  split.
  - intros Hz. destruct (Z.eq_dec e 0x89) as [E|E]; [exact E|].
    destruct (bit_loop_nonzero (8 + 8 * length back) e He Hnz E) as [A _].
    contradiction.
  - intros E. rewrite E. apply (bit_loop_polynomial (7 + 8 * length back)).
Qed.

Lemma SDCard_crc_one_byte_corrupted_witness :
  Forall is_u8 [0x40; 0] /\ is_u8 0 /\ Forall is_u8 [0; 0] /\
  is_u8 0x89 /\ 0x89 <> 0 /\
  (SDCard_crc ([0x40; 0] ++ Z.lxor 0 0x89 :: [0; 0]) 5
     = SDCard_crc ([0x40; 0] ++ 0 :: [0; 0]) 5
   <-> 0x89 = 0x89).
Proof.
  assert (U : forall x, 0 <= x < 256 -> is_u8 x) by (intros x H; exact H).
  assert (Hf : Forall is_u8 [0x40; 0]) by (repeat constructor; apply U; lia).
  assert (Hk : Forall is_u8 [0; 0]) by (repeat constructor; apply U; lia).
  assert (Hb : is_u8 0) by (apply U; lia).
  assert (He : is_u8 0x89) by (apply U; lia).
  assert (Hn : 0x89 <> 0) by discriminate.
  repeat (split; [assumption|]).
  exact (SDCard_crc_one_byte_corrupted [0x40; 0] [0; 0] 0 0x89 Hf Hb Hk He Hn).
Defined.

(** X3: flipping any single bit of a message changes its checksum. *)
Theorem SDCard_crc_detects_bit_flip (front back : list Z) (b bit : Z)
    (Hfront : Forall is_u8 front) (Hb : is_u8 b) (Hback : Forall is_u8 back)
    (Hbit : 0 <= bit < 8) :
  let n := Z.of_nat (length (front ++ b :: back)) in
  SDCard_crc (front ++ Z.lxor b (2 ^ bit) :: back) n
    <> SDCard_crc (front ++ b :: back) n.
Proof.
  intros n Heq. apply lxor_zero_iff in Heq. unfold n in Heq.
  assert (Hcases : bit = 0 \/ bit = 1 \/ bit = 2 \/ bit = 3 \/
                   bit = 4 \/ bit = 5 \/ bit = 6 \/ bit = 7) by lia.
  assert (He : is_u8 (2 ^ bit) /\ 2 ^ bit <> 0 /\ 2 ^ bit <> 0x89).
  { destruct Hcases as [E|[E|[E|[E|[E|[E|[E|E]]]]]]]; rewrite E;
      (split; [unfold is_u8; cbn; lia|split; discriminate]). }
  destruct He as (He & Hnz & Hpoly).
  rewrite (crc_of_corrupted front back b (2 ^ bit) Hfront Hb Hback He) in Heq.
  destruct (bit_loop_nonzero (8 + 8 * length back) (2 ^ bit) He Hnz Hpoly)
    as [A _].
  contradiction.
Qed.

Lemma SDCard_crc_detects_bit_flip_witness :
  Forall is_u8 [0x51; 0; 0] /\ is_u8 0x02 /\ Forall is_u8 [0x00] /\
  0 <= 3 < 8 /\
  SDCard_crc ([0x51; 0; 0] ++ Z.lxor 0x02 (2 ^ 3) :: [0x00]) 5
    <> SDCard_crc ([0x51; 0; 0] ++ 0x02 :: [0x00]) 5.
Proof.
  assert (U : forall x, 0 <= x < 256 -> is_u8 x) by (intros x H; exact H).
  assert (Hf : Forall is_u8 [0x51; 0; 0]) by (repeat constructor; apply U; lia).
  assert (Hk : Forall is_u8 [0x00]) by (repeat constructor; apply U; lia).
  assert (Hb : is_u8 0x02) by (apply U; lia).
  assert (Hbit : 0 <= 3 < 8) by lia.
  repeat (split; [assumption|]).
  exact (SDCard_crc_detects_bit_flip [0x51; 0; 0] [0x00] 0x02 3 Hf Hb Hk Hbit).
Defined.

Lemma lxor_interchange (x y a b : Z) :
  Z.lxor (Z.lxor x y) (Z.lxor a b) = Z.lxor (Z.lxor x a) (Z.lxor y b).
Proof.
  apply Z.bits_inj'. intros n _. rewrite !Z.lxor_spec.
  destruct (Z.testbit x n), (Z.testbit y n), (Z.testbit a n),
    (Z.testbit b n); reflexivity.
Qed.

Lemma byte_loop_linear (a : list Z) :
  forall (b : list Z) (x y : Z),
    length a = length b ->
    Forall is_u8 a -> Forall is_u8 b -> is_u8 x -> is_u8 y ->
    Crc.byte_loop (map (fun p => Z.lxor (fst p) (snd p)) (combine a b))
                  (Z.lxor x y)
    = Z.lxor (Crc.byte_loop a x) (Crc.byte_loop b y).
Proof.
  induction a as [|a0 a IH]; intros b x y Hlen Ha Hb Hx Hy.
  - destruct b; [reflexivity|discriminate].
  - destruct b as [|b0 b]; [discriminate|].
    inversion Ha as [|? ? Ha0 Ha']; inversion Hb as [|? ? Hb0 Hb']; subst.
    cbn [combine map fst snd Crc.byte_loop].
    rewrite lxor_interchange.
    rewrite bit_loop_linear by (apply lxor_u8; assumption).
    apply IH; try assumption.
    + cbn [length] in Hlen. lia.
    + apply bit_loop_u8, lxor_u8; assumption.
    + apply bit_loop_u8, lxor_u8; assumption.
Qed.

(** X4: the checksum of the byte-wise exclusive-or of two messages of the
    same length is the exclusive-or of their checksums. *)
Theorem SDCard_crc_linear (a b : list Z)
    (Hlen : length a = length b)
    (Ha : Forall is_u8 a) (Hb : Forall is_u8 b) :
  let n := Z.of_nat (length a) in
  SDCard_crc (map (fun p => Z.lxor (fst p) (snd p)) (combine a b)) n
  = Z.lxor (SDCard_crc a n) (SDCard_crc b n).
Proof.
  intros n. unfold SDCard_crc, n. rewrite Nat2Z.id.
  rewrite firstn_all2 by (rewrite length_map, length_combine; lia).
  rewrite firstn_all, firstn_all2 by lia.
  change 0 with (Z.lxor 0 0) at 1.
  apply byte_loop_linear; try assumption; unfold is_u8; lia.
Qed.

Lemma SDCard_crc_linear_witness :
  length [0x40; 0x12; 0x34] = length [0x11; 0xff; 0x80] /\
  Forall is_u8 [0x40; 0x12; 0x34] /\ Forall is_u8 [0x11; 0xff; 0x80] /\
  SDCard_crc (map (fun p => Z.lxor (fst p) (snd p))
                (combine [0x40; 0x12; 0x34] [0x11; 0xff; 0x80])) 3
  = Z.lxor (SDCard_crc [0x40; 0x12; 0x34] 3) (SDCard_crc [0x11; 0xff; 0x80] 3).
Proof.
  assert (U : forall x, 0 <= x < 256 -> is_u8 x) by (intros x H; exact H).
  assert (Hl : length [0x40; 0x12; 0x34] = length [0x11; 0xff; 0x80])
    by reflexivity.
  assert (Ha : Forall is_u8 [0x40; 0x12; 0x34])
    by (repeat constructor; apply U; lia).
  assert (Hb : Forall is_u8 [0x11; 0xff; 0x80])
    by (repeat constructor; apply U; lia).
  repeat (split; [assumption|]).
  exact (SDCard_crc_linear [0x40; 0x12; 0x34] [0x11; 0xff; 0x80] Hl Ha Hb).
Defined.

(** * Further properties of the command frame *)

Lemma argument_of_bytes (argument : Z) :
  is_u32 argument ->
  argument =
    Z.land (Z.shiftr argument 24) 0xff * 2 ^ 24
    + Z.land (Z.shiftr argument 16) 0xff * 2 ^ 16
    + Z.land (Z.shiftr argument 8) 0xff * 2 ^ 8
    + Z.land (Z.shiftr argument 0) 0xff.
Proof.
  intros H. unfold is_u32 in H.
  rewrite !land_ff, !Z.shiftr_div_pow2 by lia.
  change (2 ^ 24) with 16777216. change (2 ^ 16) with 65536.
  change (2 ^ 8) with 256. change (2 ^ 0) with 1.
  Z.div_mod_to_equations. lia.
Qed.

Lemma command_byte (command : Z) :
  0 <= command < 64 -> Z.lor command 0x40 = command + 64.
Proof.
  intros H.
  assert (A := each_byte
                 (fun c => (64 <=? c) || (Z.lor c 0x40 =? c + 64))
                 ltac:(vm_compute; reflexivity) command
                 ltac:(unfold is_u8; lia)).
  cbv beta in A. destruct (Z.leb_spec 64 command) as [L|L]; [lia|].
  cbn [orb] in A. apply Z.eqb_eq, A.
Qed.

(** X5: for command indices 0 to 63 and 32-bit arguments the frame is six
    bytes, the first between 0x40 and 0x7F (start bit 0, transmission bit
    1), the last odd (stop bit); and two frames are the same only when
    command and argument are: the frame can be decoded. *)
Theorem command_frame_injective (command argument command' argument' : Z)
    (Hc : 0 <= command < 64) (Ha : is_u32 argument)
    (Hc' : 0 <= command' < 64) (Ha' : is_u32 argument') :
  Forall is_u8 (command_frame command argument) /\
  length (command_frame command argument) = 6%nat /\
  0x40 <= nth 0 (command_frame command argument) 0 < 0x80 /\
  Z.odd (nth 5 (command_frame command argument) 0) = true /\
  (command_frame command argument = command_frame command' argument' ->
   command = command' /\ argument = argument').
Proof.
  assert (Hbyte : forall x, is_u8 (Z.land x 0xff)).
  { intros x. rewrite land_ff. apply to_u8_range. }
  split; [|split; [reflexivity|split; [|split]]].
  - unfold command_frame. cbv zeta.
    repeat (apply Forall_cons; [|]); try apply Hbyte; try apply Forall_nil.
    + rewrite command_byte by exact Hc. unfold is_u8. lia.
    + pose proof (byte_loop_even
                    [Z.lor command 64; Z.land (Z.shiftr argument 24) 255;
                     Z.land (Z.shiftr argument 16) 255;
                     Z.land (Z.shiftr argument 8) 255;
                     Z.land (Z.shiftr argument 0) 255] 0
                    ltac:(unfold is_u8; lia) eq_refl) as [R E].
      change (SDCard_crc ?l 5) with (Crc.byte_loop l 0).
      apply Z.even_spec in E. destruct E as [h E].
      set (c := Crc.byte_loop _ 0) in *.
      replace (Z.lor c 1) with (c + 1).
      * unfold is_u8 in *. lia.
      * rewrite E. symmetry. change (2 * h) with (Z.shiftl h 1) at 1.
        rewrite <- (Z.add_comm 1).
        change (1 + 2 * h) with (1 + 2 * h).
        rewrite Z.shiftl_mul_pow2 by lia. change (2 ^ 1) with 2.
        rewrite (Z.mul_comm h 2).
        apply Z.bits_inj'. intros n Hn. rewrite Z.lor_spec.
        destruct (Z.eq_dec n 0) as [E0|E0].
        -- subst n. rewrite Z.testbit_even_0. cbn [orb].
           rewrite Z.add_comm. change (2 * h + 1) with (2 * h + 1).
           rewrite Z.testbit_odd_0. reflexivity.
        -- replace n with (Z.succ (n - 1)) by lia.
           rewrite Z.testbit_even_succ by lia.
           rewrite Z.add_comm. rewrite Z.testbit_odd_succ by lia.
           replace (Z.testbit 1 (Z.succ (n - 1))) with false;
             [apply orb_false_r|].
           symmetry. change 1 with (2 ^ 0). apply Z.pow2_bits_false. lia.
  - cbn [command_frame nth]. rewrite command_byte by exact Hc. lia.
  - cbn [command_frame nth].
    rewrite <- Z.bit0_odd, Z.lor_spec. apply orb_true_r.
  - intros Heq. unfold command_frame in Heq. cbv zeta in Heq.
    assert (E0 := f_equal (fun l => nth 0 l 0) Heq).
    assert (E1 := f_equal (fun l => nth 1 l 0) Heq).
    assert (E2 := f_equal (fun l => nth 2 l 0) Heq).
    assert (E3 := f_equal (fun l => nth 3 l 0) Heq).
    assert (E4 := f_equal (fun l => nth 4 l 0) Heq).
    cbn [nth] in E0, E1, E2, E3, E4. clear Heq.
    rewrite !command_byte in E0 by assumption.
    split; [lia|].
    rewrite (argument_of_bytes argument Ha),
      (argument_of_bytes argument' Ha'), E1, E2, E3, E4.
    reflexivity.
Qed.

Lemma command_frame_injective_witness :
  0 <= 17 < 64 /\ is_u32 0x200 /\ 0 <= 17 < 64 /\ is_u32 0x200 /\
  Forall is_u8 (command_frame 17 0x200) /\
  length (command_frame 17 0x200) = 6%nat /\
  0x40 <= nth 0 (command_frame 17 0x200) 0 < 0x80 /\
  Z.odd (nth 5 (command_frame 17 0x200) 0) = true /\
  (command_frame 17 0x200 = command_frame 17 0x200 ->
   17 = 17 /\ 0x200 = 0x200).
Proof.
  assert (Hc : 0 <= 17 < 64) by lia.
  assert (Ha : is_u32 0x200) by (unfold is_u32; lia).
  repeat (split; [assumption|]).
  exact (command_frame_injective 17 0x200 17 0x200 Hc Ha Hc Ha).
Defined.

(** * Further properties of the exchanges *)

Lemma high_bit_u8 (r : Z) : is_u8 r -> high_bit r = (0x80 <=? r).
Proof.
  intros H.
  assert (A := each_byte (fun r => Bool.eqb (high_bit r) (0x80 <=? r))
                 ltac:(vm_compute; reflexivity) r H).
  apply Bool.eqb_prop, A.
Qed.

Section ExchangeExtras.

Context {T : Type} {spi : Transport T}.

Lemma rx_nth_range (k : nat) (t : T) : is_u8 (rx_nth k t).
Proof. unfold rx_nth. apply to_u8_range. Qed.

Lemma rx_events_filter_none (p : Event -> bool) (k : nat) (t : T) :
  (forall b, p (EvReceiveByte b) = false) -> filter p (rx_events k t) = [].
Proof.
  intros Hp. apply length_zero_iff_nil.
  apply (rx_events_count_other p k t Hp).
Qed.

(** X6: [SDCard_command] always stores the last byte it polled at offset 0
    of the response buffer, and its result says which kind of byte that is:
    success when bit 7 is clear, timeout when it is set.  On timeout no
    block receive is made and the rest of the buffer keeps its bytes; on
    success one receive of [length - 1] bytes follows the status byte and
    its bytes land from offset 1 on, the rest of the buffer keeping its
    bytes. *)
Theorem SDCard_command_response (command argument : Z) (buf : buffer)
    (length : Z) (w : World T) :
  let run := SDCard_command command argument buf length w in
  let res := fst (fst run) in
  let out := snd (fst run) in
  is_u8 (out 0%nat) /\
  (res = SDCARD_SUCCESS /\ out 0%nat < 0x80 \/
   res = SDCARD_TIMEOUT /\ 0x80 <= out 0%nat) /\
  (res = SDCARD_TIMEOUT ->
   (forall i, i <> 0%nat -> out i = buf i) /\
   count is_receive (log (snd run)) = count is_receive (log w) /\
   exists older,
     log (snd run) = EvEndTransaction :: EvReceiveByte (out 0%nat) :: older) /\
  (res = SDCARD_SUCCESS ->
   exists data older,
     log (snd run) =
       EvEndTransaction :: EvReceive (length - 1) data
         :: EvReceiveByte (out 0%nat) :: older /\
     (forall i, (i < List.length data)%nat ->
        out (S i) = to_u8 (nth i data 0)) /\
     (forall i, (List.length data < i)%nat -> out i = buf i)).
Proof.
  intros run res out.
  destruct (SDCard_command_shape command argument buf length w)
    as (k & _ & _ & _ & Heq).
  set (t0 := after_frame command argument (bus w)) in *.
  pose proof (rx_nth_range k t0) as Hr.
  pose proof (high_bit_u8 _ Hr) as Hh.
  unfold res, out, run. clear res out run.
  destruct (high_bit (rx_nth k t0)) eqn:Hhigh.
  - rewrite Heq. cbn [fst snd log]. rewrite poke_same, rx_nth_u8.
    symmetry in Hh. apply Z.leb_le in Hh.
    split; [exact Hr|]. split; [right; split; [reflexivity|exact Hh]|].
    split; [|discriminate].
    intros _. split; [intros i Hi; apply poke_other; exact Hi|]. split.
    + change (EvEndTransaction :: ?l) with ([EvEndTransaction] ++ l).
      rewrite !count_app, (rx_events_count_other is_receive) by reflexivity.
      reflexivity.
    + rewrite rx_events_snoc. eexists. reflexivity.
  - destruct (spi_receive (length - 1) (rx_skip (S k) t0)) as [data t2].
    rewrite Heq. cbn [fst snd log].
    rewrite poke_bytes_below by lia. rewrite poke_same, rx_nth_u8.
    symmetry in Hh. apply Z.leb_gt in Hh.
    split; [exact Hr|]. split; [left; split; [reflexivity|exact Hh]|].
    split; [discriminate|].
    intros _. exists data. rewrite rx_events_snoc. eexists.
    split; [reflexivity|]. split.
    + intros i Hi. apply (poke_bytes_at data _ 1 i Hi).
    + intros i Hi. rewrite poke_bytes_above by lia. apply poke_other. lia.
Qed.

(** Every path of [SDCard_read512] with what it leaves in the buffer and
    in the log. *)
Lemma SDCard_read512_paths (addr : Z) (buf : buffer) (w : World T) :
  let t0 := after_frame 17 addr (bus w) in
  exists (res : Z) (out : buffer) (w' : World T) (k k2 : nat)
         (tail : list Event),
    SDCard_read512 addr buf w = ((res, out), w') /\
    log w' = EvEndTransaction
               :: tail ++ rx_events k2 (rx_skip (S k) t0)
                    ++ rx_events (S k) t0 ++ frame_events 17 addr ++ log w /\
    ctx_ w' = ctx_ w /\
    (S k <= poll_limit (timeout (ctx_ w)))%nat /\
    (k2 <= 3000)%nat /\
    ((res = SDCARD_TIMEOUT \/ res = SDCARD_BADRESPONSE) /\
     out = buf /\ tail = []
     \/
     res = SDCARD_SUCCESS /\
     exists data, tail = [EvReceive 512 data] /\ out = poke_bytes buf 0 data).
Proof.
  intros t0.
  destruct (command_r1_shape 17 addr w) as (k & Hk & _ & _ & Heq).
  fold t0 in Heq.
  unfold SDCard_read512, read512_to_done, bind. rewrite Heq.
  destruct (high_bit (rx_nth k t0)).
  - exists SDCARD_TIMEOUT, buf. eexists. exists k, 0%nat, [].
    cbn [Z.eqb SDCARD_TIMEOUT SDCARD_SUCCESS negb ret SPI_end_transaction call].
    split; [reflexivity|]. cbn [log ctx_ app rx_events].
    repeat split; auto; lia.
  - cbn [Z.eqb SDCARD_SUCCESS negb].
    destruct (negb (rx_nth k t0 =? 0)).
    + exists SDCARD_BADRESPONSE, buf. eexists. exists k, 0%nat, [].
      cbn [ret SPI_end_transaction call].
      split; [reflexivity|]. cbn [log ctx_ app rx_events].
      repeat split; auto; lia.
    + destruct (token_poll_shape 3000 (rx_nth k t0)
                  (mkWorld (rx_skip (S k) t0) (ctx_ w)
                     (rx_events (S k) t0 ++ frame_events 17 addr ++ log w)))
        as (k2 & r & Hk2 & Hpoll).
      rewrite Hpoll. cbn [bus ctx_ log].
      destruct (r =? 255).
      * exists SDCARD_TIMEOUT, buf. eexists. exists k, k2, [].
        cbn [ret SPI_end_transaction call].
        split; [reflexivity|]. cbn [log ctx_ app].
        repeat split; auto.
      * destruct (r =? 254).
        -- unfold SPI_receive. cbn [bus ctx_ log].
           destruct (spi_receive 512 (rx_skip k2 (rx_skip (S k) t0)))
             as [data t2].
           exists SDCARD_SUCCESS. eexists. eexists.
           exists k, k2, [EvReceive 512 data].
           cbn [ret SPI_end_transaction call].
           split; [reflexivity|]. cbn [log ctx_ app].
           split; [reflexivity|]. split; [reflexivity|].
           split; [exact Hk|]. split; [exact Hk2|].
           right. split; [reflexivity|]. exists data. split; reflexivity.
        -- exists SDCARD_BADRESPONSE, buf. eexists. exists k, k2, [].
           cbn [ret SPI_end_transaction call].
           split; [reflexivity|]. cbn [log ctx_ app].
           repeat split; auto.
Qed.

Lemma SDCard_command_no_setup (command argument : Z) (buf : buffer)
    (length : Z) (w : World T) :
  filter is_setup (log (snd (SDCard_command command argument buf length w)))
  = filter is_setup (log w).
Proof.
  destruct (SDCard_command_shape command argument buf length w)
    as (k & _ & _ & _ & Heq).
  set (t0 := after_frame command argument (bus w)) in *.
  destruct (high_bit (rx_nth k t0)).
  - rewrite Heq. cbn [snd log filter is_setup].
    rewrite filter_app, (rx_events_filter_none is_setup) by reflexivity.
    reflexivity.
  - destruct (spi_receive (length - 1) (rx_skip (S k) t0)) as [data t2].
    rewrite Heq. cbn [snd log filter is_setup].
    rewrite filter_app, (rx_events_filter_none is_setup) by reflexivity.
    reflexivity.
Qed.

(** X7: [SDCard_command] and [SDCard_read512] leave the session context as
    they found it and never call [SPI_begin] or [SPI_configure]: the clock
    divisor and the timeout stay what [SDCard_init] made them. *)
Theorem exchanges_leave_session (command argument length addr : Z)
    (buf : buffer) (w : World T) :
  let command_run := SDCard_command command argument buf length w in
  let read_run := SDCard_read512 addr buf w in
  ctx_ (snd command_run) = ctx_ w /\
  filter is_setup (log (snd command_run)) = filter is_setup (log w) /\
  ctx_ (snd read_run) = ctx_ w /\
  filter is_setup (log (snd read_run)) = filter is_setup (log w).
Proof.
  intros command_run read_run. unfold command_run, read_run.
  split; [|split; [|split]].
  - destruct (SDCard_command_summary command argument buf length w)
      as (res & buf' & w' & d & E & _ & C & _).
    rewrite E. exact C.
  - apply SDCard_command_no_setup.
  - destruct (SDCard_read512_paths addr buf w)
      as (res & out & w' & k & k2 & tail & E & _ & C & _).
    rewrite E. exact C.
  - destruct (SDCard_read512_paths addr buf w)
      as (res & out & w' & k & k2 & tail & E & L & _ & _ & _ & Hpath).
    rewrite E. cbn [snd]. rewrite L. cbn [filter is_setup].
    rewrite !filter_app, !(rx_events_filter_none is_setup) by reflexivity.
    cbn [app frame_events filter is_setup].
    destruct Hpath as [(_ & _ & Ht)|(_ & data & Ht & _)]; rewrite Ht;
      reflexivity.
Qed.

(** X8: [SDCard_read512] leaves the destination buffer untouched unless it
    returns success.  On success the 512-byte receive is the last read
    before the transaction ends, so the two checksum bytes a card sends
    after the block are not read.  On every path the single bytes polled
    number at most 65536 for the status and 3000 for the token. *)
Theorem SDCard_read512_buffer_and_reads (addr : Z) (buf : buffer)
    (w : World T) :
  let run := SDCard_read512 addr buf w in
  let res := fst (fst run) in
  let out := snd (fst run) in
  (res <> SDCARD_SUCCESS ->
   out = buf /\ count is_receive (log (snd run)) = count is_receive (log w)) /\
  (res = SDCARD_SUCCESS ->
   exists data older,
     log (snd run) = EvEndTransaction :: EvReceive 512 data :: older /\
     out = poke_bytes buf 0 data /\
     count is_receive (log (snd run)) = S (count is_receive (log w))) /\
  Z.of_nat (count is_rx (log (snd run))) - Z.of_nat (count is_rx (log w))
    <= 65536 + 3000.
Proof.
  intros run res out. unfold res, out, run. clear res out run.
  destruct (SDCard_read512_paths addr buf w)
    as (res & out & w' & k & k2 & tail & E & L & _ & Hk & Hk2 & Hpath).
  rewrite E. cbn [fst snd]. rewrite L.
  set (t0 := after_frame 17 addr (bus w)) in *.
  assert (Hrx : forall l,
            count is_receive
              (rx_events k2 (rx_skip (S k) t0) ++ rx_events (S k) t0
                 ++ frame_events 17 addr ++ l) = count is_receive l).
  { intros l. rewrite !count_app,
      !(rx_events_count_other is_receive) by reflexivity. reflexivity. }
  pose proof (poll_limit_bounds (timeout (ctx_ w))) as Hlimit.
  destruct Hpath as [(Hres & Hout & Ht)|(Hres & data & Ht & Hout)];
    rewrite Ht; cbn [app].
  - split; [|split].
    + intros _. split; [exact Hout|].
      change (EvEndTransaction :: ?l) with ([EvEndTransaction] ++ l).
      rewrite count_app, Hrx. reflexivity.
    + intros Hs. destruct Hres as [Hres|Hres]; rewrite Hres in Hs;
        discriminate.
    + change (EvEndTransaction :: ?l) with ([EvEndTransaction] ++ l).
      rewrite !count_app, !rx_events_count_rx. cbn. lia.
  - split; [|split].
    + intros Hs. contradiction.
    + intros _. exists data. eexists. split; [reflexivity|].
      split; [exact Hout|].
      change (EvEndTransaction :: EvReceive 512 data :: ?l)
        with ([EvEndTransaction; EvReceive 512 data] ++ l).
      rewrite count_app, Hrx. reflexivity.
    + change (EvEndTransaction :: EvReceive 512 data :: ?l)
        with ([EvEndTransaction; EvReceive 512 data] ++ l).
      rewrite !count_app, !rx_events_count_rx. cbn. lia.
Qed.

End ExchangeExtras.

(** * Further properties of the handshake *)

Section InitExtras.

Context {T : Type} {spi : Transport T}.

(** One command, as the log shows it through [is_send] and [is_setup]. *)
Lemma SDCard_command_filters (command argument : Z) (buf : buffer)
    (length : Z) (w : World T) :
  exists (res : Z) (buf' : buffer) (w' : World T),
    SDCard_command command argument buf length w = ((res, buf'), w') /\
    ctx_ w' = ctx_ w /\
    filter is_send (log w') =
      EvSend (command_frame command argument) :: filter is_send (log w) /\
    filter is_setup (log w') = filter is_setup (log w) /\
    res = (if high_bit (buf' 0%nat) then SDCARD_TIMEOUT else SDCARD_SUCCESS).
Proof.
  pose proof (SDCard_command_no_setup command argument buf length w) as Hs.
  destruct (SDCard_command_summary command argument buf length w)
    as (res & buf' & w' & d & E & L & C & _ & _ & _ & S & R).
  rewrite E in Hs. cbn [snd] in Hs.
  exists res, buf', w'. split; [exact E|]. split; [exact C|].
  split; [rewrite L, filter_app, S; reflexivity|].
  split; [exact Hs|exact R].
Qed.

Lemma attempts_filters (k : nat) :
  forall (buf : buffer) (w : World T),
    ctx_ (snd (attempts k buf w)) = ctx_ w /\
    filter is_send (log (snd (attempts k buf w))) =
      concat (repeat acmd41_frames k) ++ filter is_send (log w) /\
    filter is_setup (log (snd (attempts k buf w))) = filter is_setup (log w).
Proof.
  induction k as [|k IH]; intros buf w.
  - repeat split.
  - rewrite attempts_step. unfold acmd41_attempt, bind.
    destruct (SDCard_command_filters 55 0 buf 1 w)
      as (r1 & b1 & w1 & E1 & C1 & S1 & U1 & _).
    destruct (SDCard_command_filters 41 (Z.shiftl 1 30) b1 5 w1)
      as (r2 & b2 & w2 & E2 & C2 & S2 & U2 & _).
    rewrite E1, E2. cbn [ret].
    destruct (IH b2 w2) as (C & S & U).
    split; [congruence|]. split; [|congruence].
    rewrite S, S2, S1, <- concat_repeat_snoc, <- app_assoc. reflexivity.
Qed.

(** The loop stops early only on a zero status; with a turn to make it
    makes at least one attempt. *)
Lemma acmd41_loop_stop (n : nat) :
  forall (buf : buffer) (w : World T),
    exists k : nat,
      (k <= n)%nat /\ ((1 <= n)%nat -> (1 <= k)%nat) /\
      acmd41_loop n buf w = attempts k buf w /\
      (fst (attempts k buf w) 0%nat <> 0 -> k = n).
Proof.
  induction n as [|n IH]; intros buf w.
  - exists 0%nat. repeat split; try lia.
  - rewrite acmd41_loop_step.
    destruct (acmd41_attempt buf w) as [buf2 w2] eqn:E.
    destruct (Z.eqb_spec (buf2 0%nat) 0) as [Hz|Hnz].
    + exists 1%nat. rewrite attempts_step, E. cbn [attempts ret fst].
      repeat split; try lia; try (intros H; contradiction).
    + destruct (IH buf2 w2) as (k & Hk & _ & Heq & Hstop).
      exists (S k). rewrite attempts_step, E.
      split; [lia|]. split; [lia|]. split; [exact Heq|].
      intros H. rewrite (Hstop H). reflexivity.
Qed.

Lemma init_after_acmd41_filters (buf : buffer) (w : World T) :
  exists (res : Z) (w' : World T),
    init_after_acmd41 buf w = (res, w') /\
    (buf 0%nat <> 0 -> res = SDCARD_TIMEOUT /\ w' = w) /\
    (buf 0%nat = 0 ->
     (res = SDCARD_SUCCESS \/ res = SDCARD_NOTSUPPORTED \/
      res = SDCARD_BADRESPONSE) /\
     filter is_send (log w') =
       EvSend (command_frame 58 0) :: filter is_send (log w) /\
     filter is_setup (log w') =
       (if res =? SDCARD_SUCCESS
        then [EvConfigure (clock_delay (ctx_ w)) SPI_MSBFIRST SPI_MODE0]
        else []) ++ filter is_setup (log w)).
Proof.
  unfold init_after_acmd41.
  destruct (Z.eqb_spec (buf 0%nat) 0) as [Hz|Hnz]; cbn [negb].
  - destruct (SDCard_command_filters 58 0 buf 5 w)
      as (r1 & b1 & w1 & E1 & C1 & S1 & U1 & _).
    unfold bind. rewrite E1.
    destruct (negb (Z.land (b1 0%nat) 254 =? 0)).
    { exists SDCARD_BADRESPONSE, w1. unfold ret.
      split; [reflexivity|]. split; [contradiction|]. intros _.
      split; [auto|]. split; [exact S1|exact U1]. }
    destruct (Z.land (b1 1%nat) 64 =? 0).
    { exists SDCARD_NOTSUPPORTED, w1. unfold ret.
      split; [reflexivity|]. split; [contradiction|]. intros _.
      split; [auto|]. split; [exact S1|exact U1]. }
    destruct (Z.land (b1 1%nat) 128 =? 0).
    { exists SDCARD_BADRESPONSE, w1. unfold ret.
      split; [reflexivity|]. split; [contradiction|]. intros _.
      split; [auto|]. split; [exact S1|exact U1]. }
    unfold get_ctx, SPI_configure, call, ret. cbn [bus ctx_ log].
    eexists SDCARD_SUCCESS, _. split; [reflexivity|].
    split; [contradiction|]. intros _. cbn [log filter is_send is_setup].
    split; [auto|]. split; [exact S1|].
    rewrite U1, C1. reflexivity.
  - exists SDCARD_TIMEOUT, w. unfold ret.
    split; [reflexivity|]. split; [auto|contradiction].
Qed.

(** The handshake as the log shows it: which frames went out, in which
    order, and which set-up calls were made, for each result. *)
Lemma SDCard_init_trace (initial_divisor divisor poll_timeout : Z)
    (stack : buffer) (w : World T) :
  let cmd0 := EvSend (command_frame 0 0) in
  let cmd8 := EvSend (command_frame 8 0x1aa) in
  let cmd58 := EvSend (command_frame 58 0) in
  exists (res : Z) (w' : World T) (k : nat),
    SDCard_init initial_divisor divisor poll_timeout stack w = (res, w') /\
    (1 <= k <= 3000)%nat /\
    ctx_ w' = mkSDCard (to_u8 divisor) poll_timeout /\
    filter is_setup (log w') =
      (if res =? SDCARD_SUCCESS
       then [EvConfigure (to_u8 divisor) SPI_MSBFIRST SPI_MODE0]
       else [])
      ++ [EvConfigure initial_divisor SPI_MSBFIRST SPI_MODE0; EvBegin]
      ++ filter is_setup (log w) /\
    (res = SDCARD_TIMEOUT /\
     filter is_send (log w') = [cmd0] ++ filter is_send (log w)
     \/
     res = SDCARD_NOTSUPPORTED /\
     filter is_send (log w') = [cmd8; cmd0] ++ filter is_send (log w)
     \/
     res = SDCARD_TIMEOUT /\
     filter is_send (log w') =
       concat (repeat acmd41_frames 3000) ++ [cmd8; cmd0]
         ++ filter is_send (log w)
     \/
     (res = SDCARD_SUCCESS \/ res = SDCARD_NOTSUPPORTED \/
      res = SDCARD_BADRESPONSE) /\
     filter is_send (log w') =
       cmd58 :: concat (repeat acmd41_frames k) ++ [cmd8; cmd0]
         ++ filter is_send (log w)).
Proof.
  intros cmd0 cmd8 cmd58.
  unfold SDCard_init, bind, set_ctx, SPI_begin, SPI_configure,
    SPI_begin_transaction, SPI_dummy_clocks, SPI_end_transaction, call.
  cbn [bus ctx_ log].
  set (c0 := mkSDCard (to_u8 divisor) poll_timeout).
  match goal with
  | |- context [SDCard_command 0 0 stack 1 ?w0] => set (w0' := w0)
  end.
  assert (S0 : filter is_send (log w0') = filter is_send (log w))
    by reflexivity.
  assert (U0 : filter is_setup (log w0') =
               [EvConfigure initial_divisor SPI_MSBFIRST SPI_MODE0; EvBegin]
                 ++ filter is_setup (log w)) by reflexivity.
  assert (C0 : ctx_ w0' = c0) by reflexivity.
  clearbody w0'.
  destruct (SDCard_command_filters 0 0 stack 1 w0')
    as (r1 & b1 & w1 & E1 & C1 & S1 & U1 & _).
  rewrite E1.
  destruct (negb (b1 0%nat =? SDCARD_R1_IDLE_STATE)).
  { exists SDCARD_TIMEOUT, w1, 1%nat. unfold ret.
    split; [reflexivity|]. split; [lia|]. split; [congruence|].
    split; [rewrite U1, U0; reflexivity|].
    left. split; [reflexivity|]. rewrite S1, S0. reflexivity. }
  destruct (SDCard_command_filters 8 0x1aa b1 5 w1)
    as (r2 & b2 & w2 & E2 & C2 & S2 & U2 & _).
  rewrite E2.
  destruct (negb (b2 0%nat =? SDCARD_R1_IDLE_STATE)
            || negb (Z.land (b2 3%nat) 1 =? 1)
            || negb (b2 4%nat =? 170)).
  { exists SDCARD_NOTSUPPORTED, w2, 1%nat. unfold ret.
    split; [reflexivity|]. split; [lia|]. split; [congruence|].
    split; [rewrite U2, U1, U0; reflexivity|].
    right. left. split; [reflexivity|]. rewrite S2, S1, S0. reflexivity. }
  destruct (acmd41_loop_stop 3000 b2 w2) as (k & Hk & Hk1 & E3 & Hstop).
  destruct (attempts_filters k b2 w2) as (C3 & S3 & U3).
  rewrite E3. destruct (attempts k b2 w2) as [b3 w3].
  cbn [fst snd] in C3, S3, U3, Hstop.
  destruct (init_after_acmd41_filters b3 w3) as (r4 & w4 & E4 & Hnz & Hz).
  rewrite E4. exists r4, w4, k.
  split; [reflexivity|]. split; [lia|].
  destruct (Z.eq_dec (b3 0%nat) 0) as [Z3|N3].
  - destruct (Hz Z3) as (R4 & S4 & U4).
    assert (C4 : ctx_ w4 = ctx_ w3).
    { destruct (init_after_acmd41_summary b3 w3)
        as (r & w'' & d & E & _ & C & _).
      rewrite E4 in E. injection E as -> ->. exact C. }
    split; [congruence|].
    split.
    + rewrite U4, U3, U2, U1, U0.
      replace (clock_delay (ctx_ w3)) with (to_u8 divisor)
        by (rewrite C3, C2, C1, C0; reflexivity).
      reflexivity.
    + right. right. right. split; [exact R4|].
      rewrite S4, S3, S2, S1, S0. reflexivity.
  - destruct (Hnz N3) as [R4 W4]. subst r4 w4.
    split; [congruence|].
    split; [rewrite U3, U2, U1, U0; reflexivity|].
    right. right. left. split; [reflexivity|].
    rewrite (Hstop N3) in S3. rewrite S3, S2, S1, S0. reflexivity.
Qed.

(** X9: the frames [SDCard_init] sends, by result.  Success: command 0,
    command 8, between 1 and 3000 pairs of command 55 and command 41, then
    command 58, and nothing else.  Timeout: command 0 alone, or command 0,
    command 8 and all 3000 pairs without command 58.  Bad-response: always
    after command 58.  Not-supported: after command 8 alone or after
    command 58. *)
Theorem SDCard_init_frames (initial_divisor divisor poll_timeout : Z)
    (stack : buffer) (w : World T) :
  let run := SDCard_init initial_divisor divisor poll_timeout stack w in
  let res := fst run in
  let sent := filter is_send (log (snd run)) in
  let before := filter is_send (log w) in
  let cmd0 := EvSend (command_frame 0 0) in
  let cmd8 := EvSend (command_frame 8 0x1aa) in
  let cmd58 := EvSend (command_frame 58 0) in
  let full (k : nat) :=
    cmd58 :: concat (repeat acmd41_frames k) ++ [cmd8; cmd0] ++ before in
  (res = SDCARD_SUCCESS ->
   exists k, (1 <= k <= 3000)%nat /\ sent = full k) /\
  (res = SDCARD_TIMEOUT ->
   sent = [cmd0] ++ before \/
   sent = concat (repeat acmd41_frames 3000) ++ [cmd8; cmd0] ++ before) /\
  (res = SDCARD_BADRESPONSE ->
   exists k, (1 <= k <= 3000)%nat /\ sent = full k) /\
  (res = SDCARD_NOTSUPPORTED ->
   sent = [cmd8; cmd0] ++ before \/
   exists k, (1 <= k <= 3000)%nat /\ sent = full k).
Proof.
  intros run res sent before cmd0 cmd8 cmd58 full.
  destruct (SDCard_init_trace initial_divisor divisor poll_timeout stack w)
    as (r & w' & k & E & Hk & _ & _ & Hcases).
  unfold res, sent, run. rewrite E. cbn [fst snd].
  destruct Hcases as [[R S]|[[R S]|[[R S]|[R S]]]].
  - rewrite R. repeat split; try discriminate. intros _. left. exact S.
  - rewrite R. repeat split; try discriminate. intros _. left. exact S.
  - rewrite R. repeat split; try discriminate. intros _. right. exact S.
  - split; [|split; [|split]]; intros Hr.
    + exists k. split; [exact Hk|exact S].
    + destruct R as [R|[R|R]]; rewrite R in Hr; discriminate.
    + exists k. split; [exact Hk|exact S].
    + right. exists k. split; [exact Hk|exact S].
Qed.

(** X10: [SDCard_init] overwrites the session context with the divisor
    modulo 256 and the timeout whatever its result is; it calls [SPI_begin]
    once and configures the bootstrap divisor once, and it configures the
    operating divisor, once and last, exactly when it returns success: after
    a failed handshake the transport is still at the bootstrap divisor. *)
Theorem SDCard_init_setup (initial_divisor divisor poll_timeout : Z)
    (stack : buffer) (w : World T) :
  let run := SDCard_init initial_divisor divisor poll_timeout stack w in
  ctx_ (snd run) = mkSDCard (divisor mod 256) poll_timeout /\
  filter is_setup (log (snd run)) =
    (if fst run =? SDCARD_SUCCESS
     then [EvConfigure (divisor mod 256) SPI_MSBFIRST SPI_MODE0]
     else [])
    ++ [EvConfigure initial_divisor SPI_MSBFIRST SPI_MODE0; EvBegin]
    ++ filter is_setup (log w).
Proof.
  intros run.
  destruct (SDCard_init_trace initial_divisor divisor poll_timeout stack w)
    as (r & w' & k & E & _ & C & U & _).
  unfold run. rewrite E. cbn [fst snd]. split; [exact C|exact U].
Qed.

End InitExtras.

Lemma SDCard_init_frames_witness :
  let run := SDCard_init (spi := Scripted.transport) 300 258 100 zeros
               (power_on good_card) in
  fst run = SDCARD_SUCCESS /\
  exists k, (1 <= k <= 3000)%nat /\
    filter is_send (log (snd run)) =
      EvSend (command_frame 58 0)
        :: concat (repeat acmd41_frames k)
           ++ [EvSend (command_frame 8 0x1aa); EvSend (command_frame 0 0)]
           ++ filter is_send (log (power_on good_card)).
Proof.
  intros run.
  assert (Hok : fst run = SDCARD_SUCCESS) by (vm_compute; reflexivity).
  split; [exact Hok|].
  destruct (SDCard_init_frames (spi := Scripted.transport) 300 258 100 zeros
              (power_on good_card)) as [Hs _].
  exact (Hs Hok).
Defined.

(** * The uninitialised response buffer of the handshake *)

Section StackFacts.

Context {T : Type} {spi : Transport T}.

(** The transport stores as many bytes as it is asked for. *)
Hypothesis honours_count :
  forall (n : Z) (t : T), length (fst (spi_receive n t)) = Z.to_nat n.

(** Two runs of one command that differ in the buffer handed in only: same
    result, same world, and buffers that agree wherever the ones handed in
    did, at the status byte, and after a success over the bytes received. *)
Lemma SDCard_command_agree (command argument : Z) (b b' : buffer)
    (len : Z) (w : World T) :
  let run := SDCard_command command argument b len w in
  let run' := SDCard_command command argument b' len w in
  fst (fst run) = fst (fst run') /\
  snd run = snd run' /\
  snd (fst run) 0%nat = snd (fst run') 0%nat /\
  (forall i, b i = b' i -> snd (fst run) i = snd (fst run') i) /\
  (fst (fst run) = SDCARD_SUCCESS ->
   forall i, (i < 1 + Z.to_nat (len - 1))%nat ->
     snd (fst run) i = snd (fst run') i).
Proof.
  intros run run'. unfold run, run'.
  destruct (__SDCard_command_r1 command argument w) as [[res r1] w1] eqn:E.
  rewrite (SDCard_command_after_r1 _ _ b len _ _ _ _ E).
  rewrite (SDCard_command_after_r1 _ _ b' len _ _ _ _ E).
  destruct (negb (res =? SDCARD_SUCCESS)) eqn:Hres.
  - cbn [fst snd]. split; [reflexivity|]. split; [reflexivity|].
    split; [rewrite !poke_same; reflexivity|]. split.
    + intros i Hi. unfold poke. destruct (Nat.eqb i 0); [reflexivity|exact Hi].
    + intros Hs. rewrite Hs in Hres. discriminate.
  - pose proof (honours_count (len - 1) (bus w1)) as Hlen.
    unfold SPI_receive.
    destruct (spi_receive (len - 1) (bus w1)) as [data t2].
    cbn [fst snd] in Hlen |- *.
    assert (Hin : forall (c : buffer) i,
              (i < 1 + Z.to_nat (len - 1))%nat ->
              poke_bytes (poke c 0 r1) 1 data i =
              match i with
              | O => to_u8 r1
              | S j => to_u8 (nth j data 0)
              end).
    { intros c [|j] Hj.
      - rewrite poke_bytes_below by lia. apply poke_same.
      - apply (poke_bytes_at data _ 1 j). lia. }
    split; [reflexivity|]. split; [reflexivity|].
    split; [rewrite !Hin by lia; reflexivity|]. split.
    + intros i Hi.
      destruct (Nat.lt_ge_cases i (1 + Z.to_nat (len - 1))) as [Hlt|Hge].
      * rewrite !Hin by exact Hlt. reflexivity.
      * rewrite !poke_bytes_above by lia.
        rewrite !poke_other by lia. exact Hi.
    + intros _ i Hi. rewrite !Hin by exact Hi. reflexivity.
Qed.

Lemma SDCard_command_agree_below (n : nat) (command argument : Z)
    (b b' : buffer) (len : Z) (w : World T) (res : Z) (out : buffer)
    (w' : World T) :
  agree_below n b b' ->
  SDCard_command command argument b len w = ((res, out), w') ->
  exists out',
    SDCard_command command argument b' len w = ((res, out'), w') /\
    agree_below n out out' /\ out 0%nat = out' 0%nat.
Proof.
  intros Hagree E.
  destruct (SDCard_command_agree command argument b b' len w)
    as (R & W & Z0 & A & _).
  rewrite E in R, W, Z0, A. cbn [fst snd] in R, W, Z0, A.
  destruct (SDCard_command command argument b' len w) as [[res' out'] w''].
  cbn [fst snd] in R, W, Z0, A. subst res' w''.
  exists out'. split; [reflexivity|]. split; [|exact Z0].
  intros i Hi. apply A, Hagree, Hi.
Qed.

Lemma acmd41_loop_agree (n : nat) :
  forall (b b' : buffer) (w : World T),
    agree_below 5 b b' ->
    snd (acmd41_loop n b w) = snd (acmd41_loop n b' w) /\
    agree_below 5 (fst (acmd41_loop n b w)) (fst (acmd41_loop n b' w)).
Proof.
  induction n as [|n IH]; intros b b' w Hagree.
  - split; [reflexivity|exact Hagree].
  - cbn [acmd41_loop]. unfold bind.
    destruct (SDCard_command 55 0 b 1 w) as [[r1 b1] w1] eqn:E1.
    destruct (SDCard_command_agree_below 5 55 0 b b' 1 w r1 b1 w1 Hagree E1)
      as (b1' & E1' & A1 & _).
    rewrite E1'.
    destruct (SDCard_command 41 (Z.shiftl 1 30) b1 5 w1)
      as [[r2 b2] w2] eqn:E2.
    destruct (SDCard_command_agree_below 5 41 (Z.shiftl 1 30) b1 b1' 5 w1
                r2 b2 w2 A1 E2) as (b2' & E2' & A2 & Z2).
    rewrite E2', <- Z2.
    destruct (b2 0%nat =? 0).
    + split; [reflexivity|exact A2].
    + apply IH, A2.
Qed.

Lemma init_after_acmd41_agree (b b' : buffer) (w : World T) :
  agree_below 5 b b' ->
  init_after_acmd41 b w = init_after_acmd41 b' w.
Proof.
  intros Hagree. unfold init_after_acmd41.
  rewrite <- (Hagree 0%nat) by lia.
  destruct (negb (b 0%nat =? 0)); [reflexivity|].
  unfold bind.
  destruct (SDCard_command 58 0 b 5 w) as [[r1 b1] w1] eqn:E1.
  destruct (SDCard_command_agree_below 5 58 0 b b' 5 w r1 b1 w1 Hagree E1)
    as (b1' & E1' & A1 & _).
  rewrite E1', <- (A1 0%nat), <- (A1 1%nat) by lia. reflexivity.
Qed.

(** X11: on a transport that stores as many bytes as it is asked for, what
    the local response buffer of [SDCard_init] holds on entry (the array is
    not initialised) changes neither the result, nor the session context,
    nor any call into the transport: every byte a test of the handshake
    looks at has been written by a command before.  The diagnostic output
    is not covered here: it prints bytes 1 to 4 of the buffer after
    command 8, which no command has written when command 8 timed out. *)
Theorem SDCard_init_ignores_stack (initial_divisor divisor poll_timeout : Z)
    (stack stack' : buffer) (w : World T) :
  SDCard_init initial_divisor divisor poll_timeout stack w
  = SDCard_init initial_divisor divisor poll_timeout stack' w.
Proof.
  unfold SDCard_init, bind, set_ctx, SPI_begin, SPI_configure,
    SPI_begin_transaction, SPI_dummy_clocks, SPI_end_transaction, call.
  cbn [bus ctx_ log].
  match goal with
  | |- context [SDCard_command 0 0 stack 1 ?w0] => set (w0' := w0)
  end.
  clearbody w0'.
  destruct (SDCard_command_agree 0 0 stack stack' 1 w0')
    as (R1 & W1 & Z1 & _).
  destruct (SDCard_command 0 0 stack 1 w0') as [[r1 b1] w1].
  destruct (SDCard_command 0 0 stack' 1 w0') as [[r1' b1'] w1'].
  cbn [fst snd] in R1, W1, Z1. subst r1' w1'. rewrite <- Z1.
  destruct (negb (b1 0%nat =? SDCARD_R1_IDLE_STATE)); [reflexivity|].
  destruct (SDCard_command_agree 8 0x1aa b1 b1' 5 w1)
    as (R2 & W2 & Z2 & _ & A2).
  destruct (SDCard_command_summary 8 0x1aa b1 5 w1)
    as (r2 & b2 & w2 & d & E2 & _ & _ & _ & _ & _ & _ & Hr2).
  rewrite E2 in R2, W2, Z2, A2 |- *.
  destruct (SDCard_command 8 0x1aa b1' 5 w1) as [[r2' b2'] w2'].
  cbn [fst snd] in R2, W2, Z2, A2. subst r2' w2'. rewrite <- Z2.
  destruct (Z.eqb_spec (b2 0%nat) SDCARD_R1_IDLE_STATE) as [Hidle|Hidle];
    cbn [negb orb]; [|reflexivity].
  assert (Hs : r2 = SDCARD_SUCCESS).
  { rewrite Hr2, Hidle. reflexivity. }
  assert (A : agree_below 5 b2 b2').
  { intros i Hi. apply (A2 Hs). change (Z.to_nat (5 - 1)) with 4%nat. lia. }
  rewrite <- (A 3%nat), <- (A 4%nat) by lia.
  destruct (negb (Z.land (b2 3%nat) 1 =? 1) || negb (b2 4%nat =? 170));
    [reflexivity|].
  destruct (acmd41_loop_agree 3000 b2 b2' w2 A) as [W3 A3].
  destruct (acmd41_loop 3000 b2 w2) as [b3 w3].
  destruct (acmd41_loop 3000 b2' w2) as [b3' w3'].
  cbn [fst snd] in W3, A3. subst w3'.
  apply init_after_acmd41_agree, A3.
Qed.

End StackFacts.

Lemma pop_n_length (n : nat) :
  forall t : list Z, length (fst (Scripted.pop_n n t)) = n.
Proof.
  induction n as [|n IH]; intros t.
  - reflexivity.
  - cbn [Scripted.pop_n]. destruct (Scripted.pop t) as [b t1].
    specialize (IH t1). destruct (Scripted.pop_n n t1) as [bs t2].
    cbn [fst length] in *. rewrite IH. reflexivity.
Qed.

Lemma SDCard_init_ignores_stack_witness :
  (forall (n : Z) (t : list Z),
     length (fst (spi_receive n t)) = Z.to_nat n) /\
  SDCard_init (spi := Scripted.transport) 300 4 20 zeros (power_on good_card)
  = SDCard_init (spi := Scripted.transport) 300 4 20 (fun _ => 0xaa)
      (power_on good_card).
Proof.
  assert (H : forall (n : Z) (t : list Z),
            length (fst (spi_receive n t)) = Z.to_nat n).
  { intros n t. apply pop_n_length. }
  split; [exact H|].
  exact (SDCard_init_ignores_stack (spi := Scripted.transport) H 300 4 20
           zeros (fun _ => 0xaa) (power_on good_card)).
Defined.

(** * The first answer of the handshake, and the bare R1 exchange *)

Section FirstAnswer.

Context {T : Type} {spi : Transport T}.

(** X12: [SDCard_init] returns timeout for every status of command 0 other
    than 0x01, also when the card answered at the first poll: a status with
    bit 7 clear that is not the idle state ends the handshake with timeout
    after a single receive attempt and with command 0 the only frame
    sent. *)
Theorem SDCard_init_reset_not_idle (initial_divisor divisor poll_timeout : Z)
    (stack : buffer) (w : World T) :
  let powered :=
    spi_end_transaction
      (spi_dummy_clocks 10
         (spi_begin_transaction
            (spi_configure initial_divisor SPI_MSBFIRST SPI_MODE0
               (spi_begin (bus w))))) in
  let status := rx_nth 0 (after_frame 0 0 powered) in
  let run := SDCard_init initial_divisor divisor poll_timeout stack w in
  high_bit status = false ->
  status <> SDCARD_R1_IDLE_STATE ->
  fst run = SDCARD_TIMEOUT /\
  count is_rx (log (snd run)) = S (count is_rx (log w)) /\
  filter is_send (log (snd run)) =
    EvSend (command_frame 0 0) :: filter is_send (log w).
Proof.
  intros powered status run Hclear Hidle.
  unfold run, SDCard_init, bind, set_ctx, SPI_begin, SPI_configure,
    SPI_begin_transaction, SPI_dummy_clocks, SPI_end_transaction, call.
  cbn [bus ctx_ log]. fold powered.
  match goal with
  | |- context [SDCard_command 0 0 stack 1 ?x] => set (w0 := x)
  end.
  assert (Heq := command_r1_stops_at 0 0 w0 0).
  cbv zeta in Heq. change (bus w0) with powered in Heq. fold status in Heq.
  specialize (Heq ltac:(pose proof (poll_limit_bounds (timeout (ctx_ w0))); lia)
                  ltac:(intros j Hj; lia) (or_introl Hclear)).
  rewrite Hclear in Heq.
  rewrite (SDCard_command_after_r1 _ _ stack 1 _ _ _ _ Heq).
  cbn [negb Z.eqb SDCARD_SUCCESS]. unfold SPI_receive. cbn [bus ctx_ log].
  destruct (spi_receive (1 - 1) (rx_skip 1 (after_frame 0 0 powered)))
    as [data t2].
  cbn [SPI_end_transaction call snd bus ctx_ log].
  rewrite poke_bytes_below by lia.
  rewrite poke_same.
  replace (to_u8 status) with status by (symmetry; apply rx_nth_u8).
  apply Z.eqb_neq in Hidle. rewrite Hidle. cbn [negb ret fst snd log].
  split; [reflexivity|]. split.
  - change (EvEndTransaction :: EvReceive (1 - 1) data :: ?l)
      with ([EvEndTransaction; EvReceive (1 - 1) data] ++ l).
    rewrite count_app, count_rx_exchange. reflexivity.
  - cbn [filter is_send]. rewrite filter_app.
    rewrite (rx_events_filter_none is_send) by reflexivity. reflexivity.
Qed.

(** X13: whatever the transport does, [__SDCard_command_r1] makes its calls
    in one order: begin transaction, one dummy clock, the frame, then
    between 1 and 65536 single-byte reads and nothing else.  It returns
    with the bus still held, the byte it returns being the last one read,
    and its result is timeout exactly when that byte has bit 7 set. *)
Theorem command_r1_calls (command argument : Z) (w : World T) :
  let run := __SDCard_command_r1 command argument w in
  let res := fst (fst run) in
  let r1 := snd (fst run) in
  exists (k : nat) (reads : list Event),
    log (snd run) =
      reads ++ [EvSend (command_frame command argument); EvDummyClocks 1;
                EvBeginTransaction] ++ log w /\
    length reads = k /\ 1 <= Z.of_nat k <= 65536 /\
    Forall (fun e => is_rx e = true) reads /\
    hd_error reads = Some (EvReceiveByte r1) /\
    txn_after (reads ++ frame_events command argument) Released = Acquired /\
    ctx_ (snd run) = ctx_ w /\
    is_u8 r1 /\
    (res = SDCARD_TIMEOUT /\ 0x80 <= r1 \/ res = SDCARD_SUCCESS /\ r1 < 0x80).
Proof.
  intros run res r1. unfold res, r1, run. clear res r1 run.
  destruct (command_r1_shape command argument w) as (k & Hk & _ & _ & Heq).
  set (t0 := after_frame command argument (bus w)) in *.
  rewrite Heq. cbn [fst snd log ctx_].
  exists (S k), (rx_events (S k) t0).
  pose proof (poll_limit_bounds (timeout (ctx_ w))) as Hlimit.
  pose proof (rx_nth_range k t0) as Hr.
  split; [reflexivity|].
  split; [apply rx_events_length|].
  split; [lia|].
  split.
  - generalize (S k). intros n. induction n as [|n IH].
    + constructor.
    + rewrite rx_events_snoc. constructor; [reflexivity|exact IH].
  - split; [rewrite rx_events_snoc; reflexivity|].
    split; [rewrite txn_after_app, rx_events_txn; reflexivity|].
    split; [reflexivity|]. split; [exact Hr|].
    rewrite (high_bit_u8 _ Hr).
    destruct (Z.leb_spec 128 (rx_nth k t0)) as [H|H].
    + left. split; [reflexivity|exact H].
    + right. split; [reflexivity|exact H].
Qed.

End FirstAnswer.

Lemma SDCard_init_reset_not_idle_witness :
  let w := power_on [0x05] in
  let run := SDCard_init (spi := Scripted.transport) 300 4 20 zeros w in
  high_bit (rx_nth 0 (after_frame 0 0 (bus w))) = false /\
  rx_nth 0 (after_frame 0 0 (bus w)) <> SDCARD_R1_IDLE_STATE /\
  fst run = SDCARD_TIMEOUT /\
  count is_rx (log (snd run)) = S (count is_rx (log w)) /\
  filter is_send (log (snd run)) =
    EvSend (command_frame 0 0) :: filter is_send (log w).
Proof.
  intros w run.
  assert (H1 : high_bit (rx_nth 0 (after_frame 0 0 (bus w))) = false)
    by reflexivity.
  assert (H2 : rx_nth 0 (after_frame 0 0 (bus w)) <> SDCARD_R1_IDLE_STATE)
    by discriminate.
  split; [exact H1|]. split; [exact H2|].
  exact (SDCard_init_reset_not_idle (spi := Scripted.transport) 300 4 20 zeros
           w H1 H2).
Defined.

Lemma SDCard_command_response_witness :
  let w := mkWorld [0xff; 0x01; 0xaa; 0xbb; 0xcc] (mkSDCard 0 5) [] in
  let run := SDCard_command (spi := Scripted.transport) 8 0x1aa zeros 3 w in
  fst (fst run) = SDCARD_SUCCESS /\
  exists data older,
    log (snd run) =
      EvEndTransaction :: EvReceive (3 - 1) data
        :: EvReceiveByte (snd (fst run) 0%nat) :: older /\
    (forall i, (i < length data)%nat ->
       snd (fst run) (S i) = to_u8 (nth i data 0)) /\
    (forall i, (length data < i)%nat -> snd (fst run) i = zeros i).
Proof.
  intros w run.
  assert (Hok : fst (fst run) = SDCARD_SUCCESS) by (vm_compute; reflexivity).
  split; [exact Hok|].
  destruct (SDCard_command_response (spi := Scripted.transport) 8 0x1aa zeros 3 w)
    as (_ & _ & _ & Hs).
  exact (Hs Hok).
Defined.

Lemma SDCard_read512_buffer_and_reads_witness :
  let card := [0x00; 0xff; 0xfe] ++ repeat 0x5a 512 ++ [0x12; 0x34] in
  let w := mkWorld card (mkSDCard 0 10) [] in
  let run := SDCard_read512 (spi := Scripted.transport) 0x200 zeros w in
  fst (fst run) = SDCARD_SUCCESS /\
  bus (snd run) = [0x12; 0x34] /\
  exists data older,
    log (snd run) = EvEndTransaction :: EvReceive 512 data :: older /\
    snd (fst run) = poke_bytes zeros 0 data /\
    count is_receive (log (snd run)) = S (count is_receive (log w)).
Proof.
  intros card w run.
  assert (Hok : fst (fst run) = SDCARD_SUCCESS) by (vm_compute; reflexivity).
  split; [exact Hok|]. split; [vm_compute; reflexivity|].
  destruct (SDCard_read512_buffer_and_reads (spi := Scripted.transport)
              0x200 zeros w) as (_ & Hs & _).
  exact (Hs Hok).
Defined.

(** * The loops inside [SDCard_read512] and [SDCard_init] *)

Lemma count_sends_command (command : Z) (l : list Event) :
  count (sends_command command) l
  = count (sends_command command) (filter is_send l).
Proof.
  unfold count. induction l as [|e l IH].
  - reflexivity.
  - destruct e; cbn [filter is_send sends_command]; try exact IH.
    destruct bytes as [|b0 rest]; [exact IH|].
    destruct (b0 =? Z.lor command 64); cbn [length]; rewrite IH; reflexivity.
Qed.

Lemma count_41_pairs (k : nat) :
  count (sends_command 41) (concat (repeat acmd41_frames k)) = k.
Proof.
  induction k as [|k IH].
  - reflexivity.
  - cbn [repeat concat]. rewrite count_app, IH. reflexivity.
Qed.

Section LoopsInPlace.

Context {T : Type} {spi : Transport T}.

Lemma SDCard_command_sends (command argument : Z) (buf : buffer)
    (length : Z) (w : World T) :
  filter is_send (log (snd (SDCard_command command argument buf length w)))
  = EvSend (command_frame command argument) :: filter is_send (log w).
Proof.
  destruct (SDCard_command_filters command argument buf length w)
    as (res & buf' & w' & E & _ & S & _).
  rewrite E. exact S.
Qed.

(** When both tests before the loop pass, [SDCard_init] is the ACMD41 loop
    and the steps after it, started where command 8 left off. *)
Lemma SDCard_init_from_negotiation (initial_divisor divisor poll_timeout : Z)
    (stack : buffer) (w : World T) :
  reaches_negotiation initial_divisor divisor poll_timeout stack w ->
  SDCard_init initial_divisor divisor poll_timeout stack w
  = bind (acmd41_loop 3000
            (snd (fst (init_interface initial_divisor divisor poll_timeout
                         stack w))))
         init_after_acmd41
         (snd (init_interface initial_divisor divisor poll_timeout stack w)).
Proof.
  unfold reaches_negotiation, init_interface, init_reset, init_power_up,
    SDCard_init.
  unfold bind, set_ctx, SPI_begin, SPI_configure, SPI_begin_transaction,
    SPI_dummy_clocks, SPI_end_transaction, call.
  cbv zeta. cbn [bus ctx_ log fst snd].
  match goal with
  | |- context [SDCard_command 0 0 stack 1 ?x] => set (w0 := x)
  end.
  destruct (SDCard_command 0 0 stack 1 w0) as [[r1 b1] w1].
  cbn [fst snd]. intros (H1 & H2 & H3 & H4).
  rewrite H1, Z.eqb_refl. cbn [negb].
  destruct (SDCard_command 8 426 b1 5 w1) as [[r2 b2] w2].
  cbn [fst snd] in H2, H3, H4 |- *.
  rewrite H2, H3, H4, !Z.eqb_refl. reflexivity.
Qed.

Lemma sent_before_negotiation (initial_divisor divisor poll_timeout : Z)
    (stack : buffer) (w : World T) :
  filter is_send
    (log (snd (init_interface initial_divisor divisor poll_timeout stack w)))
  = [EvSend (command_frame 8 0x1aa); EvSend (command_frame 0 0)]
      ++ filter is_send (log w).
Proof.
  unfold init_interface, init_reset. cbv zeta.
  rewrite !SDCard_command_sends. reflexivity.
Qed.

(** All 3000 attempts leave a non-zero status: the handshake stops there. *)
Lemma SDCard_init_negotiation_exhausted
    (initial_divisor divisor poll_timeout : Z) (stack : buffer)
    (w : World T) :
  let interface :=
    init_interface initial_divisor divisor poll_timeout stack w in
  reaches_negotiation initial_divisor divisor poll_timeout stack w ->
  (forall j, (1 <= j <= 3000)%nat ->
     status_after j (snd (fst interface)) (snd interface) <> 0) ->
  SDCard_init initial_divisor divisor poll_timeout stack w
  = (SDCARD_TIMEOUT, snd (attempts 3000 (snd (fst interface)) (snd interface))).
Proof.
  intros interface Hreach Hall.
  rewrite (SDCard_init_from_negotiation _ _ _ _ _ Hreach). fold interface.
  unfold bind.
  rewrite (acmd41_loop_exhausted 3000 _ _ Hall).
  specialize (Hall 3000%nat ltac:(lia)). unfold status_after in Hall.
  destruct (attempts 3000 (snd (fst interface)) (snd interface))
    as [bufk wk].
  cbn [fst snd] in Hall |- *.
  destruct (init_after_acmd41_filters bufk wk) as (res & w' & E & Hnz & _).
  destruct (Hnz Hall) as [-> ->]. exact E.
Qed.

(** C8: once command 0 and command 8 have passed their tests, [SDCard_init]
    makes between 1 and 3000 attempts, each sending command 55 and then
    command 41 with bit 30 (HCS) of the argument set, and sends nothing else
    but command 58 after them.  The first attempt that leaves a zero status
    byte is the last one, however many non-zero ones came before: the next
    frame is command 58 and the result is not the timeout of this step.
    When all 3000 attempts leave a non-zero status byte, [SDCard_init]
    returns timeout right after the 3000th, with no further call. *)
Theorem acmd41_negotiation (initial_divisor divisor poll_timeout : Z)
    (stack : buffer) (w : World T)
    (Hreach : reaches_negotiation initial_divisor divisor poll_timeout
                stack w) :
  let interface :=
    init_interface initial_divisor divisor poll_timeout stack w in
  let buf := snd (fst interface) in
  let w8 := snd interface in
  let run := SDCard_init initial_divisor divisor poll_timeout stack w in
  let sent := filter is_send (log (snd run)) in
  let upto8 :=
    [EvSend (command_frame 8 0x1aa); EvSend (command_frame 0 0)]
      ++ filter is_send (log w) in
  (acmd41_frames = [EvSend [0x69; 0x40; 0; 0; 0; 0x77];
                    EvSend [0x77; 0; 0; 0; 0; 0x65]] /\
   Z.testbit (Z.shiftl 1 30) 30 = true)
  /\
  (exists k : nat,
     (1 <= k <= 3000)%nat /\
     (sent = concat (repeat acmd41_frames k) ++ upto8 \/
      sent = EvSend (command_frame 58 0)
               :: concat (repeat acmd41_frames k) ++ upto8))
  /\
  (forall k : nat,
     (1 <= k <= 3000)%nat ->
     (forall j, (1 <= j < k)%nat -> status_after j buf w8 <> 0) ->
     status_after k buf w8 = 0 ->
     fst run <> SDCARD_TIMEOUT /\
     sent = EvSend (command_frame 58 0)
              :: concat (repeat acmd41_frames k) ++ upto8 /\
     exists later, log (snd run) = later ++ log (snd (attempts k buf w8)))
  /\
  ((forall j, (1 <= j <= 3000)%nat -> status_after j buf w8 <> 0) ->
   run = (SDCARD_TIMEOUT, snd (attempts 3000 buf w8)) /\
   sent = concat (repeat acmd41_frames 3000) ++ upto8).
Proof.
  intros interface buf w8 run sent upto8.
  assert (Hrun : run = bind (acmd41_loop 3000 buf) init_after_acmd41 w8).
  { apply (SDCard_init_from_negotiation _ _ _ _ _ Hreach). }
  assert (Hsent8 : filter is_send (log w8) = upto8).
  { apply sent_before_negotiation. }
  assert (Hsents : forall k,
            filter is_send (log (snd (attempts k buf w8)))
            = concat (repeat acmd41_frames k) ++ upto8).
  { intros k. destruct (attempts_filters k buf w8) as (_ & S & _).
    rewrite S, Hsent8. reflexivity. }
  split; [split; reflexivity|]. split; [|split].
  - destruct (acmd41_loop_stop 3000 buf w8) as (k & Hk & Hk1 & Heq & _).
    exists k. split; [lia|].
    unfold sent. rewrite Hrun. unfold bind. rewrite Heq.
    specialize (Hsents k).
    destruct (attempts k buf w8) as [bufk wk]. cbn [snd] in Hsents.
    destruct (init_after_acmd41_filters bufk wk) as (res & w' & E & Hnz & Hz).
    rewrite E. cbn [snd].
    destruct (Z.eq_dec (bufk 0%nat) 0) as [Z0|N0].
    + right. destruct (Hz Z0) as (_ & S & _). rewrite S, Hsents. reflexivity.
    + left. destruct (Hnz N0) as [_ ->]. exact Hsents.
  - intros k Hk Hbefore Hzero.
    assert (Heq := acmd41_loop_first_zero 3000 k buf w8 Hk Hbefore Hzero).
    unfold sent. rewrite Hrun. unfold bind. rewrite Heq.
    specialize (Hsents k). unfold status_after in Hzero.
    destruct (attempts k buf w8) as [bufk wk]. cbn [fst snd] in Hzero, Hsents |- *.
    destruct (init_after_acmd41_filters bufk wk) as (res & w' & E & _ & Hz).
    destruct (Hz Hzero) as (R & S & _).
    destruct (init_after_acmd41_summary bufk wk)
      as (res' & w'' & d & E' & L & _).
    rewrite E in E'. injection E' as <- <-.
    rewrite E. cbn [fst snd]. split; [|split].
    + destruct R as [R|[R|R]]; rewrite R; discriminate.
    + rewrite S, Hsents. reflexivity.
    + exists d. exact L.
  - intros Hall.
    assert (Heq := SDCard_init_negotiation_exhausted _ _ _ _ _ Hreach Hall).
    fold interface in Heq. fold buf w8 run in Heq.
    split; [exact Heq|].
    unfold sent. rewrite Heq. cbn [snd]. apply Hsents.
Qed.

(** The single-byte reads [SDCard_read512] makes after its R1 exchange. *)
Lemma SDCard_read512_token_reads (addr : Z) (buf : buffer) (w : World T) :
  exists k2 : nat,
    (k2 <= 3000)%nat /\
    count is_rx (log (snd (SDCard_read512 addr buf w)))
    = (k2 + count is_rx (log (snd (__SDCard_command_r1 17 addr w))))%nat.
Proof.
  unfold SDCard_read512, read512_to_done, bind.
  destruct (__SDCard_command_r1 17 addr w) as [[res r1] w1]. cbn [snd].
  destruct (negb (res =? SDCARD_SUCCESS)).
  { exists 0%nat. split; [lia|]. reflexivity. }
  destruct (negb (r1 =? 0)).
  { exists 0%nat. split; [lia|]. reflexivity. }
  destruct (token_poll_shape 3000 r1 w1) as (k2 & r & Hk2 & Hpoll).
  rewrite Hpoll. exists k2. split; [exact Hk2|].
  destruct (r =? 255).
  { cbn [ret SPI_end_transaction call snd log].
    change (EvEndTransaction :: ?l) with ([EvEndTransaction] ++ l).
    rewrite !count_app, rx_events_count_rx. reflexivity. }
  destruct (r =? 254).
  - unfold SPI_receive. cbn [bus ctx_ log].
    destruct (spi_receive 512 (rx_skip k2 (bus w1))) as [data t2].
    cbn [ret SPI_end_transaction call snd log].
    change (EvEndTransaction :: EvReceive 512 data :: ?l)
      with ([EvEndTransaction; EvReceive 512 data] ++ l).
    rewrite !count_app, rx_events_count_rx. reflexivity.
  - cbn [ret SPI_end_transaction call snd log].
    change (EvEndTransaction :: ?l) with ([EvEndTransaction] ++ l).
    rewrite !count_app, rx_events_count_rx. reflexivity.
Qed.

Lemma SDCard_read512_idle_line (addr : Z) (buf : buffer) (w : World T) :
  let r1_run := __SDCard_command_r1 17 addr w in
  fst r1_run = (SDCARD_SUCCESS, 0) ->
  (forall j, (j < 3000)%nat -> rx_nth j (bus (snd r1_run)) = 0xff) ->
  fst (fst (SDCard_read512 addr buf w)) = SDCARD_TIMEOUT /\
  count is_rx (log (snd (SDCard_read512 addr buf w)))
  = (3000 + count is_rx (log (snd r1_run)))%nat.
Proof.
  intros r1_run. unfold r1_run, SDCard_read512, read512_to_done, bind.
  destruct (__SDCard_command_r1 17 addr w) as [[res r1] w1].
  cbn [fst snd]. intros Hr Hidle. injection Hr as -> ->.
  cbn [Z.eqb SDCARD_SUCCESS negb].
  rewrite (token_poll_idle 3000 0 w1 Hidle).
  cbn [Z.eqb Pos.eqb ret SPI_end_transaction call fst snd log].
  split; [reflexivity|].
  change (EvEndTransaction :: ?l) with ([EvEndTransaction] ++ l).
  rewrite !count_app, rx_events_count_rx. reflexivity.
Qed.

(** C1, amended: the status poll of [__SDCard_command_r1] is bounded by the
    session's configured timeout: for a configured value of at least 1 it
    makes between 1 and that many receive attempts.  The two other loops
    are bounded by the constant 3000 whatever the configured timeout is:
    after its R1 exchange [SDCard_read512] polls at most 3000 bytes for the
    data token, and exactly 3000 when the card accepted the command and
    stays silent; [SDCard_init] sends command 41 at most 3000 times, and
    exactly 3000 times when the handshake reaches that step and no attempt
    leaves a zero status. *)
Theorem polling_bounds (command argument addr : Z)
    (initial_divisor divisor poll_timeout : Z) (buf stack : buffer)
    (w : World T) :
  let reads (m : World T) := Z.of_nat (count is_rx (log m)) in
  let sent41 (m : World T) :=
    Z.of_nat (count (sends_command 41) (log m)) in
  let r1_run := __SDCard_command_r1 17 addr w in
  let read_run := SDCard_read512 addr buf w in
  let token_reads := reads (snd read_run) - reads (snd r1_run) in
  let interface :=
    init_interface initial_divisor divisor poll_timeout stack w in
  let init_run := SDCard_init initial_divisor divisor poll_timeout stack w in
  let attempts41 := sent41 (snd init_run) - sent41 w in
  (is_u16 (timeout (ctx_ w)) -> 1 <= timeout (ctx_ w) ->
   1 <= reads (snd (__SDCard_command_r1 command argument w)) - reads w
     <= timeout (ctx_ w))
  /\
  (0 <= token_reads <= 3000 /\
   (fst r1_run = (SDCARD_SUCCESS, 0) ->
    (forall j, (j < 3000)%nat -> rx_nth j (bus (snd r1_run)) = 0xff) ->
    token_reads = 3000 /\ fst (fst read_run) = SDCARD_TIMEOUT))
  /\
  (0 <= attempts41 <= 3000 /\
   (reaches_negotiation initial_divisor divisor poll_timeout stack w ->
    (forall j, (1 <= j <= 3000)%nat ->
       status_after j (snd (fst interface)) (snd interface) <> 0) ->
    attempts41 = 3000 /\ fst init_run = SDCARD_TIMEOUT)).
Proof.
  intros reads sent41 r1_run read_run token_reads interface init_run
    attempts41.
  split; [|split].
  - intros Hbound Hpos.
    destruct (command_r1_shape command argument w) as (k & Hk & _ & _ & Heq).
    unfold reads. rewrite Heq. cbn [snd log]. rewrite count_rx_exchange.
    pose proof (poll_limit_positive _ Hbound Hpos). lia.
  - split.
    + destruct (SDCard_read512_token_reads addr buf w) as (k2 & Hk2 & Hc).
      unfold token_reads, reads, read_run, r1_run. rewrite Hc. lia.
    + intros Hr Hidle.
      destruct (SDCard_read512_idle_line addr buf w Hr Hidle) as [R Hc].
      unfold token_reads, reads, read_run, r1_run.
      split; [rewrite Hc; lia|exact R].
  - assert (H41 : forall k l,
              count (sends_command 41)
                (concat (repeat acmd41_frames k)
                   ++ [EvSend (command_frame 8 0x1aa);
                       EvSend (command_frame 0 0)] ++ l)
              = (k + count (sends_command 41) l)%nat).
    { intros k l. rewrite !count_app, count_41_pairs. reflexivity. }
    split.
    + destruct (SDCard_init_trace initial_divisor divisor poll_timeout
                  stack w) as (r & w' & k & E & Hk & _ & _ & Hcases).
      unfold attempts41, sent41, init_run. rewrite E. cbn [snd].
      rewrite (count_sends_command 41 (log w')),
        (count_sends_command 41 (log w)).
      destruct Hcases as [[_ S]|[[_ S]|[[_ S]|[_ S]]]]; rewrite S.
      * rewrite count_app. change (count (sends_command 41)
                                     [EvSend (command_frame 0 0)]) with 0%nat.
        lia.
      * rewrite count_app. change (count (sends_command 41)
                                     [EvSend (command_frame 8 426);
                                      EvSend (command_frame 0 0)]) with 0%nat.
        lia.
      * rewrite H41. lia.
      * change (EvSend (command_frame 58 0) :: ?l)
          with ([EvSend (command_frame 58 0)] ++ l).
        rewrite count_app, H41.
        change (count (sends_command 41) [EvSend (command_frame 58 0)])
          with 0%nat.
        lia.
    + intros Hreach Hall.
      assert (Heq := SDCard_init_negotiation_exhausted _ _ _ _ _ Hreach Hall).
      fold interface in Heq. fold init_run in Heq.
      unfold attempts41, sent41. rewrite Heq. cbn [fst snd].
      split; [|reflexivity].
      rewrite (count_sends_command 41 (log (snd (attempts 3000 _ _)))),
        (count_sends_command 41 (log w)).
      destruct (attempts_filters 3000 (snd (fst interface)) (snd interface))
        as (_ & S & _).
      rewrite S. unfold interface. rewrite sent_before_negotiation, H41. lia.
Qed.

End LoopsInPlace.

Lemma reaches_negotiation_good_card :
  reaches_negotiation (spi := Scripted.transport) 300 258 100 zeros
    (power_on good_card).
Proof. unfold reaches_negotiation. cbv zeta. repeat split. Qed.

Lemma acmd41_negotiation_witness :
  let w := power_on good_card in
  let interface :=
    init_interface (spi := Scripted.transport) 300 258 100 zeros w in
  let run := SDCard_init (spi := Scripted.transport) 300 258 100 zeros w in
  reaches_negotiation (spi := Scripted.transport) 300 258 100 zeros w /\
  status_after 1 (snd (fst interface)) (snd interface) = 0x01 /\
  status_after 2 (snd (fst interface)) (snd interface) = 0x00 /\
  fst run <> SDCARD_TIMEOUT /\
  filter is_send (log (snd run)) =
    EvSend (command_frame 58 0)
      :: concat (repeat acmd41_frames 2)
         ++ [EvSend (command_frame 8 0x1aa); EvSend (command_frame 0 0)]
         ++ filter is_send (log w).
Proof.
  intros w interface run.
  assert (Hreach := reaches_negotiation_good_card).
  assert (H1 : status_after 1 (snd (fst interface)) (snd interface) = 0x01)
    by (vm_compute; reflexivity).
  assert (H2 : status_after 2 (snd (fst interface)) (snd interface) = 0x00)
    by (vm_compute; reflexivity).
  split; [exact Hreach|]. split; [exact H1|]. split; [exact H2|].
  destruct (acmd41_negotiation (spi := Scripted.transport) 300 258 100 zeros
              w Hreach) as (_ & _ & Hfirst & _).
  destruct (Hfirst 2%nat) as (A & B & _).
  - lia.
  - intros j Hj. assert (j = 1%nat) by lia. subst j.
    fold interface. rewrite H1. discriminate.
  - exact H2.
  - split; [exact A|exact B].
Defined.

Lemma scripted_silence (j : nat) :
  rx_nth (spi := Scripted.transport) j [] = 0xff.
Proof.
  unfold rx_nth. replace (rx_skip j []) with (@nil Z); [reflexivity|].
  induction j as [|j IH]; [reflexivity|exact IH].
Qed.

Lemma polling_bounds_witness :
  let w := mkWorld [0x00] (mkSDCard 0 1) [] in
  let r1_run := __SDCard_command_r1 (spi := Scripted.transport) 17 0 w in
  let read_run := SDCard_read512 (spi := Scripted.transport) 0 zeros w in
  is_u16 (timeout (ctx_ w)) /\ 1 <= timeout (ctx_ w) /\
  fst r1_run = (SDCARD_SUCCESS, 0) /\
  (forall j, (j < 3000)%nat -> rx_nth j (bus (snd r1_run)) = 0xff) /\
  1 <= Z.of_nat (count is_rx (log (snd r1_run)))
       - Z.of_nat (count is_rx (log w)) <= timeout (ctx_ w) /\
  Z.of_nat (count is_rx (log (snd read_run)))
    - Z.of_nat (count is_rx (log (snd r1_run))) = 3000 /\
  fst (fst read_run) = SDCARD_TIMEOUT.
Proof.
  intros w r1_run read_run.
  assert (Hb : is_u16 (timeout (ctx_ w))) by (unfold is_u16; simpl; lia).
  assert (Hp : 1 <= timeout (ctx_ w)) by (simpl; lia).
  assert (Hr : fst r1_run = (SDCARD_SUCCESS, 0)) by reflexivity.
  assert (Hidle : forall j, (j < 3000)%nat ->
                    rx_nth j (bus (snd r1_run)) = 0xff).
  { intros j _. change (bus (snd r1_run)) with (@nil Z).
    apply scripted_silence. }
  split; [exact Hb|]. split; [exact Hp|]. split; [exact Hr|].
  split; [exact Hidle|].
  destruct (polling_bounds (spi := Scripted.transport) 17 0 0 300 4 1 zeros
              zeros w) as (A & (_ & B) & _).
  split; [exact (A Hb Hp)|]. exact (B Hr Hidle).
Defined.

(** * Checking a frame with [SDCard_crc] *)

Lemma crc_snoc (msg : list Z) (b : Z) :
  SDCard_crc (msg ++ [b]) (Z.of_nat (length msg) + 1)
  = Crc.bit_loop 8 (Z.lxor (SDCard_crc msg (Z.of_nat (length msg))) b).
Proof.
  unfold SDCard_crc.
  replace (Z.to_nat (Z.of_nat (length msg) + 1)) with (length (msg ++ [b]))
    by (rewrite length_app; simpl; lia).
  rewrite Nat2Z.id, !firstn_all, byte_loop_app. reflexivity.
Qed.

Lemma crc_range_even (msg : list Z) (n : Z) :
  is_u8 (SDCard_crc msg n) /\ Z.even (SDCard_crc msg n) = true.
Proof.
  unfold SDCard_crc. apply byte_loop_even; [unfold is_u8; lia|reflexivity].
Qed.

Lemma frame_check_byte (c b : Z) :
  is_u8 c -> is_u8 b -> Z.even c = true -> Z.odd b = true ->
  (Crc.bit_loop 8 (Z.lxor c b) = 0x12 <-> b = Z.lor c 0x01).
Proof.
  intros Hc Hb He Ho.
  assert (A := pairs_of_bytes
                 (fun c b =>
                    negb (Z.even c) || negb (Z.odd b)
                    || Bool.eqb (Crc.bit_loop 8 (Z.lxor c b) =? 0x12)
                                (b =? Z.lor c 0x01))
                 ltac:(vm_compute; reflexivity) c b Hc Hb).
  cbv beta in A. rewrite He, Ho in A. cbn [negb orb] in A.
  apply Bool.eqb_prop in A.
  split; intros H.
  - apply Z.eqb_eq. rewrite <- A. apply Z.eqb_eq, H.
  - apply Z.eqb_eq. rewrite A. apply Z.eqb_eq, H.
Qed.

Lemma stop_bit_byte (c : Z) :
  is_u8 c -> is_u8 (Z.lor c 0x01) /\ Z.odd (Z.lor c 0x01) = true.
Proof.
  intros Hc.
  assert (A := each_byte
                 (fun c => (0 <=? Z.lor c 1) && (Z.lor c 1 <? 256)
                           && Z.odd (Z.lor c 1))
                 ltac:(vm_compute; reflexivity) c Hc).
  cbv beta in A. apply andb_prop in A. destruct A as [A O].
  apply andb_prop in A. destruct A as [L U].
  split; [split; [apply Z.leb_le, L|apply Z.ltb_lt, U]|exact O].
Qed.

(** X1: a receiver can check a frame by running [SDCard_crc] over all of
    it.  A message followed by a byte that has the stop bit set gives 0x12
    exactly when that byte is the checksum of the message with the stop bit
    set; so every six-byte frame [__SDCard_command_r1] builds gives 0x12,
    and a frame whose last byte is any other odd byte does not. *)
Theorem SDCard_crc_checks_frame (msg : list Z) (b command argument : Z)
    (Hb : is_u8 b) (Hstop : Z.odd b = true) :
  let n := Z.of_nat (length msg) in
  (SDCard_crc (msg ++ [b]) (n + 1) = 0x12
   <-> b = Z.lor (SDCard_crc msg n) 0x01) /\
  SDCard_crc (command_frame command argument) 6 = 0x12.
Proof.
  intros n.
  assert (Hcheck : forall (m : list Z) (x : Z),
            is_u8 x -> Z.odd x = true ->
            (SDCard_crc (m ++ [x]) (Z.of_nat (length m) + 1) = 0x12
             <-> x = Z.lor (SDCard_crc m (Z.of_nat (length m))) 0x01)).
  { intros m x Hx Ho. rewrite crc_snoc.
    destruct (crc_range_even m (Z.of_nat (length m))) as [R E].
    apply frame_check_byte; assumption. }
  split; [apply Hcheck; assumption|].
  unfold command_frame. cbv zeta.
  set (b0 := Z.lor command 64).
  set (b1 := Z.land (Z.shiftr argument 24) 255).
  set (b2 := Z.land (Z.shiftr argument 16) 255).
  set (b3 := Z.land (Z.shiftr argument 8) 255).
  set (b4 := Z.land (Z.shiftr argument 0) 255).
  destruct (crc_range_even [b0; b1; b2; b3; b4] 5) as [R _].
  destruct (stop_bit_byte _ R) as [Hu Ho].
  apply (Hcheck [b0; b1; b2; b3; b4] _ Hu Ho). reflexivity.
Qed.

Lemma SDCard_crc_checks_frame_witness :
  is_u8 0x95 /\ Z.odd 0x95 = true /\
  (SDCard_crc ([0x40; 0; 0; 0; 0] ++ [0x95]) 6 = 0x12
   <-> 0x95 = Z.lor (SDCard_crc [0x40; 0; 0; 0; 0] 5) 0x01) /\
  SDCard_crc (command_frame 17 0x200) 6 = 0x12.
Proof.
  assert (Hb : is_u8 0x95) by (unfold is_u8; lia).
  assert (Ho : Z.odd 0x95 = true) by reflexivity.
  split; [exact Hb|]. split; [exact Ho|].
  exact (SDCard_crc_checks_frame [0x40; 0; 0; 0; 0] 0x95 17 0x200 Hb Ho).
Defined.
